(** * SSM-SAM training and evaluation scripts: a shallow embedding

    The repository consists of two Python scripts, [train.py] and [test.py].
    Both are glue around an external deep-learning framework: they read a
    YAML configuration, build data sets and a model through factories, run
    a training or an evaluation loop and write checkpoints and CSV logs.

    The embedding follows the scripts function by function.

    - Python values that the scripts inspect themselves (configuration
      entries, strings, numbers, dictionaries) are values of [pyval].
    - Objects owned by the framework (tensors, modules, loaders, ...) are
      opaque handles of type [Obj]; every operation on them is an operation
      of the interface [Framework], which threads an opaque external state
      and may raise.
    - The scripts run in a state-and-exception monad [M]: the state holds
      the files written by the scripts, the trace of calls that left the
      scripts, and the external state.  No script contains a [try]
      statement, and accordingly the monad has no handler. *)

From Stdlib Require Import ZArith List String Ascii Bool Lia.
From Stdlib Require Import Floats.PrimFloat.
From stdpp Require Import base option list strings gmap.

Set Warnings "-register-all,-notation-for-abbreviation,-inexact-float".

Local Open Scope string_scope.
Local Open Scope Z_scope.

(** ** Python values *)

Module Py.

(** Values the scripts look into.  [Obj] is the type of framework objects;
    a dictionary is an association list because Python dictionaries keep
    insertion order (and [yaml.dump] is called with [sort_keys=False]). *)
Inductive pyval (Obj : Type) : Type :=
| VNone
| VBool (b : bool)
| VInt (z : Z)
| VFloat (f : float)
| VStr (s : string)
| VList (l : list (pyval Obj))
| VDict (d : list (string * pyval Obj))
| VObj (o : Obj).

Arguments VNone {Obj}.
Arguments VBool {Obj} b.
Arguments VInt {Obj} z.
Arguments VFloat {Obj} f.
Arguments VStr {Obj} s.
Arguments VList {Obj} l.
Arguments VDict {Obj} d.
Arguments VObj {Obj} o.

(** Exceptions that the scripts' own statements can raise, and [ExtError]
    for whatever the framework raises. *)
Inductive exn : Type :=
| UnboundLocalError (name : string)
| KeyError (key : string)
| TypeError (what : string)
| AttributeError (attr : string)
| ZeroDivisionError
| ExtError (origin : string).

Inductive result (A : Type) : Type :=
| Ok (a : A)
| Raise (e : exn).

Arguments Ok {A} a.
Arguments Raise {A} e.

Definition is_ok {A} (r : result A) : bool :=
  match r with Ok _ => true | Raise _ => false end.

Section Values.
Context {Obj : Type}.
Local Notation value := (pyval Obj).

(** [v == 'lit'] for a string literal: only a string can be equal to it. *)
Definition eq_str (v : value) (lit : string) : bool :=
  match v with
  | VStr s => String.eqb s lit
  | _ => false
  end.

(** [v is None] *)
Definition is_none (v : value) : bool :=
  match v with VNone => true | _ => false end.

Fixpoint dict_lookup (d : list (string * value)) (k : string) : option value :=
  match d with
  | [] => None
  | (k', v) :: d' => if String.eqb k' k then Some v else dict_lookup d' k
  end.

(** [d[k] = v] on a dictionary: an existing key keeps its position, a new
    key goes last. *)
Fixpoint dict_store (d : list (string * value)) (k : string) (v : value)
  : list (string * value) :=
  match d with
  | [] => [(k, v)]
  | (k', v') :: d' =>
      if String.eqb k' k then (k, v) :: d' else (k', v') :: dict_store d' k v
  end.

(** [c.get(k)]: a method of dictionaries, with default [None]. *)
Definition get (c : value) (k : string) : result value :=
  match c with
  | VDict d => Ok (default VNone (dict_lookup d k))
  | _ => Raise (AttributeError "get")
  end.

(** [c[k]] for a string key [k]. *)
Definition getitem (c : value) (k : string) : result value :=
  match c with
  | VDict d =>
      match dict_lookup d k with
      | Some v => Ok v
      | None => Raise (KeyError k)
      end
  | _ => Raise (TypeError "subscript")
  end.

(** [c[k] = v] for a string key [k]. *)
Definition setitem (c : value) (k : string) (v : value) : result value :=
  match c with
  | VDict d => Ok (VDict (dict_store d k v))
  | _ => Raise (TypeError "item assignment")
  end.

(** Integers as Python sees them: [bool] is a subtype of [int]. *)
Definition as_int (v : value) : option Z :=
  match v with
  | VInt z => Some z
  | VBool b => Some (if b then 1 else 0)
  | _ => None
  end.

(** [v + 1] *)
Definition add_one (v : value) : result value :=
  match v with
  | VInt z => Ok (VInt (z + 1))
  | VBool b => Ok (VInt ((if b then 1 else 0) + 1))
  | VFloat f => Ok (VFloat (f + 1)%float)
  | _ => Raise (TypeError "+")
  end.

(** [range(start, stop, step)] for integers and a positive step, as the
    list it iterates over. *)
Fixpoint range_from (n : nat) (start step : Z) : list Z :=
  match n with
  | O => []
  | S n' => start :: range_from n' (start + step) step
  end.

Definition range_step (start stop step : Z) : list Z :=
  range_from (Z.to_nat ((stop - start + step - 1) / step)) start step.

(** [range(a, b)] on values: both bounds have to be integers. *)
Definition range (a b : value) : result (list Z) :=
  match as_int a, as_int b with
  | Some x, Some y => Ok (range_step x y 1)
  | _, _ => Raise (TypeError "range")
  end.

End Values.

(** ** Strings and paths *)

Definition starts_with_slash (s : string) : bool :=
  match s with
  | String c _ => Ascii.eqb c "/"%char
  | EmptyString => false
  end.

Fixpoint ends_with_slash (s : string) : bool :=
  match s with
  | EmptyString => false
  | String c EmptyString => Ascii.eqb c "/"%char
  | String _ s' => ends_with_slash s'
  end.

(** The directory part that [os.path.join a _] puts in front of a relative
    second component. *)
Definition dir_prefix (a : string) : string :=
  match a with
  | EmptyString => EmptyString
  | _ => if ends_with_slash a then a else a ++ "/"
  end.

(** [os.path.join(a, b)] (POSIX): an absolute [b] replaces [a]. *)
Definition os_path_join (a b : string) : string :=
  if starts_with_slash b then b else dir_prefix a ++ b.

(** [s[-1]], if any *)
Fixpoint last_char (s : string) : option ascii :=
  match s with
  | EmptyString => None
  | String c EmptyString => Some c
  | String _ s' => last_char s'
  end.

(** [s.split('/')[-1]] *)
Fixpoint has_slash (s : string) : bool :=
  match s with
  | EmptyString => false
  | String c s' => Ascii.eqb c "/"%char || has_slash s'
  end.

Fixpoint last_component (s : string) : string :=
  match s with
  | EmptyString => EmptyString
  | String c s' => if has_slash s then last_component s' else s
  end.

(** [sub in s] *)
Fixpoint contains (sub s : string) : bool :=
  String.prefix sub s ||
  match s with
  | EmptyString => false
  | String _ s' => contains sub s'
  end.

(** [s[:-k]] for [k > 0] *)
Definition drop_last (k : nat) (s : string) : string :=
  String.substring 0 (String.length s - k) s.

End Py.

Import Py.

(** ** The external framework *)

(** The five metric functions of the external module [utils] that
    [eval_psnr] chooses from. *)
Inductive metric_fn : Type :=
| calc_f1 | calc_fmeasure | calc_ber | calc_cod | cal_dice_iou.

(** A piece of printed or logged text: a literal, a value formatted with
    [{}] (or [str]), a number formatted with [{:.4f}]. *)
Inductive piece (Obj : Type) : Type :=
| Lit (s : string)
| Fmt (v : pyval Obj)
| Fmt4f (f : float).

Arguments Lit {Obj} s.
Arguments Fmt {Obj} v.
Arguments Fmt4f {Obj} f.

(** Everything the scripts call and do not define: PyTorch, PyYAML, tqdm,
    the [statistics] and [csv] modules, and the repository-external modules
    [datasets], [models] and [utils].  [Ext] is the state these calls may
    read and change (parameters, gradients, random seeds, the clock, the
    disk as far as the framework reads it); each call may raise.  Result
    types are the ones the scripts rely on: a data loader yields finitely
    many batches in one pass ([loader_iter]), each of them a dictionary; a
    metric function returns four floats. *)
Class Framework : Type := {
  Obj : Type;
  Ext : Type;
  (* files, configuration, logging *)
  yaml_load : pyval Obj -> Ext -> result (pyval Obj) * Ext;
  io_open : string -> string -> Ext -> result unit * Ext;
  yaml_dump : pyval Obj -> Ext -> result unit * Ext;
  csv_writerow : list (pyval Obj) -> Ext -> result unit * Ext;
  torch_save : pyval Obj -> string -> Ext -> result unit * Ext;
  torch_load : pyval Obj -> Ext -> result Obj * Ext;
  utils_set_save_path : string -> Ext -> result Obj * Ext;
  utils_log : Obj -> list (piece Obj) -> Ext -> result unit * Ext;
  (* data *)
  datasets_make : pyval Obj -> option Obj -> Ext -> result Obj * Ext;
  dataset_len : Obj -> Ext -> result Z * Ext;
  dataset_first_items : Obj -> Ext -> result (list (string * Obj)) * Ext;
  tensor_shape : Obj -> Ext -> result (list Z) * Ext;
  torch_Sampler : Obj -> Ext -> result Obj * Ext;
  DataLoader : Obj -> pyval Obj -> bool -> Z -> bool -> Ext -> result Obj * Ext;
  loader_len : Obj -> Ext -> result Z * Ext;
  loader_iter : Obj -> Ext -> result (list (pyval Obj)) * Ext;
  to_device : Obj -> Ext -> result Obj * Ext;
  (* model, optimizer, scheduler *)
  models_make : pyval Obj -> Ext -> result Obj * Ext;
  model_parameters : Obj -> Ext -> result (list Obj) * Ext;
  model_named_parameters : Obj -> Ext -> result (list (string * Obj)) * Ext;
  requires_grad_ : Obj -> bool -> Ext -> result unit * Ext;
  requires_grad : Obj -> Ext -> result bool * Ext;
  numel : Obj -> Ext -> result Z * Ext;
  utils_make_optimizer : list Obj -> pyval Obj -> Ext -> result Obj * Ext;
  CosineAnnealingLR : Obj -> pyval Obj -> pyval Obj -> Ext -> result Obj * Ext;
  scheduler_step : Obj -> Ext -> result unit * Ext;
  utils_compute_num_params : Obj -> Ext -> result string * Ext;
  set_optimizer : Obj -> Obj -> Ext -> result unit * Ext;
  get_optimizer : Obj -> Ext -> result Obj * Ext;
  load_state_dict : Obj -> Obj -> Ext -> result unit * Ext;
  state_dict : Obj -> Ext -> result Obj * Ext;
  prompt_generator_state_dict : Obj -> Ext -> result Obj * Ext;
  decode_head_state_dict : Obj -> Ext -> result Obj * Ext;
  model_train : Obj -> Ext -> result unit * Ext;
  model_eval : Obj -> Ext -> result unit * Ext;
  model_call : Obj -> Obj -> Obj -> Z -> Ext -> result Obj * Ext;
  model_gen_feat : Obj -> Obj -> Ext -> result unit * Ext;
  model_query_rgb : Obj -> Obj -> Ext -> result Obj * Ext;
  (* tensors and losses *)
  no_grad_enter : Ext -> result unit * Ext;
  no_grad_exit : Ext -> result unit * Ext;
  torch_cuda_empty_cache : Ext -> result unit * Ext;
  tensor_shape1 : Obj -> Ext -> result Z * Ext;
  tensor_slice1 : Obj -> Z -> Z -> Ext -> result Obj * Ext;
  torch_cat : list Obj -> Z -> Ext -> result Obj * Ext;
  torch_sigmoid : Obj -> Ext -> result Obj * Ext;
  torch_sum : Obj -> Ext -> result Obj * Ext;
  tensor_sum_dims : Obj -> list Z -> Ext -> result Obj * Ext;
  tensor_mean : Obj -> Ext -> result Obj * Ext;
  tensor_add : Obj -> Obj -> Ext -> result Obj * Ext;
  tensor_iadd : Obj -> Obj -> Ext -> result Obj * Ext;
  tensor_sub : Obj -> Obj -> Ext -> result Obj * Ext;
  tensor_mul : Obj -> Obj -> Ext -> result Obj * Ext;
  tensor_div : Obj -> Obj -> Ext -> result Obj * Ext;
  tensor_add_float : Obj -> float -> Ext -> result Obj * Ext;
  float_sub_tensor : float -> Obj -> Ext -> result Obj * Ext;
  torch_BCEWithLogitsLoss : option Obj -> Ext -> result Obj * Ext;
  nn_Module_init : Ext -> result Obj * Ext;
  criterion_call : Obj -> Obj -> Obj -> Ext -> result Obj * Ext;
  tensor_backward : Obj -> Ext -> result unit * Ext;
  optimizer_zero_grad : Obj -> Ext -> result unit * Ext;
  optimizer_step : Obj -> Ext -> result unit * Ext;
  tensor_item : Obj -> Ext -> result float * Ext;
  statistics_mean : list float -> Ext -> result float * Ext;
  (* metrics, progress bar, clock *)
  utils_metric : metric_fn -> Obj -> Obj -> option Z
                 -> Ext -> result (float * float * float * float) * Ext;
  tqdm : Z -> string -> Ext -> result Obj * Ext;
  tqdm_update : Obj -> Z -> Ext -> result unit * Ext;
  tqdm_close : Obj -> Ext -> result unit * Ext;
  utils_Timer : Ext -> result Obj * Ext;
  timer_t : Obj -> Ext -> result float * Ext;
  utils_time_text : float -> Ext -> result string * Ext;
  (* arithmetic of the Python runtime that has no counterpart here *)
  int_true_div : Z -> Z -> float;
  int_mod_float : Z -> float -> float
}.

(** ** The monad of the scripts *)

Section Monad.
Context {F : Framework}.
Local Notation value := (pyval Obj).

(** A call that leaves the script.  Calls whose arguments matter to the
    properties below carry them; the others carry the name of the callee. *)
Inductive event : Type :=
| E_yaml_load (path : value)
| E_open (path mode : string)
| E_yaml_dump
| E_csv_writerow (row : list value)
| E_torch_save (path : string)
| E_torch_load (path : value)
| E_print (text : list (piece Obj))
| E_log (text : list (piece Obj))
| E_datasets_make (spec : value)
| E_DataLoader (shuffle : bool)
| E_models_make (spec : value)
| E_make_optimizer
| E_CosineAnnealingLR
| E_model_call (num_points : Z)
| E_criterion
| E_backward
| E_optimizer_step
| E_statistics_mean
| E_metric (fn : metric_fn) (threshold : option Z)
| E_slice (ql qr : Z)
| E_query_rgb
| E_call (callee : string).

(** A file is the sequence of records written to it: the rows of a CSV
    file, the one object of a [torch.save] or [yaml.dump]. *)
Record World : Type := mkWorld {
  files : gmap string (list value);
  trace : list event;
  ext : Ext
}.

Definition M (A : Type) : Type := World -> result A * World.

Definition ret {A} (a : A) : M A := fun w => (Ok a, w).

Definition raise {A} (e : exn) : M A := fun w => (Raise e, w).

Definition bind {A B} (m : M A) (k : A -> M B) : M B :=
  fun w =>
    match m w with
    | (Ok a, w') => k a w'
    | (Raise e, w') => (Raise e, w')
    end.

Definition lift {A} (r : result A) : M A := fun w => (r, w).

(** A call into the framework: it is recorded, then it runs on the
    external state. *)
Definition call {A} (e : event) (op : Ext -> result A * Ext) : M A :=
  fun w =>
    let (r, x) := op (ext w) in
    (r, mkWorld (files w) (trace w ++ [e]) x).

(** [print(...)] *)
Definition print (text : list (piece Obj)) : M unit :=
  fun w => (Ok tt, mkWorld (files w) (trace w ++ [E_print text]) (ext w)).

(** Reading a local variable that an earlier branch may have left
    unbound. *)
Definition local {A} (name : string) (binding : option A) : M A :=
  match binding with
  | Some a => ret a
  | None => raise (UnboundLocalError name)
  end.

Definition records (w : World) (path : string) : list value :=
  default [] (files w !! path).

(** [open(path, 'w')]: the file exists and is empty afterwards. *)
Definition open_w (path : string) : M unit :=
  bind (call (E_open path "w") (io_open path "w")) (fun _ w =>
    (Ok tt, mkWorld (<[path := []]> (files w)) (trace w) (ext w))).

(** [open(path, 'a')]: the file exists afterwards, with the content it
    had. *)
Definition open_a (path : string) : M unit :=
  bind (call (E_open path "a") (io_open path "a")) (fun _ w =>
    (Ok tt, mkWorld (<[path := records w path]> (files w)) (trace w) (ext w))).

(** A record goes to the end of the file. *)
Definition emit (path : string) (record : value) : M unit :=
  fun w =>
    (Ok tt, mkWorld (<[path := (records w path ++ [record])%list]> (files w))
                    (trace w) (ext w)).

(** [csv.writer(f).writerow(row)] on the file opened at [path] *)
Definition writerow (path : string) (row : list value) : M unit :=
  bind (call (E_csv_writerow row) (csv_writerow row)) (fun _ =>
    emit path (VList row)).

(** [yaml.dump(doc, f, sort_keys=False)] on the file opened at [path] *)
Definition dump (path : string) (doc : value) : M unit :=
  bind (call E_yaml_dump (yaml_dump doc)) (fun _ => emit path doc).

(** [torch.save(obj, path)]: the file holds [obj] and nothing else. *)
Definition save_obj (obj : value) (path : string) : M unit :=
  bind (call (E_torch_save path) (torch_save obj path)) (fun _ w =>
    (Ok tt, mkWorld (<[path := [obj]]> (files w)) (trace w) (ext w))).

(** [with torch.no_grad(): body]: the context is left on every path; an
    exception of the body is raised again after that. *)
Definition no_grad_leave {A} (r : result A) : M A :=
  fun w =>
    match call (E_call "no_grad.__exit__") no_grad_exit w with
    | (Ok _, w') => (r, w')
    | (Raise e, w') => (Raise e, w')
    end.

Definition with_no_grad {A} (body : M A) : M A :=
  bind (call (E_call "no_grad.__enter__") no_grad_enter) (fun _ w =>
    let (r, w1) := body w in no_grad_leave r w1).

(** [for x in l: s = body s x] *)
Fixpoint for_each {A S} (body : S -> A -> M S) (l : list A) (s : S) : M S :=
  match l with
  | [] => ret s
  | x :: l' => bind (body s x) (for_each body l')
  end.

(** [len(x)] and [for b in x] where [x] is a data loader or [None] *)
Definition len_loader (loader : value) : M Z :=
  match loader with
  | VObj o => call (E_call "DataLoader.__len__") (loader_len o)
  | _ => raise (TypeError "len")
  end.

Definition iter_loader (loader : value) : M (list value) :=
  match loader with
  | VObj o => call (E_call "DataLoader.__iter__") (loader_iter o)
  | _ => raise (TypeError "iter")
  end.

(** [v.to(device)] *)
Definition to_dev (v : value) : M Obj :=
  match v with
  | VObj o => call (E_call "to") (to_device o)
  | _ => raise (AttributeError "to")
  end.

End Monad.

Declare Scope py_scope.
Delimit Scope py_scope with py.
Notation "'let*' x ':=' m 'in' k" := (bind m (fun x => k))
  (at level 10, x pattern, m at level 100, k at level 200) : py_scope.
Notation "m ';;' k" := (bind m (fun _ => k))
  (at level 100, k at level 200, right associativity) : py_scope.
Local Open Scope py_scope.

(** ** Code shared by the two scripts *)

Section Shared.
Context {F : Framework}.
Local Notation value := (pyval Obj).

(** The [if]/[elif] chain on [eval_type] (train.py:98-112, test.py:49-63).
    It binds [metric_fn] and the four metric names, or nothing at all:
    there is no [else]. *)
Definition select_metric (eval_type : value)
  : option (metric_fn * (string * string * string * string)) :=
  if eq_str eval_type "f1" then
    Some (calc_f1, ("f1", "auc", "none", "none"))
  else if eq_str eval_type "fmeasure" then
    Some (calc_fmeasure, ("f_mea", "mae", "none", "none"))
  else if eq_str eval_type "ber" then
    Some (calc_ber, ("shadow", "non_shadow", "ber", "none"))
  else if eq_str eval_type "cod" then
    Some (calc_cod, ("sm", "em", "wfm", "mae"))
  else if eq_str eval_type "dice" then
    Some (cal_dice_iou, ("dice", "iou", "none", "none"))
  else None.

(** The body of [for batch in loader] (train.py:122-132, test.py:73-83);
    [pbar is not None] always holds. *)
Definition predict_batch (model pbar : Obj) (acc : list Obj * list Obj)
    (batch : value) : M (list Obj * list Obj) :=
  let* i := lift (getitem batch "inp") in
  let* inp := to_dev i in
  let* g := lift (getitem batch "gt") in
  let* gt := to_dev g in
  let* out := call (E_model_call 1) (model_call model inp gt 1) in
  let* pred := call (E_call "torch.sigmoid") (torch_sigmoid out) in
  call (E_call "tqdm.update") (tqdm_update pbar 1) ;;
  ret ((acc.1 ++ [pred])%list, (acc.2 ++ [gt])%list).

(** From the creation of the progress bar to the two [torch.cat]
    (train.py:114-138, test.py:65-89). *)
Definition predict_all (loader : value) (model : Obj) : M (Obj * Obj) :=
  let* total := len_loader loader in
  let* pbar := call (E_call "tqdm") (tqdm total "val") in
  let* (pred_list, gt_list) :=
    with_no_grad (
      call (E_call "torch.cuda.empty_cache") torch_cuda_empty_cache ;;
      let* batches := iter_loader loader in
      let* acc := for_each (predict_batch model pbar) batches ([], []) in
      call (E_call "tqdm.close") (tqdm_close pbar) ;;
      ret acc) in
  let* pred := call (E_call "torch.cat") (torch_cat pred_list 1) in
  let* gt := call (E_call "torch.cat") (torch_cat gt_list 1) in
  ret (pred, gt).

End Shared.

(** ** test.py *)

Module Test.

Record args {F : Framework} : Type := mkArgs {
  args_config : pyval Obj;
  args_model : pyval Obj;
  args_prompt : pyval Obj
}.

Section Script.
Context {F : Framework}.
Local Notation value := (pyval Obj).

(** One round of the [while] loop of [batched_predict] (test.py:24-27). *)
Definition query_chunk (model coord : Obj) (preds : list Obj) (ql qr : Z)
  : M (list Obj) :=
  let* c := call (E_slice ql qr) (tensor_slice1 coord ql qr) in
  let* pred := call E_query_rgb (model_query_rgb model c) in
  ret (preds ++ [pred])%list.

(** [while ql < n] (test.py:23-27).  The loop is not structurally
    recursive: [None] means that [fuel] rounds were not enough. *)
Fixpoint batched_predict_loop (fuel : nat) (model coord : Obj)
    (bsize n ql : Z) (preds : list Obj) (w : World)
  : option (result (list Obj) * World) :=
  if ql <? n then
    match fuel with
    | O => None
    | S fuel' =>
        let qr := Z.min (ql + bsize) n in
        match query_chunk model coord preds ql qr w with
        | (Ok preds', w') =>
            batched_predict_loop fuel' model coord bsize n qr preds' w'
        | (Raise e, w') => Some (Raise e, w')
        end
    end
  else Some (Ok preds, w).

(** [batched_predict] (test.py:17-29) *)
Definition batched_predict (fuel : nat) (model inp coord : Obj) (bsize : Z)
    (w : World) : option (result (Obj * list Obj) * World) :=
  match call (E_call "no_grad.__enter__") no_grad_enter w with
  | (Raise e, w0) => Some (Raise e, w0)
  | (Ok _, w0) =>
      match (call (E_call "gen_feat") (model_gen_feat model inp) ;;
             call (E_call "shape") (tensor_shape1 coord)) w0 with
      | (Raise e, w1) => Some (no_grad_leave (Raise e) w1)
      | (Ok n, w1) =>
          match batched_predict_loop fuel model coord bsize n 0 [] w1 with
          | None => None
          | Some (Raise e, w2) => Some (no_grad_leave (Raise e) w2)
          | Some (Ok preds, w2) =>
              let (r, w3) :=
                (let* pred := call (E_call "torch.cat") (torch_cat preds 1) in
                 ret (pred, preds)) w2 in
              Some (no_grad_leave r w3)
          end
      end
  end.





(** One round of [for threshold in range(10, 255, 10)] (test.py:90-92).
    The four results are rebound in every round. *)
Definition threshold_round (fn : option metric_fn) (pred gt : Obj)
    (results : option (float * float * float * float)) (threshold : Z)
  : M (option (float * float * float * float)) :=
  let* f := local "metric_fn" fn in
  let* r := call (E_metric f (Some threshold))
                 (utils_metric f pred gt (Some threshold)) in
  let '(result1, _, _, _) := r in
  print [Lit "threshold: "; Fmt (VInt threshold); Lit ": dice: ";
         Fmt (VFloat result1)] ;;
  ret (Some r).

(** [eval_psnr] (test.py:40-94).  [data_norm], [eval_bsize] and [verbose]
    are parameters that the body never reads ([data_norm] is rebound when
    it is [None], and not read after that). *)
Definition eval_psnr (loader : value) (model : Obj)
    (data_norm eval_type eval_bsize : value) (verbose : bool)
  : M (float * float * float * float) :=
  call (E_call "eval") (model_eval model) ;;
  let selected := select_metric eval_type in
  let* (pred_list, gt_list) := predict_all loader model in
  let* results :=
    for_each (threshold_round (fst <$> selected) pred_list gt_list)
             (range_step 10 255 10) None in
  local "result1" results.

(** The script (test.py:97-130) *)
Definition log_path : string := "./save/test_log.csv".

Definition main (a : args) : M unit :=
  let* config := call (E_yaml_load (args_config a))
                      (yaml_load (args_config a)) in
  let* spec := lift (getitem config "test_dataset") in
  let* d := lift (getitem spec "dataset") in
  let* dataset := call (E_datasets_make d) (datasets_make d None) in
  let* wr := lift (getitem spec "wrapper") in
  let* dataset := call (E_datasets_make wr)
                       (datasets_make wr (Some dataset)) in
  let* bs := lift (getitem spec "batch_size") in
  let* loader := call (E_DataLoader false)
                      (DataLoader dataset bs false 8 false) in
  let* m := lift (getitem config "model") in
  let* model := call (E_models_make m) (models_make m) in
  let* model := call (E_call "to") (to_device model) in
  let* sam_checkpoint := call (E_torch_load (args_model a))
                              (torch_load (args_model a)) in
  call (E_call "load_state_dict") (load_state_dict model sam_checkpoint) ;;
  let* data_norm := lift (get config "data_norm") in
  let* eval_type := lift (get config "eval_type") in
  let* eval_bsize := lift (get config "eval_bsize") in
  let* (metric1, metric2, metric3, metric4) :=
    eval_psnr (VObj loader) model data_norm eval_type eval_bsize true in
  print [Lit "metric1: "; Fmt4f metric1] ;;
  print [Lit "metric2: "; Fmt4f metric2] ;;
  print [Lit "metric3: "; Fmt4f metric3] ;;
  print [Lit "metric4: "; Fmt4f metric4] ;;
  let* epoch := lift (getitem config "resume") in
  open_a log_path ;;
  writerow log_path
    [epoch; VFloat metric1; VFloat metric2; VFloat metric3; VFloat metric4].

End Script.
End Test.

(** ** train.py *)

Module Train.

Record args : Type := mkArgs {
  args_config : string;
  args_name : option string;
  args_tag : option string
}.

(** What [criterionBCE] can be bound to: a module of the framework, or an
    instance of the class [BBCEWithLogitLoss] that train.py defines. *)
Inductive criterion {F : Framework} : Type :=
| Torch_BCEWithLogitsLoss (module : Obj)
| BBCEWithLogitLoss (self : Obj).

Section Script.
Context {F : Framework}.
Local Notation value := (pyval Obj).

(** [BBCEWithLogitLoss.forward] (train.py:29-39) *)
Definition BBCEWithLogitLoss_forward (pred gt : Obj) : M Obj :=
  let eps := 1e-10%float in
  let* s := call (E_call "torch.sum") (torch_sum gt) in
  let* count_pos := call (E_call "add") (tensor_add_float s eps) in
  let* d := call (E_call "rsub") (float_sub_tensor 1%float gt) in
  let* count_neg := call (E_call "torch.sum") (torch_sum d) in
  let* ratio := call (E_call "div") (tensor_div count_neg count_pos) in
  let* total := call (E_call "add") (tensor_add count_pos count_neg) in
  let* w_neg := call (E_call "div") (tensor_div count_pos total) in
  let* bce1 := call (E_call "BCEWithLogitsLoss")
                    (torch_BCEWithLogitsLoss (Some ratio)) in
  let* l := call E_criterion (criterion_call bce1 pred gt) in
  call (E_call "mul") (tensor_mul w_neg l).

(** [_iou_loss] (train.py:41-47) *)
Definition _iou_loss (pred target : Obj) : M Obj :=
  let* pred := call (E_call "torch.sigmoid") (torch_sigmoid pred) in
  let* p := call (E_call "mul") (tensor_mul pred target) in
  let* inter := call (E_call "sum") (tensor_sum_dims p [2; 3]) in
  let* a := call (E_call "add") (tensor_add pred target) in
  let* sa := call (E_call "sum") (tensor_sum_dims a [2; 3]) in
  let* union := call (E_call "sub") (tensor_sub sa inter) in
  let* q := call (E_call "div") (tensor_div inter union) in
  let* iou := call (E_call "rsub") (float_sub_tensor 1%float q) in
  call (E_call "mean") (tensor_mean iou).

(** [make_data_loader] (train.py:50-66); [log] is the module global. *)
Definition log_item (log : Obj) (kv : string * Obj) : M unit :=
  let (k, v) := kv in
  if String.eqb k "gt_name" then ret tt
  else
    let* shape := call (E_call "shape") (tensor_shape v) in
    call (E_log [Lit "  "; Lit k; Lit ": shape="; Fmt (VList (VInt <$> shape))])
         (utils_log log [Lit "  "; Lit k; Lit ": shape=";
                         Fmt (VList (VInt <$> shape))]).

Definition make_data_loader (log : Obj) (spec : value) (tag : string)
  : M value :=
  if is_none spec then ret VNone
  else
    let* d := lift (getitem spec "dataset") in
    let* dataset := call (E_datasets_make d) (datasets_make d None) in
    let* wr := lift (getitem spec "wrapper") in
    let* dataset := call (E_datasets_make wr)
                         (datasets_make wr (Some dataset)) in
    let* size := call (E_call "len") (dataset_len dataset) in
    call (E_log [Lit tag; Lit " dataset: size="; Fmt (VInt size)])
         (utils_log log [Lit tag; Lit " dataset: size="; Fmt (VInt size)]) ;;
    let* items := call (E_call "items") (dataset_first_items dataset) in
    for_each (fun _ kv => log_item log kv) items tt ;;
    let* sampler := call (E_call "Sampler") (torch_Sampler dataset) in
    let* bs := lift (getitem spec "batch_size") in
    let* loader := call (E_DataLoader true)
                        (DataLoader dataset bs true 6 true) in
    ret (VObj loader).

(** [make_data_loader_no_shuffle] (train.py:69-85): the same statements
    with [shuffle=False].  No statement of train.py calls it. *)
Definition make_data_loader_no_shuffle (log : Obj) (spec : value)
    (tag : string) : M value :=
  if is_none spec then ret VNone
  else
    let* d := lift (getitem spec "dataset") in
    let* dataset := call (E_datasets_make d) (datasets_make d None) in
    let* wr := lift (getitem spec "wrapper") in
    let* dataset := call (E_datasets_make wr)
                         (datasets_make wr (Some dataset)) in
    let* size := call (E_call "len") (dataset_len dataset) in
    call (E_log [Lit tag; Lit " dataset: size="; Fmt (VInt size)])
         (utils_log log [Lit tag; Lit " dataset: size="; Fmt (VInt size)]) ;;
    let* items := call (E_call "items") (dataset_first_items dataset) in
    for_each (fun _ kv => log_item log kv) items tt ;;
    let* sampler := call (E_call "Sampler") (torch_Sampler dataset) in
    let* bs := lift (getitem spec "batch_size") in
    let* loader := call (E_DataLoader false)
                        (DataLoader dataset bs false 6 true) in
    ret (VObj loader).

(** [make_data_loaders] (train.py:88-91); [config] is the module global. *)
Definition make_data_loaders (config : value) (log : Obj)
  : M (value * value) :=
  let* ts := lift (get config "train_dataset") in
  let* train_loader := make_data_loader log ts "train" in
  let* vs := lift (get config "val_dataset") in
  let* val_loader := make_data_loader log vs "val" in
  ret (train_loader, val_loader).

(** [eval_psnr] (train.py:94-141) *)
Definition eval_psnr (loader : value) (model : Obj) (eval_type : value)
  : M ((float * float * float * float) * (string * string * string * string)) :=
  call (E_call "eval") (model_eval model) ;;
  let selected := select_metric eval_type in
  let* (pred_list, gt_list) := predict_all loader model in
  let* f := local "metric_fn" (fst <$> selected) in
  let* results := call (E_metric f None)
                       (utils_metric f pred_list gt_list None) in
  let* names := local "metric1" (snd <$> selected) in
  ret (results, names).

(** The two branches of [prepare_training] build the model and the
    optimizer with the same statements (train.py:146-148 and 151-153). *)
Definition build_model_and_optimizer (config : value) : M (Obj * Obj) :=
  let* m := lift (getitem config "model") in
  let* model := call (E_models_make m) (models_make m) in
  let* model := call (E_call "to") (to_device model) in
  let* params := call (E_call "parameters") (model_parameters model) in
  let* o := lift (getitem config "optimizer") in
  let* optimizer := call E_make_optimizer (utils_make_optimizer params o) in
  ret (model, optimizer).

(** [prepare_training] (train.py:144-158) *)
Definition prepare_training (config : value) (log : Obj)
  : M (Obj * Obj * value * Obj) :=
  let* resume := lift (get config "resume") in
  let* (model, optimizer, epoch_start) :=
    if negb (is_none resume) then
      let* (model, optimizer) := build_model_and_optimizer config in
      let* r := lift (get config "resume") in
      let* epoch_start := lift (add_one r) in
      ret (model, optimizer, epoch_start)
    else
      let* (model, optimizer) := build_model_and_optimizer config in
      ret (model, optimizer, VInt 1) in
  let* max_epoch := lift (get config "epoch_max") in
  let* lr_min := lift (get config "lr_min") in
  let* lr_scheduler := call E_CosineAnnealingLR
                            (CosineAnnealingLR optimizer max_epoch lr_min) in
  let* text := call (E_call "compute_num_params")
                    (utils_compute_num_params model) in
  call (E_log [Lit "model: #params="; Lit text])
       (utils_log log [Lit "model: #params="; Lit text]) ;;
  ret (model, optimizer, epoch_start, lr_scheduler).

(** The [if]/[elif] chain on [loss_mode] (train.py:178-183): it rebinds
    [criterionBCE] or leaves it as it was. *)
Definition select_criterion (loss_mode : value) (bound : option criterion)
  : M (option criterion) :=
  if eq_str loss_mode "bce" then
    let* c := call (E_call "BCEWithLogitsLoss")
                   (torch_BCEWithLogitsLoss None) in
    ret (Some (Torch_BCEWithLogitsLoss c))
  else if eq_str loss_mode "bbce" then
    let* self := call (E_call "Module.__init__") nn_Module_init in
    ret (Some (BBCEWithLogitLoss self))
  else if eq_str loss_mode "iou" then
    let* c := call (E_call "BCEWithLogitsLoss")
                   (torch_BCEWithLogitsLoss None) in
    ret (Some (Torch_BCEWithLogitsLoss c))
  else ret bound.

(** [criterionBCE(pred, gt)]: [nn.Module.__call__] runs [forward]. *)
Definition apply_criterion (c : criterion) (pred gt : Obj) : M Obj :=
  match c with
  | Torch_BCEWithLogitsLoss module =>
      call E_criterion (criterion_call module pred gt)
  | BBCEWithLogitLoss _ => BBCEWithLogitLoss_forward pred gt
  end.

(** From the selection of the criterion to the final value of
    [batch_loss] (train.py:178-188) *)
Definition batch_loss (loss_mode : value) (bound : option criterion)
    (pred gt : Obj) : M (option criterion * Obj) :=
  let* bound := select_criterion loss_mode bound in
  let* criterionBCE := local "criterionBCE" bound in
  let* loss := apply_criterion criterionBCE pred gt in
  let* loss :=
    if eq_str loss_mode "iou" then
      let* extra := _iou_loss pred gt in
      call (E_call "iadd") (tensor_iadd loss extra)
    else ret loss in
  ret (bound, loss).

(** The body of [for batch in train_loader] (train.py:166-195) *)
Definition train_batch (model pbar : Obj) (loss_mode : value)
    (st : option criterion * list Obj) (batch : value)
  : M (option criterion * list Obj) :=
  let (bound, loss_list) := st in
  let* i := lift (getitem batch "inp") in
  let* inp := to_dev i in
  let* g := lift (getitem batch "gt") in
  let* gt := to_dev g in
  let* gt_name := lift (getitem batch "gt_name") in
  let* opt := call (E_call "optimizer") (get_optimizer model) in
  call (E_call "zero_grad") (optimizer_zero_grad opt) ;;
  let* pred := call (E_model_call 40) (model_call model inp gt 40) in
  let* (bound, loss) := batch_loss loss_mode bound pred gt in
  call E_backward (tensor_backward loss) ;;
  let* opt := call (E_call "optimizer") (get_optimizer model) in
  call E_optimizer_step (optimizer_step opt) ;;
  call (E_call "tqdm.update") (tqdm_update pbar 1) ;;
  ret (bound, (loss_list ++ [loss])%list).

(** [[i.item() for i in loss_list]] *)
Definition items (loss_list : list Obj) : M (list float) :=
  for_each (fun acc i =>
              let* x := call (E_call "item") (tensor_item i) in
              ret (acc ++ [x])%list)
           loss_list [].

(** [train] (train.py:161-201) *)
Definition train (train_loader : value) (model : Obj) (loss_mode : value)
  : M float :=
  call (E_call "train") (model_train model) ;;
  let* total := len_loader train_loader in
  let* pbar := call (E_call "tqdm") (tqdm total "train") in
  let* batches := iter_loader train_loader in
  let* (_, loss_list) :=
    for_each (train_batch model pbar loss_mode) batches (None, []) in
  call (E_call "tqdm.close") (tqdm_close pbar) ;;
  let* loss := items loss_list in
  call E_statistics_mean (statistics_mean loss).

(** [config['model']['name'] == 'segformer' or config['model']['name'] == 'setr'],
    then [config['model']['args']['encoder_mode']['name'] == 'evp']
    (train.py:310-311) *)
Definition model_name (config : value) : result value :=
  match getitem config "model" with
  | Ok m => getitem m "name"
  | Raise e => Raise e
  end.

Definition encoder_mode_name (config : value) : result value :=
  match getitem config "model" with
  | Ok m =>
      match getitem m "args" with
      | Ok a =>
          match getitem a "encoder_mode" with
          | Ok em => getitem em "name"
          | Raise e => Raise e
          end
      | Raise e => Raise e
      end
  | Raise e => Raise e
  end.

Definition prompt_file (save_path name : string) : string :=
  os_path_join save_path ("prompt_epoch_" ++ name ++ ".pth").

Definition model_file (save_path name : string) : string :=
  os_path_join save_path ("model_epoch_" ++ name ++ ".pth").

(** train.py:312-315 *)
Definition save_prompt (model : Obj) (save_path name : string) : M unit :=
  let* prompt_generator := call (E_call "prompt_generator.state_dict")
                                (prompt_generator_state_dict model) in
  let* decode_head := call (E_call "decode_head.state_dict")
                           (decode_head_state_dict model) in
  save_obj (VDict [("prompt", VObj prompt_generator);
                   ("decode_head", VObj decode_head)])
           (prompt_file save_path name).

(** train.py:317 and train.py:319 *)
Definition save_model (model : Obj) (save_path name : string) : M unit :=
  let* sd := call (E_call "state_dict") (state_dict model) in
  save_obj (VObj sd) (model_file save_path name).

(** [save] (train.py:308-319) *)
Definition save (config : value) (model : Obj) (save_path name : string)
  : M unit :=
  let* name1 := lift (model_name config) in
  let* segformer_or_setr :=
    if eq_str name1 "segformer" then ret true
    else let* name2 := lift (model_name config) in
         ret (eq_str name2 "setr") in
  if segformer_or_setr : bool then
    let* mode := lift (encoder_mode_name config) in
    if eq_str mode "evp" then save_prompt model save_path name
    else save_model model save_path name
  else save_model model save_path name.

(** What stays the same during the epoch loop of [main]. *)
Record env : Type := mkEnv {
  train_loader : value;
  val_loader : value;
  model : Obj;
  optimizer : Obj;
  lr_scheduler : Obj;
  log : Obj;
  timer : Obj;
  save_path : string;
  epoch_start : value;
  epoch_max : value;
  epoch_val : value
}.

(** What the epoch loop of [main] updates. *)
Record vars : Type := mkVars {
  config : value;
  best_loss : float;
  max_val_v : float
}.

Definition training_log : string := "./save/training_log.csv".

(** [epoch % epoch_val == 0] *)
Definition mod_is_zero (epoch : Z) (epoch_val : value) : result bool :=
  match epoch_val with
  | VInt k =>
      if k =? 0 then Raise ZeroDivisionError else Ok (epoch mod k =? 0)
  | VBool b =>
      if b then Ok (epoch mod 1 =? 0) else Raise ZeroDivisionError
  | VFloat f =>
      if (f =? 0)%float then Raise ZeroDivisionError
      else Ok (int_mod_float epoch f =? 0)%float
  | _ => Raise (TypeError "%")
  end.

(** [a / b] on integers and on floats *)
Definition true_div (a b : Z) : result float :=
  if b =? 0 then Raise ZeroDivisionError else Ok (int_true_div a b).

Definition float_div (a b : float) : result float :=
  if (b =? 0)%float then Raise ZeroDivisionError else Ok (a / b)%float.

(** [', '.join(log_info)] *)
Fixpoint join (log_info : list (list (piece Obj))) : list (piece Obj) :=
  match log_info with
  | [] => []
  | [x] => x
  | x :: rest => (x ++ Lit ", " :: join rest)%list
  end.

(** The integer behind a bound that [range] has accepted. *)
Definition int_of (v : value) : Z := default 0 (as_int v).

(** The start of an epoch (train.py:248-252): the epoch is printed, the
    model is trained on the whole loader, the scheduler advances. *)
Definition train_epoch (E : env) (V : vars) (epoch : Z) : M (float * float) :=
  print [Fmt (VInt epoch); Lit " : "] ;;
  let* t_epoch_start := call (E_call "Timer.t") (timer_t (timer E)) in
  let* m := lift (getitem (config V) "model") in
  let* a := lift (getitem m "args") in
  let* loss_mode := lift (getitem a "loss") in
  let* train_loss_G := train (train_loader E) (model E) loss_mode in
  call (E_call "lr_scheduler.step") (scheduler_step (lr_scheduler E)) ;;
  ret (t_epoch_start, train_loss_G).

(** The row of the training log (train.py:255-258) *)
Definition log_training_row (epoch : Z) (train_loss_G : float) : M unit :=
  open_a training_log ;;
  writerow training_log [VInt epoch; VFloat train_loss_G].

(** The checkpoints [last] and [best_loss] (train.py:265-274) *)
Definition checkpoint (E : env) (V : vars) (train_loss_G : float) : M vars :=
  let* model_spec := lift (getitem (config V) "model") in
  let* sd := call (E_call "state_dict") (state_dict (model E)) in
  let* model_spec := lift (setitem model_spec "sd" (VObj sd)) in
  let* config := lift (setitem (config V) "model" model_spec) in
  let* optimizer_spec := lift (getitem config "optimizer") in
  let* sd := call (E_call "state_dict") (state_dict (optimizer E)) in
  let* optimizer_spec := lift (setitem optimizer_spec "sd" (VObj sd)) in
  let* config := lift (setitem config "optimizer" optimizer_spec) in
  save config (model E) (save_path E) "last" ;;
  let* best_loss :=
    if (train_loss_G <? best_loss V)%float then
      save config (model E) (save_path E) "best_loss" ;;
      ret train_loss_G
    else ret (best_loss V) in
  ret (mkVars config best_loss (max_val_v V)).

(** [log_info] before the validation (train.py:260-262) *)
Definition log_info_of (E : env) (epoch : Z) (train_loss_G : float)
  : list (list (piece Obj)) :=
  [[Lit "epoch "; Fmt (VInt epoch); Lit "/"; Fmt (epoch_max E)];
   [Lit "train G: loss="; Fmt4f train_loss_G]].

(** The validation of an epoch (train.py:280-305) *)
Definition validate (E : env) (V : vars) (epoch : Z) (t_epoch_start : float)
    (log_info : list (list (piece Obj))) : M vars :=
  let* eval_type := lift (get (config V) "eval_type") in
  let* (results, names) := eval_psnr (val_loader E) (model E) eval_type in
  let '(result1, result2, result3, result4) := results in
  let '(metric1, metric2, metric3, metric4) := names in
  let log_info :=
    (log_info ++ [[Lit "val: "; Lit metric1; Lit "="; Fmt4f result1];
                  [Lit "val: "; Lit metric2; Lit "="; Fmt4f result2];
                  [Lit "val: "; Lit metric3; Lit "="; Fmt4f result3];
                  [Lit "val: "; Lit metric4; Lit "="; Fmt4f result4]])%list in
  let* eval_type := lift (getitem (config V) "eval_type") in
  let* max_val_v :=
    if negb (eq_str eval_type "ber") then
      if (max_val_v V <? result1)%float then
        print [Lit "result1: "; Fmt (VFloat result1)] ;;
        save (config V) (model E) (save_path E) "best" ;;
        ret result1
      else ret (max_val_v V)
    else
      if (result3 <? max_val_v V)%float then
        print [Lit "result3 : "; Fmt (VFloat result3); Lit ", max_v: ";
               Fmt (VFloat (max_val_v V))] ;;
        save (config V) (model E) (save_path E) "best" ;;
        ret result3
      else ret (max_val_v V) in
  let* t := call (E_call "Timer.t") (timer_t (timer E)) in
  let* prog := lift (true_div (epoch - int_of (epoch_start E) + 1)
                              (int_of (epoch_max E) - int_of (epoch_start E) + 1)) in
  let* t_epoch := call (E_call "time_text")
                       (utils_time_text (t - t_epoch_start)%float) in
  let* t_elapsed := call (E_call "time_text") (utils_time_text t) in
  let* t_over_prog := lift (float_div t prog) in
  let* t_all := call (E_call "time_text") (utils_time_text t_over_prog) in
  let log_info :=
    (log_info ++ [[Lit t_epoch; Lit " "; Lit t_elapsed; Lit "/"; Lit t_all]])%list in
  call (E_log (join log_info)) (utils_log (log E) (join log_info)) ;;
  ret (mkVars (config V) (best_loss V) max_val_v).

(** The body of [for epoch in range(epoch_start, epoch_max + 1)]
    (train.py:248-305) *)
Definition epoch_body (E : env) (V : vars) (epoch : Z) : M vars :=
  let* (t_epoch_start, train_loss_G) := train_epoch E V epoch in
  log_training_row epoch train_loss_G ;;
  let log_info := log_info_of E epoch train_loss_G in
  let* V := checkpoint E V train_loss_G in
  if negb (is_none (epoch_val E)) then
    let* due := lift (mod_is_zero epoch (epoch_val E)) in
    if due : bool then validate E V epoch t_epoch_start log_info
    else ret V
  else ret V.

Definition data_norm_default : value :=
  VDict [("inp", VDict [("sub", VList [VInt 0]); ("div", VList [VInt 1])]);
         ("gt", VDict [("sub", VList [VInt 0]); ("div", VList [VInt 1])])].

(** The body of [for name, para in model.named_parameters()]
    (train.py:228-230) *)
Definition freeze (_ : unit) (np : string * Obj) : M unit :=
  let (name, para) := np in
  if contains "image_encoder" name && negb (contains "prompt_generator" name)
  then call (E_call "requires_grad_") (requires_grad_ para false)
  else ret tt.

(** [sum(p.numel() for p in model.parameters() [if p.requires_grad])] *)
Definition sum_numel (only_grad : bool) (model : Obj) : M Z :=
  let* params := call (E_call "parameters") (model_parameters model) in
  for_each (fun acc p =>
              let* keep := if only_grad
                           then call (E_call "requires_grad") (requires_grad p)
                           else ret true in
              if keep : bool then
                let* n := call (E_call "numel") (numel p) in ret (acc + n)
              else ret acc)
           params 0.

(** [main] up to the epoch loop (train.py:204-245) *)
Definition setup (config_ : value) (save_path : string) : M (env * vars) :=
  let config := config_ in
  let* log := call (E_call "set_save_path") (utils_set_save_path save_path) in
  open_w (os_path_join save_path "config.yaml") ;;
  dump (os_path_join save_path "config.yaml") config ;;
  let* (train_loader, val_loader) := make_data_loaders config log in
  let* data_norm := lift (get config "data_norm") in
  let* config :=
    if is_none data_norm
    then lift (setitem config "data_norm" data_norm_default)
    else ret config in
  let* (model, optimizer, epoch_start, lr_scheduler) :=
    prepare_training config log in
  call (E_call "optimizer=") (set_optimizer model optimizer) ;;
  let* opt := call (E_call "optimizer") (get_optimizer model) in
  let* em := lift (getitem config "epoch_max") in
  let* lr_min := lift (get config "lr_min") in
  let* lr_scheduler := call E_CosineAnnealingLR
                            (CosineAnnealingLR opt em lr_min) in
  let* model := call (E_call "to") (to_device model) in
  let* path := lift (getitem config "sam_checkpoint") in
  let* sam_checkpoint := call (E_torch_load path) (torch_load path) in
  call (E_call "load_state_dict") (load_state_dict model sam_checkpoint) ;;
  let* named := call (E_call "named_parameters")
                     (model_named_parameters model) in
  for_each freeze named tt ;;
  let* model_total_params := sum_numel false model in
  let* model_grad_params := sum_numel true model in
  print [Lit "model_grad_params:"; Fmt (VInt model_grad_params);
         Lit " "; Lit "\nmodel_total_params:"; Fmt (VInt model_total_params)] ;;
  let* epoch_max := lift (getitem config "epoch_max") in
  let* epoch_val := lift (get config "epoch_val") in
  let* eval_type := lift (getitem config "eval_type") in
  let max_val_v := if negb (eq_str eval_type "ber")
                   then (-1e18)%float else 1e8%float in
  let best_loss := 1e8%float in
  let* timer := call (E_call "Timer") utils_Timer in
  ret (mkEnv train_loader val_loader model optimizer lr_scheduler log timer
             save_path epoch_start epoch_max epoch_val,
       mkVars config best_loss max_val_v).

(** [main] (train.py:204-305); the parameter [args] is never read. *)
Definition main (config_ : value) (save_path : string) : M unit :=
  let* (E, V) := setup config_ save_path in
  let* stop := lift (add_one (epoch_max E)) in
  let* epochs := lift (range (epoch_start E) stop) in
  for_each (epoch_body E) epochs V ;;
  ret tt.

(** The script (train.py:322-339) *)
Definition save_name (a : args) : string :=
  let save_name :=
    match args_name a with
    | Some n => n
    | None => "_" ++ drop_last 5 (last_component (args_config a))
    end in
  match args_tag a with
  | Some t => save_name ++ "_" ++ t
  | None => save_name
  end.

Definition script (a : args) : M unit :=
  let* config := call (E_yaml_load (VStr (args_config a)))
                      (yaml_load (VStr (args_config a))) in
  main config (os_path_join "./save" (save_name a)).

End Script.
End Train.

(** ** A small framework to run the scripts on

    Tensors are lists of integers along dimension 1, every other object is
    the empty list, the external state is the YAML document on disk, and
    no call raises.  It serves to run the scripts on concrete inputs. *)

Module Toy.

Definition obj : Type := list Z.
Definition doc : Type := pyval obj.

Definition ok {A} (a : A) (x : doc) : result A * doc := (Ok a, x).

Definition batch : doc :=
  VDict [("inp", VObj [1; 2]); ("gt", VObj [1; 0]); ("gt_name", VObj [])].

Definition framework : Framework := {|
  Obj := obj;
  Ext := doc;
  yaml_load := fun _ x => (Ok x, x);
  io_open := fun _ _ => ok tt;
  yaml_dump := fun _ => ok tt;
  csv_writerow := fun _ => ok tt;
  torch_save := fun _ _ => ok tt;
  torch_load := fun _ => ok [];
  utils_set_save_path := fun _ => ok [];
  utils_log := fun _ _ => ok tt;
  datasets_make := fun _ _ => ok [];
  dataset_len := fun _ => ok 1;
  dataset_first_items := fun _ => ok [("inp", [1; 2]); ("gt_name", [])];
  tensor_shape := fun t => ok [1; Z.of_nat (length t)];
  torch_Sampler := fun _ => ok [];
  DataLoader := fun _ _ _ _ _ => ok [];
  loader_len := fun _ => ok 1;
  loader_iter := fun _ => ok [batch];
  to_device := fun t => ok t;
  models_make := fun _ => ok [];
  model_parameters := fun _ => ok [[3]; [4]];
  model_named_parameters :=
    fun _ => ok [("image_encoder.w", [3]); ("mask_decoder.w", [4])];
  requires_grad_ := fun _ _ => ok tt;
  requires_grad := fun _ => ok true;
  numel := fun t => ok (Z.of_nat (length t));
  utils_make_optimizer := fun _ _ => ok [];
  CosineAnnealingLR := fun _ _ _ => ok [];
  scheduler_step := fun _ => ok tt;
  utils_compute_num_params := fun _ => ok "2";
  set_optimizer := fun _ _ => ok tt;
  get_optimizer := fun _ => ok [];
  load_state_dict := fun _ _ => ok tt;
  state_dict := fun _ => ok [7];
  prompt_generator_state_dict := fun _ => ok [8];
  decode_head_state_dict := fun _ => ok [9];
  model_train := fun _ => ok tt;
  model_eval := fun _ => ok tt;
  model_call := fun _ inp _ _ => ok inp;
  model_gen_feat := fun _ _ => ok tt;
  model_query_rgb := fun _ c => ok c;
  no_grad_enter := ok tt;
  no_grad_exit := ok tt;
  torch_cuda_empty_cache := ok tt;
  tensor_shape1 := fun t => ok (Z.of_nat (length t));
  tensor_slice1 :=
    fun t ql qr => ok (take (Z.to_nat (qr - ql)) (drop (Z.to_nat ql) t));
  torch_cat := fun l _ => ok (concat l);
  torch_sigmoid := fun t => ok t;
  torch_sum := fun t => ok [foldr Z.add 0 t];
  tensor_sum_dims := fun t _ => ok [foldr Z.add 0 t];
  tensor_mean := fun t => ok t;
  tensor_add := fun a _ => ok a;
  tensor_iadd := fun a _ => ok a;
  tensor_sub := fun a _ => ok a;
  tensor_mul := fun a _ => ok a;
  tensor_div := fun a _ => ok a;
  tensor_add_float := fun a _ => ok a;
  float_sub_tensor := fun _ a => ok a;
  torch_BCEWithLogitsLoss := fun _ => ok [];
  nn_Module_init := ok [];
  criterion_call := fun _ pred _ => ok pred;
  tensor_backward := fun _ => ok tt;
  optimizer_zero_grad := fun _ => ok tt;
  optimizer_step := fun _ => ok tt;
  tensor_item := fun _ => ok 0.25%float;
  statistics_mean := fun l => ok (hd 0%float l);
  utils_metric := fun _ _ _ _ => ok (0.5, 0.25, 0.125, 0)%float;
  tqdm := fun _ _ => ok [];
  tqdm_update := fun _ _ => ok tt;
  tqdm_close := fun _ => ok tt;
  utils_Timer := ok [];
  timer_t := fun _ => ok 1%float;
  utils_time_text := fun _ => ok "1s";
  int_true_div := fun _ _ => 1%float;
  int_mod_float := fun _ _ => 0%float
|}.

(** A configuration in the shape the scripts expect. *)
Definition config (model_name eval_type : string) (resume : doc) : doc :=
  VDict [("train_dataset",
          VDict [("dataset", VStr "d"); ("wrapper", VStr "w");
                 ("batch_size", VInt 1)]);
         ("val_dataset",
          VDict [("dataset", VStr "d"); ("wrapper", VStr "w");
                 ("batch_size", VInt 1)]);
         ("test_dataset",
          VDict [("dataset", VStr "d"); ("wrapper", VStr "w");
                 ("batch_size", VInt 1)]);
         ("model",
          VDict [("name", VStr model_name);
                 ("args", VDict [("loss", VStr "iou");
                                 ("encoder_mode",
                                  VDict [("name", VStr "evp")])])]);
         ("optimizer", VDict [("name", VStr "adamw")]);
         ("epoch_max", VInt 2);
         ("epoch_val", VInt 1);
         ("lr_min", VFloat 1e-7%float);
         ("eval_type", VStr eval_type);
         ("sam_checkpoint", VStr "sam.pth");
         ("resume", resume)].

(** The world before a script starts: no file written, no call made, the
    given document on disk. *)
Definition world (d : doc) : @World framework :=
  @mkWorld framework ∅ [] d.

(** A configuration that lacks a key. *)
Definition without (key : string) (c : doc) : doc :=
  match c with
  | VDict d => VDict (List.filter (fun kv => negb (String.eqb kv.1 key)) d)
  | _ => c
  end.

(** The epoch loop of train.py before its first epoch. *)
Definition env (epoch_val : doc) : @Train.env framework :=
  @Train.mkEnv framework (VObj []) (VObj []) [] [] [] [] [] "./save/run"
               (VInt 1) (VInt 2) epoch_val.

Definition vars (eval_type : string) : @Train.vars framework :=
  @Train.mkVars framework (config "setr" eval_type VNone) 1e8%float
                (if String.eqb eval_type "ber" then 1e8 else -1e18)%float.

End Toy.

(** ** Vocabulary of the properties *)

Section Vocabulary.
Context {F : Framework}.
Local Notation value := (pyval Obj).

(** [m] raises in every world. *)
Definition fails {A} (m : M A) : Prop := forall w, is_ok (m w).1 = false.

(** Every run of [m], returning or raising, takes a world to an
    [R]-related world. *)
Definition steps {A} (R : relation World) (m : M A) : Prop :=
  forall w, R w (m w).2.

(** The calls made from one world to the other all satisfy [P]. *)
Definition emitting (P : event -> Prop) : relation World :=
  fun w w' => exists seg, trace w' = (trace w ++ seg)%list /\ Forall P seg.

(** The records of the file at [path] are the same in both worlds. *)
Definition keeping (path : string) : relation World :=
  fun w w' => records w' path = records w path.

(** The file at [path] has only gained records at its end. *)
Definition growing (path : string) : relation World :=
  fun w w' => records w path `prefix_of` records w' path.

(** [R] holds across a call [e], whatever the call does to the external
    state, and across a change [f] of the records of the file at [path]. *)
Definition allows (R : relation World) (e : event) : Prop :=
  forall w x, R w (mkWorld (files w) (trace w ++ [e])%list x).

Definition tolerates (R : relation World) (path : string)
    (f : list value -> list value) : Prop :=
  forall w, R w (mkWorld (<[path := f (records w path)]> (files w))
                         (trace w) (ext w)).

(** The values of [eval_type] for which [eval_psnr] has a branch. *)
Definition supported (eval_type : value) : Prop :=
  eval_type = VStr "f1" \/ eval_type = VStr "fmeasure" \/
  eval_type = VStr "ber" \/ eval_type = VStr "cod" \/
  eval_type = VStr "dice".

(** The epoch that a call announces: [print(f"{epoch} : ")] (train.py:248). *)
Definition epoch_marker (e : event) : option Z :=
  match e with
  | E_print [Fmt (VInt epoch); Lit " : "] => Some epoch
  | _ => None
  end.

(** The threshold of a call of a metric function. *)
Definition metric_threshold (e : event) : option (option Z) :=
  match e with
  | E_metric _ t => Some t
  | _ => None
  end.

(** The path of a call of [torch.save]. *)
Definition saved_path (e : event) : option string :=
  match e with
  | E_torch_save path => Some path
  | _ => None
  end.

Definition is_metric (e : event) : bool :=
  match e with E_metric _ _ => true | _ => false end.

Definition is_torch_load (e : event) : bool :=
  match e with E_torch_load _ => true | _ => false end.

(** A list of ranks that starts at [lo] or above, never decreases, and
    ends at [hi] or below. *)
Fixpoint ascending (lo : nat) (l : list nat) (hi : nat) : Prop :=
  match l with
  | [] => (lo <= hi)%nat
  | x :: l' => (lo <= x)%nat /\ ascending x l' hi
  end.

(** The ranked calls of every run of [m] ascend from [lo] to [hi]. *)
Definition ranked {A} (rank : event -> option nat) (lo hi : nat) (m : M A)
  : Prop :=
  forall w, exists seg,
    trace (m w).2 = (trace w ++ seg)%list /\ ascending lo (omap rank seg) hi.

(** The phases of train.py: loading the configuration (0), building the
    data sets and loaders (1), building the model and its optimizer (2),
    the epoch loop (3).  Calls that belong to no phase have no rank. *)
Definition phase (e : event) : option nat :=
  match e with
  | E_yaml_load _ => Some 0%nat
  | E_datasets_make _ | E_DataLoader _ => Some 1%nat
  | E_models_make _ | E_make_optimizer => Some 2%nat
  | E_model_call _ | E_criterion | E_backward | E_optimizer_step
  | E_statistics_mean | E_csv_writerow _ | E_torch_save _ | E_metric _ _ =>
      Some 3%nat
  | E_print text =>
      match epoch_marker e with Some _ => Some 3%nat | None => None end
  | _ => None
  end.

(** The stages of one epoch of train.py: training (0), the checkpoints
    [last] and [best_loss] (1), validation (2), the checkpoint [best] (3). *)
Definition is_file (path save_path name : string) : bool :=
  String.eqb path (Train.prompt_file save_path name)
  || String.eqb path (Train.model_file save_path name).

Definition stage (save_path : string) (e : event) : option nat :=
  match e with
  | E_model_call 40 | E_criterion | E_backward | E_optimizer_step
  | E_statistics_mean => Some 0%nat
  | E_torch_save path =>
      if is_file path save_path "last" || is_file path save_path "best_loss"
      then Some 1%nat
      else if is_file path save_path "best" then Some 3%nat
      else None
  | E_model_call 1 | E_metric _ _ => Some 2%nat
  | _ => None
  end.

(** Validation is due in [epoch] (train.py:276-277). *)
Definition due (epoch_val : value) (epoch : Z) : Prop :=
  is_none epoch_val = false /\ Train.mod_is_zero epoch epoch_val = Ok true.

(** "The validation metrics are computed after the epoch's checkpoint
    writes", read literally: in the calls of an epoch, no [torch.save]
    follows a call of a metric function. *)
Definition metrics_after_all_saves (seg : list event) : Prop :=
  forall i j f t path,
    seg !! i = Some (E_metric f t) -> seg !! j = Some (E_torch_save path) ->
    (j < i)%nat.

(** "The loss is delegated to the framework", read literally: the loss of
    a batch is the answer of a criterion of the framework, called on the
    prediction and the ground truth, and nothing else is computed. *)
Definition framework_criterion_only (pos_weight : option Obj) (pred gt : Obj)
  : M (option Train.criterion * Obj) :=
  let* c := call (E_call "BCEWithLogitsLoss")
                 (torch_BCEWithLogitsLoss pos_weight) in
  let* loss := call E_criterion (criterion_call c pred gt) in
  ret (Some (Train.Torch_BCEWithLogitsLoss c), loss).

Definition loss_delegated (loss_mode : value) : Prop :=
  forall bound pred gt w, exists pos_weight,
    Train.batch_loss loss_mode bound pred gt w =
    framework_criterion_only pos_weight pred gt w.

(** The checkpoint that [save] writes for a configuration. *)
Definition saves_prompt (config : value) : result bool :=
  match Train.model_name config with
  | Ok name =>
      if eq_str name "segformer" || eq_str name "setr" then
        match Train.encoder_mode_name config with
        | Ok mode => Ok (eq_str mode "evp")
        | Raise e => Raise e
        end
      else Ok false
  | Raise e => Raise e
  end.

Definition checkpoint_file (prompt : bool) (save_path name : string)
  : string :=
  if prompt then Train.prompt_file save_path name
  else Train.model_file save_path name.

(** The two CSV logs. *)
Definition is_log (path : string) : Prop :=
  path = Train.training_log \/ path = Test.log_path.

(** A log is only ever opened for appending. *)
Definition opens_logs_for_append (e : event) : Prop :=
  match e with
  | E_open path mode => is_log path -> mode = "a"
  | _ => True
  end.

(** [m] appends one record that satisfies [P] to the file when it
    returns, and leaves the records of the file alone when it raises. *)
Definition appends_one {A} (path : string) (P : value -> Prop) (m : M A)
  : Prop :=
  forall w,
    match m w with
    | (Ok _, w') =>
        exists record,
          P record /\ records w' path = (records w path ++ [record])%list
    | (Raise _, w') => records w' path = records w path
    end.


End Vocabulary.

Create HintDb scripts.
#[export] Hint Unfold
  predict_batch predict_all len_loader iter_loader to_dev writerow dump
  Test.threshold_round Test.eval_psnr Test.main Test.query_chunk
  Train.BBCEWithLogitLoss_forward Train._iou_loss Train.log_item
  Train.make_data_loader Train.make_data_loaders Train.eval_psnr
  Train.build_model_and_optimizer Train.prepare_training
  Train.select_criterion Train.apply_criterion Train.batch_loss
  Train.train_batch Train.items Train.train Train.save_prompt
  Train.save_model Train.save Train.train_epoch Train.log_training_row
  Train.checkpoint Train.validate Train.epoch_body Train.freeze
  Train.sum_numel Train.setup Train.main Train.script : scripts.

(** ** Vocabulary of the further properties *)

Section Observations.
Context {F : Framework}.
Local Notation value := (pyval Obj).

(** The three calls of one optimisation step (train.py:177, 190, 191). *)
Inductive step_call : Type := Forward | Backward | Step.

Definition training_step (e : event) : option step_call :=
  match e with
  | E_model_call 40 => Some Forward
  | E_backward => Some Backward
  | E_optimizer_step => Some Step
  | _ => None
  end.

(** A call that only training makes: a loss, its gradient, an update of
    the parameters. *)
Definition trains (e : event) : bool :=
  match e with
  | E_criterion | E_backward | E_optimizer_step => true
  | _ => false
  end.

(** A call that writes a file other than by appending to it. *)
Definition overwrites (e : event) : bool :=
  match e with
  | E_torch_save _ | E_yaml_dump => true
  | E_open _ mode => negb (String.eqb mode "a")
  | _ => false
  end.

(** The [shuffle] argument of a call of [DataLoader]. *)
Definition shuffle_flag (e : event) : option bool :=
  match e with
  | E_DataLoader shuffle => Some shuffle
  | _ => None
  end.

(** The row of a call of [writerow]. *)
Definition written_row (e : event) : option (list value) :=
  match e with
  | E_csv_writerow row => Some row
  | _ => None
  end.

(** The calls of an evaluation: a forward pass with its number of points,
    or a metric function with its threshold. *)
Definition evaluation_call (e : event) : option (Z + metric_fn * option Z) :=
  match e with
  | E_model_call num_points => Some (inl num_points)
  | E_metric fn threshold => Some (inr (fn, threshold))
  | _ => None
  end.


(** The text of a call of [log]. *)
Definition logged (e : event) : option (list (piece Obj)) :=
  match e with
  | E_log text => Some text
  | _ => None
  end.

(** From one world to the other, the calls that [f] observes are [l], in
    this order. *)
Definition yields {B} (f : event -> option B) (l : list B) : relation World :=
  fun w w' => exists seg, trace w' = (trace w ++ seg)%list /\ omap f seg = l.

(** Every run of [m] that returns makes the observed calls [l]. *)
Definition observed {A B} (f : event -> option B) (l : list B) (m : M A)
  : Prop :=
  forall w a w', m w = (Ok a, w') -> yields f l w w'.

(** After every run of [m] that returns, the file at [path] holds
    [content]. *)
Definition leaves {A} (path : string) (content : list value) (m : M A)
  : Prop :=
  forall w a w', m w = (Ok a, w') -> records w' path = content.

(** The condition of train.py:229 on the name of a parameter. *)
Definition frozen (name : string) : bool :=
  contains "image_encoder" name && negb (contains "prompt_generator" name).

(** [para.requires_grad_(False)] on each parameter of a list. *)
Definition freeze_all (params : list (string * Obj)) : M unit :=
  for_each (fun _ np => call (E_call "requires_grad_")
                             (requires_grad_ np.2 false))
           params tt.

(** The files that the epoch loop of train.py can write: its log and the
    checkpoints below [save_path]; and the files of a whole run, with the
    copy of the configuration. *)
Definition epoch_files (save_path : string) : list string :=
  [Train.training_log;
   Train.prompt_file save_path "last"; Train.model_file save_path "last";
   Train.prompt_file save_path "best_loss";
   Train.model_file save_path "best_loss";
   Train.prompt_file save_path "best"; Train.model_file save_path "best"].

Definition written_by_train (save_path : string) : list string :=
  os_path_join save_path "config.yaml" :: epoch_files save_path.

(** The result of a run that has returned. *)
Definition returned {A} (r : result A * World) (d : A) : A :=
  match r.1 with Ok a => a | Raise _ => d end.


(** The validation result that decides on the checkpoint [best], and
    whether it improves on the best one so far (train.py:288-297). *)
Definition improves (eval_type : value) (max_val_v : float)
    (results : float * float * float * float) : bool :=
  let '(result1, _, result3, _) := results in
  if negb (eq_str eval_type "ber") then (max_val_v <? result1)%float
  else (result3 <? max_val_v)%float.

Definition deciding (eval_type : value)
    (results : float * float * float * float) : float :=
  let '(result1, _, result3, _) := results in
  if negb (eq_str eval_type "ber") then result1 else result3.

End Observations.

#[export] Hint Unfold Train.make_data_loader_no_shuffle freeze_all : scripts.

(** * Properties *)

(** ** Paths *)

Section Paths.

Lemma last_char_app a b : b <> "" -> last_char (a ++ b) = last_char b.
Proof.
  intros Hb. induction a as [|c a IH]; [reflexivity|].
  simpl. rewrite IH. destruct (a ++ b) eqn:Hab; [|reflexivity].
  destruct a; [simpl in Hab; contradiction | discriminate].
Qed.

Lemma last_char_join a b :
  b <> "" -> last_char (os_path_join a b) = last_char b.
Proof.
  intros Hb. unfold os_path_join.
  destruct (starts_with_slash b); [reflexivity | apply last_char_app, Hb].
Qed.

Lemma append_nonempty a b : b <> "" -> a ++ b <> "".
Proof.
  intros Hb. destruct a as [|c a]; [exact Hb|].
  intros H. change (String c (a ++ b) = "") in H. discriminate.
Qed.

Lemma last_char_pth a name : last_char (a ++ name ++ ".pth") = Some "h"%char.
Proof.
  rewrite last_char_app by (apply append_nonempty; discriminate).
  rewrite last_char_app by discriminate. reflexivity.
Qed.

Lemma pth_nonempty a name : a ++ name ++ ".pth" <> "".
Proof.
  intros H. pose proof (last_char_pth a name) as Hl. rewrite H in Hl.
  discriminate.
Qed.

Lemma prompt_file_last save_path name :
  last_char (Train.prompt_file save_path name) = Some "h"%char.
Proof.
  unfold Train.prompt_file. rewrite last_char_join by apply pth_nonempty.
  apply last_char_pth.
Qed.

Lemma model_file_last save_path name :
  last_char (Train.model_file save_path name) = Some "h"%char.
Proof.
  unfold Train.model_file. rewrite last_char_join by apply pth_nonempty.
  apply last_char_pth.
Qed.

Lemma config_file_last save_path :
  last_char (os_path_join save_path "config.yaml") = Some "l"%char.
Proof. rewrite last_char_join by discriminate. reflexivity. Qed.

(** No checkpoint and no copy of the configuration is one of the CSV
    logs: their names end differently. *)
Lemma not_a_log path c :
  last_char path = Some c -> c <> "v"%char ->
  path <> Train.training_log /\ path <> Test.log_path.
Proof.
  intros Hl Hc. split; intros ->; vm_compute in Hl; congruence.
Qed.

Lemma join_relative a b :
  starts_with_slash b = false -> os_path_join a b = dir_prefix a ++ b.
Proof. intros Hb. unfold os_path_join. rewrite Hb. reflexivity. Qed.

End Paths.

(** ** The monad *)

Section MonadFacts.
Context {F : Framework}.

Lemma bind_run {A B} (m : M A) (k : A -> M B) (w : World) :
  bind m k w =
  match m w with
  | (Ok a, w') => k a w'
  | (Raise e, w') => (Raise e, w')
  end.
Proof. reflexivity. Qed.

Lemma bind_assoc {A B C} (m : M A) (k : A -> M B) (k' : B -> M C) w :
  bind (bind m k) k' w = bind m (fun a => bind (k a) k') w.
Proof. rewrite !bind_run. destruct (m w) as [[a|e] w']; reflexivity. Qed.

Lemma bind_ok_inv {A B} (m : M A) (k : A -> M B) w b w' :
  bind m k w = (Ok b, w') ->
  exists a w1, m w = (Ok a, w1) /\ k a w1 = (Ok b, w').
Proof.
  rewrite bind_run. destruct (m w) as [[a|e] w1]; [eauto | discriminate].
Qed.

Lemma for_each_snoc {A S} (body : S -> A -> M S) l x s w :
  for_each body (l ++ [x])%list s w =
  bind (for_each body l s) (fun s' => body s' x) w.
Proof.
  revert s w. induction l as [|y l IH]; intros s w; simpl.
  - unfold bind, ret. destruct (body s x w) as [[s'|e] w']; reflexivity.
  - rewrite bind_assoc, !bind_run.
    destruct (body s y w) as [[s'|e] w']; [apply IH | reflexivity].
Qed.

(** *** Computations that raise *)

Lemma fails_raise {A} e : fails (raise e : M A).
Proof. intros w. reflexivity. Qed.

Lemma fails_bind_l {A B} (m : M A) (k : A -> M B) :
  fails m -> fails (bind m k).
Proof.
  intros Hm w. specialize (Hm w). rewrite bind_run.
  destruct (m w) as [[a|e] w']; [discriminate | reflexivity].
Qed.

Lemma fails_bind_r {A B} (m : M A) (k : A -> M B) :
  (forall a, fails (k a)) -> fails (bind m k).
Proof.
  intros Hk w. rewrite bind_run.
  destruct (m w) as [[a|e] w']; [apply Hk | reflexivity].
Qed.

Lemma fails_bind_lift {A B} (v : A) (k : A -> M B) :
  fails (k v) -> fails (bind (lift (Ok v)) k).
Proof. intros Hk w. apply Hk. Qed.

Lemma fails_bind_post {A B} (m : M A) (k : A -> M B) (Q : A -> Prop) :
  (forall w a w', m w = (Ok a, w') -> Q a) ->
  (forall a, Q a -> fails (k a)) -> fails (bind m k).
Proof.
  intros Hm Hk w. rewrite bind_run. destruct (m w) as [[a|e] w'] eqn:Hrun;
    [|reflexivity].
  apply Hk. eapply Hm, Hrun.
Qed.

(** *** Relations that hold along every run *)

Section Steps.
Context (R : relation World) `{!PreOrder R}.

Lemma steps_ret {A} (a : A) : steps R (ret a).
Proof using PreOrder0. intros w. reflexivity. Qed.

Lemma steps_raise {A} e : steps R (raise e : M A).
Proof using PreOrder0. intros w. reflexivity. Qed.

Lemma steps_lift {A} (r : result A) : steps R (lift r).
Proof using PreOrder0. intros w. reflexivity. Qed.

Lemma steps_local {A} name (b : option A) : steps R (local name b).
Proof using PreOrder0. intros w. destruct b; reflexivity. Qed.

Lemma steps_bind {A B} (m : M A) (k : A -> M B) :
  steps R m -> (forall a, steps R (k a)) -> steps R (bind m k).
Proof using PreOrder0.
  intros Hm Hk w. rewrite bind_run. specialize (Hm w).
  destruct (m w) as [[a|e] w']; simpl in *; [|exact Hm].
  etransitivity; [exact Hm | apply Hk].
Qed.

Lemma steps_for_each {A S} (body : S -> A -> M S) l s :
  (forall s x, steps R (body s x)) -> steps R (for_each body l s).
Proof using PreOrder0.
  intros Hb. revert s. induction l as [|x l IH]; intros s; simpl.
  - apply steps_ret.
  - apply steps_bind; [apply Hb | exact IH].
Qed.

Lemma steps_call {A} e (op : Ext -> result A * Ext) :
  allows R e -> steps R (call e op).
Proof.
  intros He w. unfold call. destruct (op (ext w)) as [r x]. apply He.
Qed.

Lemma steps_print text : allows R (E_print text) -> steps R (print text).
Proof. intros He w. apply He. Qed.

Lemma steps_with_no_grad {A} (body : M A) :
  allows R (E_call "no_grad.__enter__") ->
  allows R (E_call "no_grad.__exit__") ->
  steps R body -> steps R (with_no_grad body).
Proof using PreOrder0.
  intros Hin Hout Hb. apply steps_bind; [apply steps_call, Hin|].
  intros _ w. specialize (Hb w). destruct (body w) as [r w1]. simpl in Hb.
  etransitivity; [exact Hb|]. unfold no_grad_leave.
  pose proof (steps_call (E_call "no_grad.__exit__") no_grad_exit Hout w1) as H.
  destruct (call (E_call "no_grad.__exit__") no_grad_exit w1) as [[[]|e] w2];
    exact H.
Qed.

Lemma steps_open_a path :
  allows R (E_open path "a") -> tolerates R path (fun l => l) ->
  steps R (open_a path).
Proof using PreOrder0.
  intros He Hf. apply steps_bind; [apply steps_call, He|]. intros _ w. apply Hf.
Qed.

Lemma steps_open_w path :
  allows R (E_open path "w") -> tolerates R path (fun _ => []) ->
  steps R (open_w path).
Proof using PreOrder0.
  intros He Hf. apply steps_bind; [apply steps_call, He|]. intros _ w. apply Hf.
Qed.

Lemma steps_emit path record :
  tolerates R path (fun l => l ++ [record])%list -> steps R (emit path record).
Proof. intros Hf w. apply Hf. Qed.

Lemma steps_save_obj obj path :
  allows R (E_torch_save path) -> tolerates R path (fun _ => [obj]) ->
  steps R (save_obj obj path).
Proof using PreOrder0.
  intros He Hf. apply steps_bind; [apply steps_call, He|]. intros _ w. apply Hf.
Qed.

End Steps.

#[export] Instance emitting_preorder P : PreOrder (emitting P).
Proof.
  split.
  - intros w. exists []. rewrite app_nil_r. auto.
  - intros w1 w2 w3 (s1 & H1 & F1) (s2 & H2 & F2). exists (s1 ++ s2)%list.
    rewrite H2, H1, <- app_assoc. split; [reflexivity | apply Forall_app; auto].
Qed.

#[export] Instance keeping_preorder path : PreOrder (keeping path).
Proof.
  split.
  - intros w. reflexivity.
  - intros w1 w2 w3 H1 H2. unfold keeping in *. congruence.
Qed.

#[export] Instance growing_preorder path : PreOrder (growing path).
Proof.
  split.
  - intros w. unfold growing. reflexivity.
  - intros w1 w2 w3 H1 H2. unfold growing in *. etransitivity; eauto.
Qed.

Lemma emitting_allows (P : event -> Prop) e : P e -> allows (emitting P) e.
Proof. intros He w x. exists [e]. simpl. auto. Qed.

Lemma emitting_tolerates (P : event -> Prop) path f :
  tolerates (emitting P) path f.
Proof. intros w. exists []. simpl. rewrite app_nil_r. auto. Qed.

Lemma keeping_allows path e : allows (keeping path) e.
Proof. intros w x. reflexivity. Qed.

Lemma records_insert (fs : gmap string (list (pyval Obj))) tr x q l path :
  records (mkWorld (<[q := l]> fs) tr x) path =
  if decide (q = path) then l else records (mkWorld fs tr x) path.
Proof.
  unfold records. simpl. rewrite lookup_insert. destruct (decide (q = path));
    reflexivity.
Qed.

Lemma keeping_tolerates_id path q : tolerates (keeping path) q (fun l => l).
Proof.
  intros w. unfold keeping. rewrite records_insert.
  destruct (decide (q = path)) as [->|]; reflexivity.
Qed.

Lemma keeping_tolerates_ne path q f :
  q <> path -> tolerates (keeping path) q f.
Proof.
  intros Hne w. unfold keeping. rewrite records_insert.
  destruct (decide (q = path)); [contradiction | reflexivity].
Qed.

Lemma growing_allows path e : allows (growing path) e.
Proof. intros w x. unfold growing. reflexivity. Qed.

Lemma growing_tolerates_app path q f :
  (forall l, l `prefix_of` f l) -> tolerates (growing path) q f.
Proof.
  intros Hf w. unfold growing. rewrite records_insert.
  destruct (decide (q = path)) as [->|]; [apply Hf | reflexivity].
Qed.

Lemma growing_tolerates_ne path q f :
  q <> path -> tolerates (growing path) q f.
Proof.
  intros Hne w. unfold growing. rewrite records_insert.
  destruct (decide (q = path)); [contradiction | reflexivity].
Qed.

End MonadFacts.

(** Going through a script statement by statement; [side] settles what a
    call or a file operation has to satisfy. *)
Ltac steps_through side :=
  repeat first
    [ apply steps_ret; tc_solve
    | apply steps_raise; tc_solve
    | apply steps_lift; tc_solve
    | apply steps_local; tc_solve
    | apply steps_print; side
    | apply steps_call; side
    | apply steps_open_a; [tc_solve | side | side]
    | apply steps_open_w; [tc_solve | side | side]
    | apply steps_emit; side
    | apply steps_save_obj; [tc_solve | side | side]
    | apply steps_with_no_grad; [tc_solve | side | side | ]
    | apply steps_for_each; [tc_solve | intros ? ?]
    | apply steps_bind; [tc_solve | | intros ?]
    | match goal with
      | |- steps _ (match ?x with _ => _ end) => destruct x
      end
    | progress cbv beta
    | progress autounfold with scripts ].

(** ** [batched_predict] *)

Module BatchedPredict.
Import Test.

Section Facts.
Context {F : Framework}.
Variables (model coord : Obj) (bsize : Z).
Hypothesis bsize_pos : 1 <= bsize.









End Facts.

Example batched_predict_toy :
  fst <$> batched_predict (F := Toy.framework) 3 [] [] (seqZ 1 10) 4
                          (Toy.world VNone)
  = Some (Ok (seqZ 1 10, [[1; 2; 3; 4]; [5; 6; 7; 8]; [9; 10]])).
Proof. vm_compute. reflexivity. Qed.


End BatchedPredict.

(** ** The [--prompt] flag of test.py *)

Module PromptFlag.
Import Test.

(** C5: two invocations of test.py that differ only in the value of
    [--prompt] do the same from every world: same outcome, same calls
    (prints included), same files, same external state. *)
Theorem prompt_flag_unused {F : Framework} (a1 a2 : args) (w : World) :
  args_config a1 = args_config a2 ->
  args_model a1 = args_model a2 ->
  main a1 w = main a2 w.
Proof.
  destruct a1 as [c1 m1 p1], a2 as [c2 m2 p2]. simpl.
  intros -> ->. reflexivity.
Qed.

Lemma prompt_flag_unused_witness :
  let a1 := @mkArgs Toy.framework (VStr "c.yaml") (VStr "m.pth") (VStr "none") in
  let a2 := @mkArgs Toy.framework (VStr "c.yaml") (VStr "m.pth") (VStr "box") in
  let w := Toy.world (Toy.config "setr" "cod" (VInt 3)) in
  args_config a1 = args_config a2 /\ args_model a1 = args_model a2 /\
  main a1 w = main a2 w.
Proof.
  intros a1 a2 w. split; [reflexivity|]. split; [reflexivity|].
  apply (prompt_flag_unused a1 a2 w); reflexivity.
Defined.

End PromptFlag.

(** ** [eval_psnr] *)

(** A run that returned, taken apart statement by statement. *)
Ltac invert_bind H :=
  let a := fresh "a" in
  let w := fresh "w" in
  let Hstep := fresh "Hstep" in
  apply bind_ok_inv in H as (a & w & Hstep & H).

Module EvalPsnr.

Section Facts.
Context {F : Framework}.
Local Notation value := (pyval Obj).

Lemma thresholds_eq :
  range_step 10 255 10 =
  [10; 20; 30; 40; 50; 60; 70; 80; 90; 100; 110; 120; 130; 140; 150; 160;
   170; 180; 190; 200; 210; 220; 230; 240; 250].
Proof. reflexivity. Qed.

Lemma select_metric_unsupported (eval_type : value) :
  ~ supported eval_type -> select_metric eval_type = None.
Proof.
  intros H. destruct eval_type as [| | | |s| | |]; try reflexivity.
  unfold select_metric, eq_str.
  repeat match goal with
         | |- context [String.eqb s ?l] =>
             destruct (String.eqb_spec s l) as [->|];
             [exfalso; apply H; unfold supported; tauto|]
         end.
  reflexivity.
Qed.

Lemma train_eval_psnr_fails loader model eval_type :
  select_metric eval_type = None ->
  fails (Train.eval_psnr loader model eval_type).
Proof.
  intros H. unfold Train.eval_psnr. rewrite H.
  apply fails_bind_r; intros _. apply fails_bind_r; intros [pred gt].
  apply fails_bind_l, fails_raise.
Qed.

Lemma test_eval_psnr_fails loader model data_norm eval_type eval_bsize verbose :
  select_metric eval_type = None ->
  fails (Test.eval_psnr loader model data_norm eval_type eval_bsize verbose).
Proof.
  intros H. unfold Test.eval_psnr. rewrite H, thresholds_eq.
  apply fails_bind_r; intros _. apply fails_bind_r; intros [pred gt].
  apply fails_bind_l. simpl. apply fails_bind_l.
  unfold Test.threshold_round. apply fails_bind_l, fails_raise.
Qed.

Lemma train_eval_psnr_unbound loader model eval_type w pred gt w1 :
  select_metric eval_type = None ->
  bind (call (E_call "eval") (model_eval model))
       (fun _ => predict_all loader model) w = (Ok (pred, gt), w1) ->
  Train.eval_psnr loader model eval_type w
  = (Raise (UnboundLocalError "metric_fn"), w1).
Proof.
  intros H Hrun. unfold Train.eval_psnr. rewrite H.
  rewrite bind_run in Hrun. rewrite bind_run.
  destruct (call (E_call "eval") (model_eval model) w) as [[[]|e] w0];
    [|discriminate].
  rewrite bind_run, Hrun. reflexivity.
Qed.

Lemma test_eval_psnr_unbound loader model data_norm eval_type eval_bsize
    verbose w pred gt w1 :
  select_metric eval_type = None ->
  bind (call (E_call "eval") (model_eval model))
       (fun _ => predict_all loader model) w = (Ok (pred, gt), w1) ->
  Test.eval_psnr loader model data_norm eval_type eval_bsize verbose w
  = (Raise (UnboundLocalError "metric_fn"), w1).
Proof.
  intros H Hrun. unfold Test.eval_psnr. rewrite H, thresholds_eq.
  rewrite bind_run in Hrun. rewrite bind_run.
  destruct (call (E_call "eval") (model_eval model) w) as [[[]|e] w0];
    [|discriminate].
  rewrite bind_run, Hrun. reflexivity.
Qed.

(** The script of test.py has no handler around [eval_psnr]. *)
Lemma test_main_fails a w config x eval_type :
  yaml_load (Test.args_config a) (ext w) = (Ok config, x) ->
  get config "eval_type" = Ok eval_type ->
  select_metric eval_type = None ->
  is_ok (Test.main a w).1 = false.
Proof.
  intros Hload Hget Hsel. unfold Test.main. rewrite bind_run.
  unfold call at 1. rewrite Hload.
  match goal with
  | |- is_ok (?m ?w1).1 = false => generalize w1; change (fails m)
  end.
  repeat match goal with
         | |- fails (bind (lift (get _ "eval_type")) _) => fail 1
         | |- fails (bind _ _) => apply fails_bind_r; intros ?
         end.
  rewrite Hget. apply fails_bind_lift.
  apply fails_bind_r; intros ?. apply fails_bind_l.
  apply test_eval_psnr_fails, Hsel.
Qed.

(** Neither has [main] of train.py: the validation raises, the epoch
    raises, the loop raises. *)
Lemma validate_fails E V epoch t log_info eval_type :
  get (Train.config V) "eval_type" = Ok eval_type ->
  select_metric eval_type = None ->
  fails (Train.validate E V epoch t log_info).
Proof.
  intros Hget Hsel. unfold Train.validate. rewrite Hget.
  apply fails_bind_lift, fails_bind_l, train_eval_psnr_fails, Hsel.
Qed.

Lemma dict_lookup_store (d : list (string * value)) k v k' :
  dict_lookup (dict_store d k v) k' =
  if String.eqb k k' then Some v else dict_lookup d k'.
Proof.
  induction d as [|[k0 v0] d IH]; simpl.
  - reflexivity.
  - destruct (String.eqb_spec k0 k) as [->|Hne]; simpl.
    + destruct (String.eqb k k'); reflexivity.
    + rewrite IH. destruct (String.eqb_spec k0 k') as [->|]; [|reflexivity].
      destruct (String.eqb_spec k k'); [congruence | reflexivity].
Qed.

Lemma get_setitem (c : value) k v c' k' :
  setitem c k v = Ok c' -> k <> k' -> get c' k' = get c k'.
Proof.
  destruct c; try discriminate. simpl. intros [= <-] Hne. simpl.
  rewrite dict_lookup_store.
  destruct (String.eqb_spec k k'); [contradiction | reflexivity].
Qed.

Lemma getitem_setitem (c : value) k v c' k' :
  setitem c k v = Ok c' -> k <> k' -> getitem c' k' = getitem c k'.
Proof.
  destruct c; try discriminate. simpl. intros [= <-] Hne. simpl.
  rewrite dict_lookup_store.
  destruct (String.eqb_spec k k'); [contradiction | reflexivity].
Qed.

(** The checkpoints add the two state dictionaries to the configuration
    and leave its other entries alone. *)
Lemma checkpoint_config E V loss w V' w' k :
  Train.checkpoint E V loss w = (Ok V', w') ->
  k <> "model" -> k <> "optimizer" ->
  get (Train.config V') k = get (Train.config V) k
  /\ getitem (Train.config V') k = getitem (Train.config V) k.
Proof.
  intros H Hm Ho. unfold Train.checkpoint in H.
  do 10 invert_bind H.
  unfold lift in *. unfold ret in H.
  repeat match goal with
         | H : (_, _) = (_, _) |- _ => injection H as ? ?
         end.
  subst. simpl.
  match goal with
  | H1 : setitem (Train.config V) "model" _ = Ok ?c1,
    H2 : setitem ?c1 "optimizer" _ = Ok ?c2 |- _ =>
      rewrite (get_setitem _ _ _ _ k H2), (get_setitem _ _ _ _ k H1),
              (getitem_setitem _ _ _ _ k H2), (getitem_setitem _ _ _ _ k H1)
        by congruence
  end.
  split; reflexivity.
Qed.

Lemma validate_config E V epoch t log_info w V' w' :
  Train.validate E V epoch t log_info w = (Ok V', w') ->
  Train.config V' = Train.config V.
Proof.
  intros H. unfold Train.validate in H.
  repeat first
    [ invert_bind H
    | match type of H with
      | (match ?x with _ => _ end) _ = _ => destruct x
      end ].
  unfold ret in H. injection H as <- _. reflexivity.
Qed.

Lemma epoch_body_config E V epoch w V' w' k :
  Train.epoch_body E V epoch w = (Ok V', w') ->
  k <> "model" -> k <> "optimizer" ->
  get (Train.config V') k = get (Train.config V) k
  /\ getitem (Train.config V') k = getitem (Train.config V) k.
Proof.
  intros H Hm Ho. unfold Train.epoch_body in H.
  invert_bind H. destruct a as [t0 loss]. invert_bind H. cbv zeta in H.
  invert_bind H.
  destruct (checkpoint_config _ _ _ _ _ _ k Hstep1 Hm Ho) as [Hg Hgi].
  rewrite <- Hg, <- Hgi.
  destruct (negb (is_none (Train.epoch_val E))).
  - invert_bind H.
    match type of H with
    | (if ?b then _ else _) _ = _ => destruct b
    end.
    + apply validate_config in H. rewrite H. split; reflexivity.
    + unfold ret in H. injection H as <- _. split; reflexivity.
  - unfold ret in H. injection H as <- _. split; reflexivity.
Qed.

Lemma epoch_body_fails E V epoch eval_type :
  get (Train.config V) "eval_type" = Ok eval_type ->
  select_metric eval_type = None ->
  due (Train.epoch_val E) epoch ->
  fails (Train.epoch_body E V epoch).
Proof.
  intros Hget Hsel [Hnone Hmod]. unfold Train.epoch_body.
  apply fails_bind_r; intros [t0 loss]. apply fails_bind_r; intros _.
  cbv zeta.
  apply fails_bind_post
    with (Q := fun V' => get (Train.config V') "eval_type" = Ok eval_type).
  - intros w V' w' H.
    rewrite (proj1 (checkpoint_config _ _ _ _ _ _ "eval_type" H
                      ltac:(discriminate) ltac:(discriminate))).
    exact Hget.
  - intros V' HV'. rewrite Hnone. simpl. rewrite Hmod.
    apply fails_bind_lift. eapply validate_fails; eauto.
Qed.

Lemma epoch_loop_fails E eval_type : forall epochs V,
  get (Train.config V) "eval_type" = Ok eval_type ->
  select_metric eval_type = None ->
  (exists epoch, epoch ∈ epochs /\ due (Train.epoch_val E) epoch) ->
  fails (for_each (Train.epoch_body E) epochs V).
Proof.
  induction epochs as [|x epochs IH]; intros V Hget Hsel (epoch & Hin & Hdue).
  - apply elem_of_nil in Hin. contradiction.
  - simpl. apply elem_of_cons in Hin as [->|Hin].
    + apply fails_bind_l. eapply epoch_body_fails; eauto.
    + apply fails_bind_post
        with (Q := fun V' => get (Train.config V') "eval_type" = Ok eval_type).
      * intros w V' w' H.
        rewrite (proj1 (epoch_body_config _ _ _ _ _ _ "eval_type" H
                          ltac:(discriminate) ltac:(discriminate))).
        exact Hget.
      * intros V' HV'. apply IH; eauto.
Qed.

(** C1: [eval_type] selects the metric function: each of the five strings
    selects its function of [utils], and nothing else selects any.  For
    every other value of [eval_type], [None] included, [eval_psnr] of
    either script raises; when the predictions were computed without a
    fault, what it raises is the [UnboundLocalError] for [metric_fn].
    Nothing catches it: the script of test.py raises, and so does the
    epoch loop of train.py as soon as a validation is due. *)
Theorem eval_type_selects_metric :
  (fst <$> select_metric (VStr "f1") = Some calc_f1
   /\ fst <$> select_metric (VStr "fmeasure") = Some calc_fmeasure
   /\ fst <$> select_metric (VStr "ber") = Some calc_ber
   /\ fst <$> select_metric (VStr "cod") = Some calc_cod
   /\ fst <$> select_metric (VStr "dice") = Some cal_dice_iou)
  /\ forall eval_type : value, ~ supported eval_type ->
       select_metric eval_type = None
       /\ (forall loader model,
             fails (Train.eval_psnr loader model eval_type))
       /\ (forall loader model data_norm eval_bsize verbose,
             fails (Test.eval_psnr loader model data_norm eval_type
                                   eval_bsize verbose))
       /\ (forall loader model w pred gt w1,
             bind (call (E_call "eval") (model_eval model))
                  (fun _ => predict_all loader model) w = (Ok (pred, gt), w1) ->
             Train.eval_psnr loader model eval_type w
             = (Raise (UnboundLocalError "metric_fn"), w1)
             /\ forall data_norm eval_bsize verbose,
                  Test.eval_psnr loader model data_norm eval_type eval_bsize
                                 verbose w
                  = (Raise (UnboundLocalError "metric_fn"), w1))
       /\ (forall a w config x,
             yaml_load (Test.args_config a) (ext w) = (Ok config, x) ->
             get config "eval_type" = Ok eval_type ->
             is_ok (Test.main a w).1 = false)
       /\ (forall E V epochs,
             get (Train.config V) "eval_type" = Ok eval_type ->
             (exists epoch, epoch ∈ epochs /\ due (Train.epoch_val E) epoch) ->
             fails (for_each (Train.epoch_body E) epochs V)).
Proof.
  split; [repeat split; reflexivity|].
  intros eval_type Hun. pose proof (select_metric_unsupported _ Hun) as Hsel.
  split; [exact Hsel|].
  split; [intros; apply train_eval_psnr_fails, Hsel|].
  split; [intros; apply test_eval_psnr_fails, Hsel|].
  split; [|split].
  - intros loader model w pred gt w1 Hrun. split.
    + eapply train_eval_psnr_unbound; eassumption.
    + intros. eapply test_eval_psnr_unbound; eassumption.
  - intros. eapply test_main_fails; eauto.
  - intros. eapply epoch_loop_fails; eauto.
Qed.

End Facts.

(** On the small framework, test.py with [eval_type: psnr] ends in the
    [UnboundLocalError], and so does train.py at its first validation. *)
Example test_script_unbound :
  (Test.main (@Test.mkArgs Toy.framework (VStr "c") (VStr "m") (VStr "none"))
             (Toy.world (Toy.config "setr" "psnr" (VInt 3)))).1
  = Raise (UnboundLocalError "metric_fn").
Proof. vm_compute. reflexivity. Qed.

Example train_script_unbound :
  (Train.script (F := Toy.framework) (Train.mkArgs "c.yaml" None None)
                (Toy.world (Toy.config "setr" "psnr" VNone))).1
  = Raise (UnboundLocalError "metric_fn").
Proof. vm_compute. reflexivity. Qed.

Lemma eval_type_selects_metric_witness :
  ~ supported (VStr "psnr" : pyval (@Obj Toy.framework))
  /\ is_ok (Test.main
              (@Test.mkArgs Toy.framework (VStr "c") (VStr "m") (VStr "none"))
              (Toy.world (Toy.config "setr" "psnr" (VInt 3)))).1 = false.
Proof.
  assert (Hun : ~ supported (VStr "psnr" : pyval (@Obj Toy.framework))).
  { unfold supported. intros [H|[H|[H|[H|H]]]]; discriminate H. }
  split; [exact Hun|].
  destruct (proj2 (eval_type_selects_metric (F := Toy.framework)) _ Hun)
    as (_ & _ & _ & _ & Hmain & _).
  eapply Hmain; reflexivity.
Defined.

End EvalPsnr.

(** ** The thresholds of test.py *)

Module Thresholds.
Import Test.

Section Facts.
Context {F : Framework}.
Local Notation value := (pyval Obj).

(** A round that returns has called the metric function at its threshold
    and returns the answer; what the earlier rounds had bound is not
    read. *)
Lemma threshold_round_ok fn pred gt results t w results' w' :
  threshold_round (Some fn) pred gt results t w = (Ok results', w') ->
  exists r,
    utils_metric fn pred gt (Some t) (ext w) = (Ok r, ext w')
    /\ results' = Some r
    /\ files w' = files w
    /\ exists text,
         trace w' = (trace w ++ [E_metric fn (Some t); E_print text])%list.
Proof.
  unfold threshold_round, local, bind, ret, call, print. simpl.
  destruct (utils_metric fn pred gt (Some t) (ext w))
    as [[[[[r1 r2] r3] r4]|e] x]; [|discriminate].
  intros [= <- <-]. simpl. eexists. repeat split.
  eexists. rewrite <- app_assoc. reflexivity.
Qed.

Lemma threshold_round_forgets fn pred gt results results' t :
  threshold_round fn pred gt results t = threshold_round fn pred gt results' t.
Proof. reflexivity. Qed.

Lemma threshold_loop_trace fn pred gt : forall ts results w results' w',
  for_each (threshold_round (Some fn) pred gt) ts results w
  = (Ok results', w') ->
  exists seg, trace w' = (trace w ++ seg)%list
              /\ omap metric_threshold seg = Some <$> ts.
Proof.
  induction ts as [|t ts IH]; intros results w results' w' H; simpl in H.
  - unfold ret in H. injection H as _ <-. exists []. rewrite app_nil_r. auto.
  - invert_bind H.
    apply threshold_round_ok in Hstep as (r & _ & _ & _ & text & Htr).
    apply IH in H as (seg & Htr' & Hseg).
    exists (E_metric fn (Some t) :: E_print text :: seg).
    rewrite Htr', Htr, <- app_assoc. split; [reflexivity|].
    rewrite fmap_cons, <- Hseg. reflexivity.
Qed.

(** C9: when [eval_psnr] of test.py returns, the metric function has been
    called at each of 10, 20, ..., 250, in this order, and the four values
    returned are the answer of the call at 250, the last one; the round at
    250 yields them whatever the earlier rounds had bound to the
    results. *)
Theorem eval_psnr_returns_last_threshold
    loader model data_norm eval_type eval_bsize verbose w r w' :
  eval_psnr loader model data_norm eval_type eval_bsize verbose w
  = (Ok r, w') ->
  range_step 10 255 10 = (fun k => 10 * k) <$> seqZ 1 25
  /\ last (range_step 10 255 10) = Some 250
  /\ exists fn pred gt w1 w2 earlier,
       fst <$> select_metric eval_type = Some fn
       /\ bind (call (E_call "eval") (model_eval model))
               (fun _ => predict_all loader model) w = (Ok (pred, gt), w1)
       /\ (exists seg, trace w' = (trace w1 ++ seg)%list
                       /\ omap metric_threshold seg
                          = Some <$> range_step 10 255 10)
       /\ for_each (threshold_round (Some fn) pred gt)
                   (removelast (range_step 10 255 10)) None w1
          = (Ok earlier, w2)
       /\ utils_metric fn pred gt (Some 250) (ext w2) = (Ok r, ext w')
       /\ forall earlier',
            (threshold_round (Some fn) pred gt earlier' 250 w2).1
            = Ok (Some r).
Proof.
  intros H. split; [reflexivity|]. split; [reflexivity|].
  destruct (select_metric eval_type) as [[fn names]|] eqn:Hsel.
  2:{ pose proof (EvalPsnr.test_eval_psnr_fails loader model data_norm
                    eval_type eval_bsize verbose Hsel w) as Hf.
      rewrite H in Hf. discriminate. }
  unfold eval_psnr in H. rewrite Hsel in H. simpl fmap in H.
  invert_bind H. invert_bind H. destruct a0 as [pred gt].
  invert_bind H.
  destruct a0 as [r'|]; simpl in H; unfold ret, raise in H; [|discriminate].
  injection H as -> ->.
  pose proof (threshold_loop_trace _ _ _ _ _ _ _ _ Hstep1) as Htrace.
  rewrite EvalPsnr.thresholds_eq in Hstep1.
  change [10; 20; 30; 40; 50; 60; 70; 80; 90; 100; 110; 120; 130; 140; 150;
          160; 170; 180; 190; 200; 210; 220; 230; 240; 250]
    with ([10; 20; 30; 40; 50; 60; 70; 80; 90; 100; 110; 120; 130; 140; 150;
           160; 170; 180; 190; 200; 210; 220; 230; 240] ++ [250])%list
    in Hstep1.
  rewrite for_each_snoc in Hstep1. invert_bind Hstep1.
  pose proof Hstep1 as Hlast.
  apply threshold_round_ok in Hlast as (r0 & Hcall & [= ->] & _ & _).
  exists fn, pred, gt, w1, w2, a0.
  split; [reflexivity|]. split.
  { rewrite bind_run, Hstep. exact Hstep0. }
  split; [exact Htrace|]. split; [exact Hstep2|]. split; [exact Hcall|].
  intros earlier'.
  rewrite (threshold_round_forgets _ _ _ earlier' a0), Hstep1. reflexivity.
Qed.

End Facts.

Lemma eval_psnr_returns_last_threshold_witness :
  let w := Toy.world VNone in
  let run := eval_psnr (F := Toy.framework) (VObj []) [] VNone (VStr "cod")
                       VNone true w in
  run = (Ok (0.5, 0.25, 0.125, 0)%float, run.2)
  /\ last (range_step 10 255 10) = Some 250.
Proof.
  intros w run.
  assert (Hrun : run = (Ok (0.5, 0.25, 0.125, 0)%float, run.2))
    by (vm_compute; reflexivity).
  split; [exact Hrun|].
  exact (proj1 (proj2 (eval_psnr_returns_last_threshold
                         (F := Toy.framework) (VObj []) [] VNone (VStr "cod")
                         VNone true w _ _ Hrun))).
Defined.

End Thresholds.

(** ** [save] *)

Module Save.
Import Train.

Section Facts.
Context {F : Framework}.
Local Notation value := (pyval Obj).

(** The nested conditions of [save] decide between two ways to save. *)
Lemma save_cases config model save_path name w :
  save config model save_path name w =
  match saves_prompt config with
  | Ok true => save_prompt model save_path name w
  | Ok false => save_model model save_path name w
  | Raise e => (Raise e, w)
  end.
Proof.
  unfold save, saves_prompt.
  destruct (model_name config) as [nm|e]; [|reflexivity].
  unfold bind, lift, ret.
  destruct (eq_str nm "segformer"); simpl.
  - destruct (encoder_mode_name config) as [mode|e]; [|reflexivity].
    destruct (eq_str mode "evp"); reflexivity.
  - destruct (eq_str nm "setr"); [|reflexivity].
    destruct (encoder_mode_name config) as [mode|e]; [|reflexivity].
    destruct (eq_str mode "evp"); reflexivity.
Qed.

Lemma eq_str_true (v : value) lit : eq_str v lit = true <-> v = VStr lit.
Proof.
  destruct v; simpl; try (split; [discriminate | intros [=]]).
  destruct (String.eqb_spec s lit); split; intros H; congruence.
Qed.

Lemma saves_prompt_true config :
  saves_prompt config = Ok true <->
  exists nm, model_name config = Ok nm
             /\ (nm = VStr "segformer" \/ nm = VStr "setr")
             /\ encoder_mode_name config = Ok (VStr "evp").
Proof.
  unfold saves_prompt. split.
  - destruct (model_name config) as [nm|e]; [|discriminate].
    destruct (eq_str nm "segformer" || eq_str nm "setr") eqn:Hnm;
      [|discriminate].
    destruct (encoder_mode_name config) as [mode|e]; [|discriminate].
    intros [= Hmode]. apply eq_str_true in Hmode as ->.
    exists nm. apply orb_true_iff in Hnm. rewrite !eq_str_true in Hnm. auto.
  - intros (nm & -> & Hnm & ->).
    destruct Hnm as [-> | ->]; reflexivity.
Qed.

Lemma save_model_run model save_path name w :
  let path := model_file save_path name in
  match save_model model save_path name w with
  | (Ok _, w') =>
      exists sd x,
        state_dict model (ext w) = (Ok sd, x)
        /\ files w' = <[path := [VObj sd]]> (files w)
        /\ trace w' = (trace w ++ [E_call "state_dict"; E_torch_save path])%list
  | (Raise _, w') => files w' = files w
  end.
Proof.
  intros path. unfold save_model, save_obj, bind, call. simpl.
  destruct (state_dict model (ext w)) as [[sd|e] x]; [|reflexivity]. simpl.
  destruct (torch_save (VObj sd) (model_file save_path name) x)
    as [[[]|e] x']; [|reflexivity].
  simpl. exists sd, x. rewrite <- app_assoc. auto.
Qed.

Lemma save_prompt_run model save_path name w :
  let path := prompt_file save_path name in
  match save_prompt model save_path name w with
  | (Ok _, w') =>
      exists pg dh x1 x2,
        prompt_generator_state_dict model (ext w) = (Ok pg, x1)
        /\ decode_head_state_dict model x1 = (Ok dh, x2)
        /\ files w' = <[path := [VDict [("prompt", VObj pg);
                                        ("decode_head", VObj dh)]]]> (files w)
        /\ trace w' = (trace w ++ [E_call "prompt_generator.state_dict";
                                   E_call "decode_head.state_dict";
                                   E_torch_save path])%list
  | (Raise _, w') => files w' = files w
  end.
Proof.
  intros path. unfold save_prompt, save_obj, bind, call. simpl.
  destruct (prompt_generator_state_dict model (ext w)) as [[pg|e] x1];
    [|reflexivity]. simpl.
  destruct (decode_head_state_dict model x1) as [[dh|e] x2] eqn:Hdh;
    [|reflexivity].
  simpl.
  destruct (torch_save _ (prompt_file save_path name) x2)
    as [[[]|e] x']; [|reflexivity].
  simpl. exists pg, dh, x1, x2. rewrite <- !app_assoc. repeat split.
  exact Hdh.
Qed.

(** C3: a call of [save] that returns has written one file, by one
    [torch.save]: [prompt_epoch_<name>.pth] with the states of the prompt
    generator and of the decode head exactly when the model is named
    [segformer] or [setr] and its encoder mode is [evp], and otherwise
    [model_epoch_<name>.pth] with the state dictionary of the model; the
    file lies under [save_path], and no other file has changed.  The call
    returns whenever the configuration has the entries that [save] reads
    and the framework raises in none of its calls; a call that raises
    leaves every file as it was. *)
Theorem save_writes_one_checkpoint config model save_path name w :
  (forall w', save config model save_path name w = (Ok tt, w') ->
     exists prompt obj,
       saves_prompt config = Ok prompt
       /\ (prompt = true <->
           exists nm, model_name config = Ok nm
                      /\ (nm = VStr "segformer" \/ nm = VStr "setr")
                      /\ encoder_mode_name config = Ok (VStr "evp"))
       /\ checkpoint_file prompt save_path name
          = dir_prefix save_path
            ++ (if prompt then "prompt_epoch_" else "model_epoch_")
            ++ name ++ ".pth"
       /\ files w' = <[checkpoint_file prompt save_path name := [obj]]> (files w)
       /\ (exists seg,
             trace w' = (trace w ++ seg)%list
             /\ omap saved_path seg = [checkpoint_file prompt save_path name])
       /\ if prompt then
            exists pg dh x1 x2,
              prompt_generator_state_dict model (ext w) = (Ok pg, x1)
              /\ decode_head_state_dict model x1 = (Ok dh, x2)
              /\ obj = VDict [("prompt", VObj pg); ("decode_head", VObj dh)]
          else
            exists sd x, state_dict model (ext w) = (Ok sd, x)
                         /\ obj = VObj sd)
  /\ (forall e w', save config model save_path name w = (Raise e, w') ->
        files w' = files w)
  /\ (forall prompt, saves_prompt config = Ok prompt ->
        (forall x, is_ok (state_dict model x).1 = true) ->
        (forall x, is_ok (prompt_generator_state_dict model x).1 = true) ->
        (forall x, is_ok (decode_head_state_dict model x).1 = true) ->
        (forall obj path x, is_ok (torch_save obj path x).1 = true) ->
        is_ok (save config model save_path name w).1 = true).
Proof.
  rewrite save_cases. split; [|split].
  - intros w' H. destruct (saves_prompt config) as [prompt|e] eqn:Hp;
      [|discriminate].
    exists prompt. destruct prompt.
    + pose proof (save_prompt_run model save_path name w) as Hrun.
      cbv zeta in Hrun. rewrite H in Hrun.
      destruct Hrun as (pg & dh & x1 & x2 & H1 & H2 & Hfiles & Htrace).
      eexists. split; [reflexivity|]. split.
      { rewrite <- saves_prompt_true. tauto. }
      split. { apply join_relative. reflexivity. }
      split; [exact Hfiles|]. split.
      { eexists. split; [exact Htrace | reflexivity]. }
      exists pg, dh, x1, x2. auto.
    + pose proof (save_model_run model save_path name w) as Hrun.
      cbv zeta in Hrun. rewrite H in Hrun.
      destruct Hrun as (sd & x & H1 & Hfiles & Htrace).
      eexists. split; [reflexivity|]. split.
      { rewrite <- saves_prompt_true, Hp. split; [discriminate | intros [=]]. }
      split. { apply join_relative. reflexivity. }
      split; [exact Hfiles|]. split.
      { eexists. split; [exact Htrace | reflexivity]. }
      exists sd, x. auto.
  - intros e w' H. destruct (saves_prompt config) as [[]|e0].
    + pose proof (save_prompt_run model save_path name w) as Hrun.
      cbv zeta in Hrun. rewrite H in Hrun. exact Hrun.
    + pose proof (save_model_run model save_path name w) as Hrun.
      cbv zeta in Hrun. rewrite H in Hrun. exact Hrun.
    + injection H as _ <-. reflexivity.
  - intros prompt -> Hsd Hpg Hdh Hsave. destruct prompt.
    + unfold save_prompt, save_obj, bind, call. simpl.
      specialize (Hpg (ext w)).
      destruct (prompt_generator_state_dict model (ext w)) as [[pg|e] x1];
        [|discriminate]. simpl.
      specialize (Hdh x1).
      destruct (decode_head_state_dict model x1) as [[dh|e] x2];
        [|discriminate]. simpl.
      match goal with
      | |- context [torch_save ?o ?p ?x] =>
          specialize (Hsave o p x); destruct (torch_save o p x) as [[[]|e] x']
      end; [reflexivity | discriminate].
    + unfold save_model, save_obj, bind, call. simpl.
      specialize (Hsd (ext w)).
      destruct (state_dict model (ext w)) as [[sd|e] x]; [|discriminate].
      simpl.
      match goal with
      | |- context [torch_save ?o ?p ?x] =>
          specialize (Hsave o p x); destruct (torch_save o p x) as [[[]|e] x']
      end; [reflexivity | discriminate].
Qed.

End Facts.

Example save_toy :
  map_to_list
    (files (save (F := Toy.framework) (Toy.config "setr" "cod" VNone) []
                 "./save/run" "last" (Toy.world VNone)).2)
  = [("./save/run/prompt_epoch_last.pth",
      [VDict [("prompt", VObj [8]); ("decode_head", VObj [9])]])].
Proof. vm_compute. reflexivity. Qed.

Lemma save_writes_one_checkpoint_witness :
  let config := Toy.config "setr" "cod" VNone in
  let w := Toy.world VNone in
  let w' := (save (F := Toy.framework) config [] "./save/run" "last" w).2 in
  save (F := Toy.framework) config [] "./save/run" "last" w = (Ok tt, w')
  /\ exists prompt obj,
       saves_prompt (F := Toy.framework) config = Ok prompt
       /\ files w' = <[checkpoint_file prompt "./save/run" "last" := [obj]]>
                       (files w).
Proof.
  intros config w w'.
  assert (Hrun : save (F := Toy.framework) config [] "./save/run" "last" w
                 = (Ok tt, w'))
    by (vm_compute; reflexivity).
  split; [exact Hrun|].
  destruct (proj1 (save_writes_one_checkpoint (F := Toy.framework) config []
                     "./save/run" "last" w) w' Hrun)
    as (prompt & obj & Hp & _ & _ & Hfiles & _).
  exists prompt, obj. split; assumption.
Defined.

End Save.

(** ** The loss of a batch *)

Module Loss.
Import Train.

Section Facts.
Context {F : Framework}.
Local Notation value := (pyval Obj).

Lemma batch_loss_bce bound pred gt w :
  batch_loss (VStr "bce") bound pred gt w
  = framework_criterion_only None pred gt w.
Proof.
  unfold batch_loss, framework_criterion_only, select_criterion,
    apply_criterion, bind, ret, local, call. simpl.
  destruct (torch_BCEWithLogitsLoss None (ext w)) as [[c|e] x];
    [|reflexivity]. simpl.
  destruct (criterion_call c pred gt x) as [[l|e] x']; reflexivity.
Qed.

Lemma batch_loss_bbce bound pred gt w :
  batch_loss (VStr "bbce") bound pred gt w
  = (let* self := call (E_call "Module.__init__") nn_Module_init in
     let* loss := BBCEWithLogitLoss_forward pred gt in
     ret (Some (BBCEWithLogitLoss self), loss)) w.
Proof.
  unfold batch_loss, select_criterion, apply_criterion, bind, ret, local,
    call. simpl.
  destruct (nn_Module_init (ext w)) as [[self|e] x]; [|reflexivity]. simpl.
  destruct (BBCEWithLogitLoss_forward pred gt _) as [[l|e] w2]; reflexivity.
Qed.

Lemma batch_loss_iou bound pred gt w :
  batch_loss (VStr "iou") bound pred gt w
  = (let* c := call (E_call "BCEWithLogitsLoss")
                    (torch_BCEWithLogitsLoss None) in
     let* loss := call E_criterion (criterion_call c pred gt) in
     let* extra := _iou_loss pred gt in
     let* loss := call (E_call "iadd") (tensor_iadd loss extra) in
     ret (Some (Torch_BCEWithLogitsLoss c), loss)) w.
Proof.
  unfold batch_loss, select_criterion, apply_criterion, bind, ret, local,
    call. simpl.
  destruct (torch_BCEWithLogitsLoss None (ext w)) as [[c|e] x];
    [|reflexivity]. simpl.
  destruct (criterion_call c pred gt x) as [[l|e] x']; [|reflexivity]. simpl.
  destruct (_iou_loss pred gt _) as [[extra|e] w3]; [|reflexivity].
  destruct (tensor_iadd l extra (ext w3)) as [[l'|e] x'']; reflexivity.
Qed.

Lemma batch_loss_other (loss_mode : value) pred gt w :
  loss_mode <> VStr "bce" -> loss_mode <> VStr "bbce" ->
  loss_mode <> VStr "iou" ->
  batch_loss loss_mode None pred gt w
  = (Raise (UnboundLocalError "criterionBCE"), w).
Proof.
  intros H1 H2 H3. unfold batch_loss, select_criterion.
  destruct (eq_str loss_mode "bce") eqn:E1;
    [apply Save.eq_str_true in E1; contradiction|].
  destruct (eq_str loss_mode "bbce") eqn:E2;
    [apply Save.eq_str_true in E2; contradiction|].
  destruct (eq_str loss_mode "iou") eqn:E3;
    [apply Save.eq_str_true in E3; contradiction|].
  reflexivity.
Qed.

(** C2, as the code has it: with [loss_mode] [bce] the loss of a batch is
    the answer of the framework's [BCEWithLogitsLoss()] and nothing else;
    with [bbce] it is computed by [BBCEWithLogitLoss.forward], which
    train.py defines; with [iou] it is the answer of the framework's
    [BCEWithLogitsLoss()] plus [_iou_loss(pred, gt)], which train.py
    defines; with any other [loss_mode] no criterion is bound and the first
    batch raises [UnboundLocalError]. *)
Theorem batch_loss_by_mode (bound : option criterion) (pred gt : Obj)
    (w : World) :
  batch_loss (VStr "bce") bound pred gt w
  = framework_criterion_only None pred gt w
  /\ batch_loss (VStr "bbce") bound pred gt w
     = (let* self := call (E_call "Module.__init__") nn_Module_init in
        let* loss := BBCEWithLogitLoss_forward pred gt in
        ret (Some (BBCEWithLogitLoss self), loss)) w
  /\ batch_loss (VStr "iou") bound pred gt w
     = (let* c := call (E_call "BCEWithLogitsLoss")
                       (torch_BCEWithLogitsLoss None) in
        let* loss := call E_criterion (criterion_call c pred gt) in
        let* extra := _iou_loss pred gt in
        let* loss := call (E_call "iadd") (tensor_iadd loss extra) in
        ret (Some (Torch_BCEWithLogitsLoss c), loss)) w
  /\ forall loss_mode : value,
       loss_mode <> VStr "bce" -> loss_mode <> VStr "bbce" ->
       loss_mode <> VStr "iou" ->
       batch_loss loss_mode None pred gt w
       = (Raise (UnboundLocalError "criterionBCE"), w).
Proof.
  split; [apply batch_loss_bce|]. split; [apply batch_loss_bbce|].
  split; [apply batch_loss_iou|]. intros. apply batch_loss_other; assumption.
Qed.

End Facts.

(** With [loss_mode] [bbce] the loss is not the answer of one criterion of
    the framework: on the small framework, [batch_loss] makes the calls of
    [BBCEWithLogitLoss.forward], which no call of a criterion makes. *)
Lemma loss_not_delegated :
  ~ loss_delegated (F := Toy.framework) (VStr "bbce").
Proof.
  intros H.
  destruct (H None [1; 0] [1; 1] (Toy.world VNone)) as [pos_weight Heq].
  vm_compute in Heq. discriminate Heq.
Qed.

Lemma batch_loss_by_mode_witness :
  (VStr "l1" : pyval (@Obj Toy.framework)) <> VStr "bce"
  /\ (VStr "l1" : pyval (@Obj Toy.framework)) <> VStr "bbce"
  /\ (VStr "l1" : pyval (@Obj Toy.framework)) <> VStr "iou"
  /\ batch_loss (F := Toy.framework) (VStr "l1") None [1; 0] [1; 1]
                (Toy.world VNone)
     = (Raise (UnboundLocalError "criterionBCE"), Toy.world VNone).
Proof.
  repeat (split; [discriminate|]).
  apply (batch_loss_by_mode (F := Toy.framework) None [1; 0] [1; 1]
           (Toy.world VNone)); discriminate.
Defined.

End Loss.

(** ** [prepare_training] *)

Module PrepareTraining.
Import Train.

Section Facts.
Context {F : Framework}.
Local Notation value := (pyval Obj).

Lemma build_agree (c1 c2 : value) w :
  getitem c1 "model" = getitem c2 "model" ->
  getitem c1 "optimizer" = getitem c2 "optimizer" ->
  build_model_and_optimizer c1 w = build_model_and_optimizer c2 w.
Proof.
  intros Hm Ho. unfold build_model_and_optimizer. rewrite Hm, Ho. reflexivity.
Qed.

(** What [prepare_training] does once the model and the optimizer are
    built (train.py:155-158). *)
Lemma prepare_training_cases (config : value) log w :
  prepare_training config log w =
  match get config "resume" with
  | Raise e => (Raise e, w)
  | Ok resume =>
      match build_model_and_optimizer config w with
      | (Raise e, w1) => (Raise e, w1)
      | (Ok (model, optimizer), w1) =>
          match (if negb (is_none resume) then add_one resume
                 else Ok (VInt 1)) with
          | Raise e => (Raise e, w1)
          | Ok epoch_start =>
              (let* max_epoch := lift (get config "epoch_max") in
               let* lr_min := lift (get config "lr_min") in
               let* lr_scheduler :=
                 call E_CosineAnnealingLR
                      (CosineAnnealingLR optimizer max_epoch lr_min) in
               let* text := call (E_call "compute_num_params")
                                 (utils_compute_num_params model) in
               call (E_log [Lit "model: #params="; Lit text])
                    (utils_log log [Lit "model: #params="; Lit text]) ;;
               ret (model, optimizer, epoch_start, lr_scheduler)) w1
          end
      end
  end.
Proof.
  unfold prepare_training. rewrite bind_run. unfold lift at 1.
  destruct (get config "resume") as [resume|e] eqn:Hr; [|reflexivity].
  rewrite bind_run. destruct (negb (is_none resume)).
  - rewrite bind_run.
    destruct (build_model_and_optimizer config w) as [[[model optimizer]|e] w1];
      [|reflexivity].
    rewrite !bind_run. unfold lift at 1 2.
    destruct (add_one resume); reflexivity.
  - rewrite bind_run.
    destruct (build_model_and_optimizer config w) as [[[model optimizer]|e] w1];
      reflexivity.
Qed.

Lemma get_store_same (d : list (string * value)) k v :
  get (VDict (dict_store d k v)) k = Ok v.
Proof.
  simpl. rewrite EvalPsnr.dict_lookup_store, String.eqb_refl. reflexivity.
Qed.

Lemma store_other (d : list (string * value)) k v k' :
  k <> k' ->
  get (VDict (dict_store d k v)) k' = get (VDict d) k'
  /\ getitem (VDict (dict_store d k v)) k' = getitem (VDict d) k'.
Proof.
  intros Hne. split.
  - apply (EvalPsnr.get_setitem (VDict d) k v); [reflexivity | exact Hne].
  - apply (EvalPsnr.getitem_setitem (VDict d) k v); [reflexivity | exact Hne].
Qed.

Lemma prepare_training_loads_nothing (config : value) log :
  steps (emitting (fun e => is_torch_load e = false))
        (prepare_training config log).
Proof.
  steps_through ltac:(apply emitting_allows; reflexivity).
Qed.

(** C8: a configuration with [resume: r] and the same configuration
    without the entry make [prepare_training] do the same: the same calls
    build the model, the optimizer and the scheduler, on the same external
    state, and none of the calls loads a checkpoint; if one run raises, so
    does the other, with the same exception.  The results differ in
    [epoch_start] only: [r + 1] against 1. *)
Theorem resume_changes_epoch_start_only
    (d : list (string * value)) (r : Z) log w :
  dict_lookup d "resume" = None ->
  let fresh := prepare_training (VDict d) log w in
  let resumed :=
    prepare_training (VDict (dict_store d "resume" (VInt r))) log w in
  resumed.2 = fresh.2
  /\ match fresh.1, resumed.1 with
     | Ok (model1, optimizer1, epoch_start1, lr_scheduler1),
       Ok (model2, optimizer2, epoch_start2, lr_scheduler2) =>
         model2 = model1 /\ optimizer2 = optimizer1
         /\ lr_scheduler2 = lr_scheduler1
         /\ epoch_start1 = VInt 1 /\ epoch_start2 = VInt (r + 1)
     | Raise e1, Raise e2 => e2 = e1
     | _, _ => False
     end
  /\ (exists seg, trace fresh.2 = (trace w ++ seg)%list
                  /\ Forall (fun e => is_torch_load e = false) seg).
Proof.
  intros Hnone fresh resumed. subst fresh resumed.
  split; [|split]; [| |apply prepare_training_loads_nothing].
  all: rewrite !prepare_training_cases, get_store_same.
  all: assert (Hfresh : get (VDict d) "resume" = Ok VNone)
         by (simpl; rewrite Hnone; reflexivity).
  all: rewrite Hfresh.
  all: rewrite (build_agree (VDict (dict_store d "resume" (VInt r))) (VDict d))
         by (refine (proj2 (store_other d "resume" (VInt r) _ _));
             discriminate).
  all: destruct (build_model_and_optimizer (VDict d) w)
         as [[[model optimizer]|?] w1]; [|simpl; auto].
  all: simpl negb; cbv iota.
  all: rewrite
         (proj1 (store_other d "resume" (VInt r) "epoch_max"
                   ltac:(discriminate))),
         (proj1 (store_other d "resume" (VInt r) "lr_min"
                   ltac:(discriminate))).
  all: simpl add_one; cbv iota.
  all: unfold bind, lift, ret, call; simpl.
  all: destruct (CosineAnnealingLR optimizer _ _ (ext w1))
         as [[sched|?] x2]; simpl; auto.
  all: destruct (utils_compute_num_params model x2) as [[text|?] x3];
         simpl; auto.
  all: destruct (utils_log log [Lit "model: #params="; Lit text] x3)
         as [[[]|?] x4]; simpl; auto 10.
Qed.

End Facts.

Lemma resume_changes_epoch_start_only_witness :
  let d : list (string * pyval (@Obj Toy.framework)) :=
    [("model", VDict [("name", VStr "setr")]);
     ("optimizer", VDict [("name", VStr "adamw")]);
     ("epoch_max", VInt 20)] in
  let w := Toy.world VNone in
  dict_lookup d "resume" = None
  /\ (prepare_training (F := Toy.framework)
        (VDict (dict_store d "resume" (VInt 7))) [] w).2
     = (prepare_training (F := Toy.framework) (VDict d) [] w).2.
Proof.
  intros d w. split; [reflexivity|].
  apply (resume_changes_epoch_start_only (F := Toy.framework) d 7 [] w).
  reflexivity.
Defined.

End PrepareTraining.

(** ** The epoch loop *)

Module Epochs.
Import Train.

Section Facts.
Context {F : Framework}.
Local Notation value := (pyval Obj).

Lemma range_from_seqZ (n : nat) (start : Z) :
  range_from n start 1 = seqZ start (Z.of_nat n).
Proof.
  revert start. induction n as [|n IH]; intros start.
  - reflexivity.
  - simpl range_from. rewrite IH, (seqZ_cons start) by lia.
    f_equal. f_equal; lia.
Qed.

Lemma range_step_seqZ (start stop : Z) :
  range_step start stop 1 = seqZ start (stop - start).
Proof.
  unfold range_step. rewrite Z.div_1_r, range_from_seqZ.
  destruct (Z.le_gt_cases 0 (stop - start)).
  - f_equal. lia.
  - rewrite !seqZ_nil by lia. reflexivity.
Qed.

Lemma omap_none {A B} (f : A -> option B) (l : list A) :
  Forall (fun x => f x = None) l -> omap f l = [].
Proof.
  induction 1 as [|x l Hx _ IH]; [reflexivity|].
  simpl. rewrite Hx. exact IH.
Qed.

Ltac no_marker := apply emitting_allows; reflexivity.

Lemma setup_announces_nothing config save_path :
  steps (emitting (fun e => epoch_marker e = None)) (setup config save_path).
Proof.
  steps_through ltac:(first [no_marker | apply emitting_tolerates]).
Qed.

(** An epoch announces itself once, before anything else. *)
Lemma epoch_body_marker E V epoch w :
  exists seg,
    trace (epoch_body E V epoch w).2
    = (trace w ++ E_print [Fmt (VInt epoch); Lit " : "] :: seg)%list
    /\ Forall (fun e => epoch_marker e = None) seg.
Proof.
  unfold epoch_body, train_epoch. rewrite !bind_assoc, bind_run.
  unfold print at 1.
  match goal with
  | |- context [(?m ?w0).2] =>
      assert (Hrest : steps (emitting (fun e => epoch_marker e = None)) m)
        by steps_through ltac:(first [no_marker | apply emitting_tolerates]);
      destruct (Hrest w0) as (seg & Htr & Hseg)
  end.
  exists seg. rewrite Htr. simpl. rewrite <- app_assoc. auto.
Qed.

(** The epochs that a run of the loop announces are the first epochs of
    the list, in order; all of them when the loop returns. *)
Lemma loop_markers E : forall epochs V w,
  exists seg,
    trace (for_each (epoch_body E) epochs V w).2 = (trace w ++ seg)%list
    /\ omap epoch_marker seg `prefix_of` epochs
    /\ (is_ok (for_each (epoch_body E) epochs V w).1 = true ->
        omap epoch_marker seg = epochs).
Proof.
  induction epochs as [|epoch epochs IH]; intros V w; simpl.
  - exists []. rewrite app_nil_r. auto.
  - rewrite bind_run.
    destruct (epoch_body_marker E V epoch w) as (seg1 & Htr1 & Hseg1).
    destruct (epoch_body E V epoch w) as [[V'|e] w1]; simpl in Htr1.
    + destruct (IH V' w1) as (seg2 & Htr2 & Hpre & Hall).
      exists (E_print [Fmt (VInt epoch); Lit " : "] :: (seg1 ++ seg2)%list).
      rewrite Htr2, Htr1, <- app_assoc.
      split; [reflexivity|].
      change (omap epoch_marker (_ :: (seg1 ++ seg2)%list))
        with (epoch :: omap epoch_marker (seg1 ++ seg2)%list).
      rewrite omap_app, (omap_none _ _ Hseg1). simpl.
      split; [apply prefix_cons, Hpre | intros Hok; f_equal; auto].
    + exists (E_print [Fmt (VInt epoch); Lit " : "] :: seg1).
      split; [exact Htr1|].
      change (omap epoch_marker (_ :: seg1))
        with (epoch :: omap epoch_marker seg1).
      rewrite (omap_none _ _ Hseg1).
      split; [apply prefix_cons, prefix_nil | discriminate].
Qed.

Lemma prepare_training_epoch_start config log w model optimizer epoch_start
    lr_scheduler w' :
  prepare_training config log w
  = (Ok (model, optimizer, epoch_start, lr_scheduler), w') ->
  (forall r, get config "resume" = Ok (VInt r) -> epoch_start = VInt (r + 1))
  /\ (get config "resume" = Ok VNone -> epoch_start = VInt 1).
Proof.
  rewrite PrepareTraining.prepare_training_cases.
  destruct (get config "resume") as [resume|e]; [|discriminate].
  destruct (build_model_and_optimizer config w) as [[[m o]|e] w1];
    [|discriminate].
  destruct (if negb (is_none resume) then add_one resume else Ok (VInt 1))
    as [es|e] eqn:Hes; [|discriminate].
  intros H. do 5 invert_bind H. unfold ret in H. injection H as _ _ <- _ _.
  split.
  - intros r [= ->]. simpl in Hes. congruence.
  - intros [= ->]. simpl in Hes. congruence.
Qed.

Lemma setup_result config_ save_path w E V w1 :
  setup config_ save_path w = (Ok (E, V), w1) ->
  getitem config_ "epoch_max" = Ok (epoch_max E)
  /\ (forall r, get config_ "resume" = Ok (VInt r) ->
                epoch_start E = VInt (r + 1))
  /\ (get config_ "resume" = Ok VNone -> epoch_start E = VInt 1).
Proof.
  intros H. unfold setup in H. cbv zeta in H.
  repeat first
    [ invert_bind H
    | match type of H with
      | (match ?x with _ => _ end) _ = _ => destruct x
      end ].
  unfold ret in H. injection H as <- <- _. simpl.
  match goal with
  | Hc : (if is_none ?dn then _ else _) _ = (Ok ?c, _),
    Hp : prepare_training ?c _ _ = (Ok (_, _, ?es, _), _) |- _ =>
      assert (Hcfg : forall k, k <> "data_norm" ->
                get c k = get config_ k /\ getitem c k = getitem config_ k);
      [ destruct (is_none dn); unfold lift, ret in Hc; injection Hc as Hc _;
        [ intros k Hk; split;
          [ eapply EvalPsnr.get_setitem | eapply EvalPsnr.getitem_setitem ];
          eauto
        | subst; auto ]
      | apply prepare_training_epoch_start in Hp as [Hres Hnew];
        rewrite (proj1 (Hcfg "resume" ltac:(discriminate))) in Hres, Hnew ]
  end.
  split; [|split; assumption].
  match goal with
  | He : lift (getitem ?c "epoch_max") _ = (Ok ?em, _) |- _ = Ok ?em =>
      unfold lift in He; injection He as He _;
      rewrite <- (proj2 (Hcfg "epoch_max" ltac:(discriminate))); exact He
  end.
Qed.

Lemma main_epochs config_ save_path w w' (m start : Z) :
  getitem config_ "epoch_max" = Ok (VInt m) ->
  (forall E V w1, setup config_ save_path w = (Ok (E, V), w1) ->
                  epoch_start E = VInt start) ->
  main config_ save_path w = (Ok tt, w') ->
  exists seg, trace w' = (trace w ++ seg)%list
              /\ omap epoch_marker seg = seqZ start (m - start + 1).
Proof.
  intros Hmax Hstart H. unfold main in H.
  invert_bind H. destruct a as [E V].
  destruct (setup_announces_nothing config_ save_path w) as (seg0 & Htr0 & Hseg0).
  rewrite Hstep in Htr0. simpl in Htr0.
  pose proof (Hstart _ _ _ Hstep) as Hes.
  apply setup_result in Hstep as (Hem & _ & _).
  rewrite Hmax in Hem. injection Hem as Hem.
  rewrite <- Hem, Hes in H.
  invert_bind H. unfold lift, add_one in Hstep. injection Hstep as <- <-.
  invert_bind H. unfold lift, range, as_int in Hstep.
  injection Hstep as <- <-. rewrite range_step_seqZ in H.
  invert_bind H. unfold ret in H. injection H as <-.
  destruct (loop_markers E (seqZ start (m + 1 - start)) V w0)
    as (seg & Htr & _ & Hall).
  rewrite Hstep in Htr, Hall. simpl in Htr, Hall.
  exists (seg0 ++ seg)%list. rewrite Htr, Htr0, <- app_assoc.
  split; [reflexivity|].
  rewrite omap_app, (omap_none _ _ Hseg0), Hall by reflexivity.
  simpl. f_equal. lia.
Qed.

(** C6: [prepare_training] returns [epoch_start = r + 1] when the
    configuration has [resume: r], and 1 when it has no [resume] (or
    [None]).  [range(epoch_start, epoch_max + 1)] is the list
    [epoch_start, epoch_start + 1, ..., epoch_max].  The loop announces the
    epochs of its list one by one and in order: in every run a first part
    of the list, and the whole list when the loop returns.  So a run of
    [main] that returns has gone through each epoch from [epoch_start] to
    [epoch_max] once, in increasing order. *)
Theorem epochs_run_from_start_to_max :
  (forall (config : value) log w model optimizer epoch_start lr_scheduler w',
     prepare_training config log w
     = (Ok (model, optimizer, epoch_start, lr_scheduler), w') ->
     (forall r, get config "resume" = Ok (VInt r) ->
                epoch_start = VInt (r + 1))
     /\ (get config "resume" = Ok VNone -> epoch_start = VInt 1))
  /\ (forall start m : Z,
        add_one (VInt m : value) = Ok (VInt (m + 1))
        /\ range (VInt start : value) (VInt (m + 1))
           = Ok (seqZ start (m - start + 1))
        /\ (forall (i : nat) e,
              seqZ start (m - start + 1) !! i = Some e
              <-> e = start + Z.of_nat i /\ start + Z.of_nat i <= m))
  /\ (forall E epochs V w,
        exists seg,
          trace (for_each (epoch_body E) epochs V w).2 = (trace w ++ seg)%list
          /\ omap epoch_marker seg `prefix_of` epochs
          /\ (is_ok (for_each (epoch_body E) epochs V w).1 = true ->
              omap epoch_marker seg = epochs))
  /\ (forall (config : value) save_path w w' m,
        getitem config "epoch_max" = Ok (VInt m) ->
        main config save_path w = (Ok tt, w') ->
        (forall r, get config "resume" = Ok (VInt r) ->
           exists seg, trace w' = (trace w ++ seg)%list
                       /\ omap epoch_marker seg = seqZ (r + 1) (m - r))
        /\ (get config "resume" = Ok VNone ->
            exists seg, trace w' = (trace w ++ seg)%list
                        /\ omap epoch_marker seg = seqZ 1 m)).
Proof.
  split; [apply prepare_training_epoch_start|].
  split; [|split; [apply loop_markers|]].
  - intros start m. split; [reflexivity|]. split.
    + unfold range. simpl. rewrite range_step_seqZ. do 2 f_equal. lia.
    + intros i e. rewrite lookup_seqZ. lia.
  - intros config save_path w w' m Hmax Hmain. split.
    + intros r Hr.
      destruct (main_epochs config save_path w w' m (r + 1) Hmax) as (seg & ? & Hseg);
        [|exact Hmain|].
      * intros E V w1 Hsetup. apply setup_result in Hsetup as (_ & Hs & _).
        auto.
      * exists seg. split; [assumption|]. rewrite Hseg. f_equal. lia.
    + intros Hr.
      destruct (main_epochs config save_path w w' m 1 Hmax) as (seg & ? & Hseg);
        [|exact Hmain|].
      * intros E V w1 Hsetup. apply setup_result in Hsetup as (_ & _ & Hs).
        auto.
      * exists seg. split; [assumption|]. rewrite Hseg. f_equal. lia.
Qed.

End Facts.

Example resumed_run_toy :
  omap epoch_marker
       (trace (main (F := Toy.framework) (Toy.config "setr" "cod" (VInt 1))
                    "./save/run" (Toy.world VNone)).2)
  = [2].
Proof. vm_compute. reflexivity. Qed.

Lemma epochs_run_from_start_to_max_witness :
  let config := Toy.config "setr" "cod" VNone in
  let w := Toy.world VNone in
  let w' := (main (F := Toy.framework) config "./save/run" w).2 in
  getitem config "epoch_max" = Ok (VInt 2)
  /\ main (F := Toy.framework) config "./save/run" w = (Ok tt, w')
  /\ get config "resume" = Ok VNone
  /\ exists seg, trace w' = (trace w ++ seg)%list
                 /\ omap epoch_marker seg = seqZ 1 2.
Proof.
  intros config w w'.
  assert (Hmain : main (F := Toy.framework) config "./save/run" w = (Ok tt, w'))
    by (vm_compute; reflexivity).
  split; [reflexivity|]. split; [exact Hmain|]. split; [reflexivity|].
  destruct (@epochs_run_from_start_to_max Toy.framework)
    as (_ & _ & _ & Hruns).
  apply (Hruns config "./save/run" w w' 2 eq_refl Hmain). reflexivity.
Defined.

End Epochs.

(** ** The CSV logs *)

Module CsvLogs.

Section Facts.
Context {F : Framework}.
Local Notation value := (pyval Obj).

Lemma not_log_ne q c path :
  last_char q = Some c -> c <> "v"%char -> is_log path -> q <> path.
Proof.
  intros Hq Hc [-> | ->]; eapply not_a_log; eassumption.
Qed.

(** What a file operation of the scripts has to satisfy for a log to keep
    its records, or to gain records only: the file is opened for appending
    or written at its end, or it is another file. *)
Ltac other_file Hlog :=
  first [ eapply not_log_ne; [apply prompt_file_last | discriminate | exact Hlog]
        | eapply not_log_ne; [apply model_file_last | discriminate | exact Hlog]
        | eapply not_log_ne; [apply config_file_last | discriminate | exact Hlog] ].

Ltac grows Hlog :=
  first [ apply growing_allows
        | apply growing_tolerates_app; intros ?;
          first [reflexivity | apply prefix_app_r; reflexivity]
        | apply growing_tolerates_ne; other_file Hlog ].

Ltac keeps Hlog :=
  first [ apply keeping_allows
        | apply keeping_tolerates_id
        | apply keeping_tolerates_ne; other_file Hlog ].

Lemma train_script_appends path a :
  is_log path -> steps (growing path) (Train.script a).
Proof. intros Hlog. steps_through ltac:(grows Hlog). Qed.

Lemma test_script_appends path a :
  is_log path -> steps (growing path) (Test.main a).
Proof. intros Hlog. steps_through ltac:(grows Hlog). Qed.

Lemma keeping_run {A} path (m : M A) w :
  steps (keeping path) m -> records (m w).2 path = records w path.
Proof. intros H. apply H. Qed.

Lemma train_epoch_keeps path E V epoch :
  is_log path -> steps (keeping path) (Train.train_epoch E V epoch).
Proof. intros Hlog. steps_through ltac:(keeps Hlog). Qed.

Lemma checkpoint_keeps path E V loss :
  is_log path -> steps (keeping path) (Train.checkpoint E V loss).
Proof. intros Hlog. steps_through ltac:(keeps Hlog). Qed.

Lemma validate_keeps path E V epoch t log_info :
  is_log path -> steps (keeping path) (Train.validate E V epoch t log_info).
Proof. intros Hlog. steps_through ltac:(keeps Hlog). Qed.

(** Opening a log for appending and writing one row: the row is at the
    end when this returns, and nothing has changed when it raises. *)
Lemma append_row path (row : list value) w :
  match (open_a path ;; writerow path row) w with
  | (Ok _, w') => records w' path = (records w path ++ [VList row])%list
  | (Raise _, w') => records w' path = records w path
  end.
Proof.
  unfold open_a, writerow, emit, bind, call. simpl.
  destruct (io_open path "a" (ext w)) as [[[]|e] x]; [|reflexivity]. simpl.
  destruct (csv_writerow row x) as [[[]|e] x']; unfold records; simpl;
    rewrite !lookup_insert; repeat case_decide; try congruence; reflexivity.
Qed.

Lemma train_epoch_loss E V epoch w t loss w' :
  Train.train_epoch E V epoch w = (Ok (t, loss), w') ->
  exists loss_mode w0 w1,
    Train.train (Train.train_loader E) (Train.model E) loss_mode w0
    = (Ok loss, w1).
Proof.
  intros H. unfold Train.train_epoch in H. do 7 invert_bind H.
  unfold ret in H. injection H as _ <- _. eauto.
Qed.

(** An epoch appends at most one row to the training log, and exactly one
    when it returns: the epoch and the loss that [train] returned. *)
Lemma epoch_row E V epoch w :
  exists rows,
    records (Train.epoch_body E V epoch w).2 Train.training_log
    = (records w Train.training_log ++ rows)%list
    /\ (rows = [] \/
        exists loss loss_mode w0 w1,
          rows = [VList [VInt epoch; VFloat loss]]
          /\ Train.train (Train.train_loader E) (Train.model E) loss_mode w0
             = (Ok loss, w1))
    /\ (is_ok (Train.epoch_body E V epoch w).1 = true -> rows <> []).
Proof.
  assert (Hlog : is_log Train.training_log) by (left; reflexivity).
  unfold Train.epoch_body. rewrite bind_run.
  pose proof (keeping_run _ _ w (train_epoch_keeps _ E V epoch Hlog)) as H1.
  destruct (Train.train_epoch E V epoch w) as [[[t loss]|e] w1] eqn:Htrain;
    simpl in H1.
  2:{ exists []. rewrite app_nil_r. simpl. split; [auto|]. split; [auto|].
      discriminate. }
  apply train_epoch_loss in Htrain as (loss_mode & w0 & w0' & Htrain).
  rewrite bind_run. unfold Train.log_training_row.
  pose proof (append_row Train.training_log [VInt epoch; VFloat loss] w1) as H2.
  destruct ((open_a Train.training_log ;;
             writerow Train.training_log [VInt epoch; VFloat loss]) w1)
    as [[[]|e] w2].
  2:{ exists []. rewrite app_nil_r. simpl. split; [congruence|].
      split; [auto | discriminate]. }
  cbv zeta.
  match goal with
  | |- context [(?m w2).2] =>
      assert (H3 : steps (keeping Train.training_log) m)
        by (apply steps_bind;
            [ tc_solve | apply checkpoint_keeps, Hlog
            | intros V'; destruct (negb (is_none (Train.epoch_val E)));
              [ apply steps_bind;
                [ tc_solve | apply steps_lift; tc_solve
                | intros [|];
                  [ apply validate_keeps, Hlog | apply steps_ret; tc_solve ] ]
              | apply steps_ret; tc_solve ] ]);
      specialize (H3 w2); unfold keeping in H3
  end.
  exists [VList [VInt epoch; VFloat loss]].
  split; [congruence|]. split; [|discriminate].
  right. exists loss, loss_mode, w0, w0'. auto.
Qed.

Lemma appends_one_bind {A B} path P (m : M A) (k : A -> M B) :
  steps (keeping path) m ->
  (forall a w w', m w = (Ok a, w') -> appends_one path P (k a)) ->
  appends_one path P (bind m k).
Proof.
  intros Hm Hk w. rewrite bind_run. specialize (Hm w). unfold keeping in Hm.
  destruct (m w) as [[a|e] w1] eqn:Hrun; simpl in Hm; [|exact Hm].
  specialize (Hk a w w1 Hrun w1).
  destruct (k a w1) as [[b|e] w2]; rewrite <- Hm; exact Hk.
Qed.

(** A run of test.py that returns has appended one row to its log: the
    value of [resume] in the configuration it loaded, and the four values
    that [eval_psnr] returned.  A run that raises has appended nothing. *)
Lemma test_run_row a :
  appends_one Test.log_path
    (fun record =>
       exists config epoch m1 m2 m3 m4,
         record = VList [epoch; VFloat m1; VFloat m2; VFloat m3; VFloat m4]
         /\ (exists w x, yaml_load (Test.args_config a) (ext w) = (Ok config, x))
         /\ getitem config "resume" = Ok epoch
         /\ exists loader model data_norm eval_type eval_bsize w0 w1,
              Test.eval_psnr loader model data_norm eval_type eval_bsize true w0
              = (Ok (m1, m2, m3, m4), w1))
    (Test.main a).
Proof.
  assert (Hlog : is_log Test.log_path) by (right; reflexivity).
  unfold Test.main.
  apply appends_one_bind; [steps_through ltac:(keeps Hlog)|].
  intros config w w' Hload.
  assert (Hyaml : exists w x,
             yaml_load (Test.args_config a) (ext w) = (Ok config, x)).
  { unfold call in Hload. exists w.
    destruct (yaml_load (Test.args_config a) (ext w)) as [r x].
    injection Hload as -> _. eauto. }
  clear Hload w w'.
  do 15 (apply appends_one_bind; [steps_through ltac:(keeps Hlog)|];
         intros ? _ _ _).
  apply appends_one_bind; [steps_through ltac:(keeps Hlog)|].
  intros [[[m1 m2] m3] m4] w0 w1 Heval.
  do 4 (apply appends_one_bind; [steps_through ltac:(keeps Hlog)|];
        intros ? _ _ _).
  apply appends_one_bind; [steps_through ltac:(keeps Hlog)|].
  intros epoch w2 w3 Hepoch. unfold lift in Hepoch. injection Hepoch as Hepoch _.
  intros w.
  pose proof (append_row Test.log_path
                [epoch; VFloat m1; VFloat m2; VFloat m3; VFloat m4] w) as Hrow.
  destruct ((open_a Test.log_path ;; writerow Test.log_path _) w)
    as [[[]|e] w4]; [|exact Hrow].
  eexists. split; [|exact Hrow].
  exists config, epoch, m1, m2, m3, m4. eauto 12.
Qed.

Ltac append_mode :=
  apply emitting_allows; unfold opens_logs_for_append;
  first [ exact I
        | intros _; reflexivity
        | let Hlog := fresh "Hlog" in
          intros Hlog; exfalso;
          exact (not_log_ne _ _ _ (config_file_last _) ltac:(discriminate)
                            Hlog eq_refl) ].

Lemma train_script_open_modes a :
  steps (emitting opens_logs_for_append) (Train.script a).
Proof.
  steps_through ltac:(first [append_mode | apply emitting_tolerates]).
Qed.

Lemma test_script_open_modes a :
  steps (emitting opens_logs_for_append) (Test.main a).
Proof.
  steps_through ltac:(first [append_mode | apply emitting_tolerates]).
Qed.

(** C4: the two CSV logs are append-only: either script opens them in
    mode ['a'] only, and in every run, returning or raising, the records
    that a log had are the first records that it has afterwards.  An epoch
    of train.py appends at most one row to [./save/training_log.csv], and
    exactly one when it returns: [[epoch, train_loss]], with the loss that
    [train] returned.  A run of test.py that returns has appended exactly
    one row to [./save/test_log.csv]: [config['resume']] and the four
    values that [eval_psnr] returned; a run that raises has appended
    none. *)
Theorem logs_append_only :
  (forall path, is_log path ->
     (forall a, steps (emitting opens_logs_for_append) (Train.script a))
     /\ (forall a, steps (emitting opens_logs_for_append) (Test.main a))
     /\ (forall a w,
           records w path `prefix_of` records (Train.script a w).2 path)
     /\ (forall a w,
           records w path `prefix_of` records (Test.main a w).2 path))
  /\ (forall E V epoch w,
        exists rows,
          records (Train.epoch_body E V epoch w).2 Train.training_log
          = (records w Train.training_log ++ rows)%list
          /\ (rows = [] \/
              exists loss loss_mode w0 w1,
                rows = [VList [VInt epoch; VFloat loss]]
                /\ Train.train (Train.train_loader E) (Train.model E)
                               loss_mode w0 = (Ok loss, w1))
          /\ (is_ok (Train.epoch_body E V epoch w).1 = true -> rows <> []))
  /\ (forall a,
        appends_one Test.log_path
          (fun record =>
             exists config epoch m1 m2 m3 m4,
               record = VList [epoch; VFloat m1; VFloat m2; VFloat m3;
                               VFloat m4]
               /\ (exists w x,
                     yaml_load (Test.args_config a) (ext w) = (Ok config, x))
               /\ getitem config "resume" = Ok epoch
               /\ exists loader model data_norm eval_type eval_bsize w0 w1,
                    Test.eval_psnr loader model data_norm eval_type
                                   eval_bsize true w0
                    = (Ok (m1, m2, m3, m4), w1))
          (Test.main a)).
Proof.
  split; [|split; [apply epoch_row | apply test_run_row]].
  intros path Hlog.
  split; [apply train_script_open_modes|].
  split; [apply test_script_open_modes|].
  split; intros a w.
  - apply (train_script_appends path a Hlog w).
  - apply (test_script_appends path a Hlog w).
Qed.

End Facts.

Example training_log_toy :
  records (Train.script (F := Toy.framework) (Train.mkArgs "c.yaml" None None)
                        (Toy.world (Toy.config "setr" "cod" VNone))).2
          Train.training_log
  = [VList [VInt 1; VFloat 0.25%float]; VList [VInt 2; VFloat 0.25%float]].
Proof. vm_compute. reflexivity. Qed.

Example test_log_toy :
  records (Test.main (@Test.mkArgs Toy.framework (VStr "c") (VStr "m")
                                   (VStr "none"))
                     (Toy.world (Toy.config "setr" "cod" (VInt 3)))).2
          Test.log_path
  = [VList [VInt 3; VFloat 0.5%float; VFloat 0.25%float; VFloat 0.125%float;
            VFloat 0%float]].
Proof. vm_compute. reflexivity. Qed.

Lemma logs_append_only_witness :
  let a := Train.mkArgs "c.yaml" None None in
  let w := Toy.world (Toy.config "setr" "cod" VNone) in
  is_log Train.training_log
  /\ records w Train.training_log
     `prefix_of` records (Train.script (F := Toy.framework) a w).2
                         Train.training_log.
Proof.
  intros a w.
  assert (Hlog : is_log Train.training_log) by (left; reflexivity).
  split; [exact Hlog|].
  destruct (proj1 (@logs_append_only Toy.framework) _ Hlog)
    as (_ & _ & Htrain & _).
  apply Htrain.
Defined.

End CsvLogs.

(** ** The order of the calls *)

Module Order.
Import Train.

Section Facts.
Context {F : Framework}.
Local Notation value := (pyval Obj).

Lemma ascending_weaken lo lo' l hi hi' :
  (lo' <= lo)%nat -> (hi <= hi')%nat ->
  ascending lo l hi -> ascending lo' l hi'.
Proof.
  revert lo lo'. induction l as [|x l IH]; simpl; intros lo lo' Hlo Hhi.
  - lia.
  - intros [Hx Hl]. split; [lia|]. eapply IH; eauto.
Qed.

Lemma ascending_app lo l1 mid l2 hi :
  ascending lo l1 mid -> ascending mid l2 hi -> ascending lo (l1 ++ l2)%list hi.
Proof.
  revert lo. induction l1 as [|x l1 IH]; simpl; intros lo.
  - intros Hlo H2. eapply ascending_weaken; [exact Hlo | reflexivity | exact H2].
  - intros [Hx H1] H2. split; [exact Hx | apply IH; assumption].
Qed.

Lemma ascending_constant (rank : event -> option nat) r seg :
  Forall (fun e => rank e = None \/ rank e = Some r) seg ->
  ascending r (omap rank seg) r.
Proof.
  induction 1 as [|e seg [He|He] _ IH]; simpl.
  - lia.
  - rewrite He. exact IH.
  - rewrite He. simpl. split; [lia | exact IH].
Qed.

Lemma ranked_emits {A} rank r (m : M A) :
  steps (emitting (fun e => rank e = None \/ rank e = Some r)) m ->
  ranked rank r r m.
Proof.
  intros H w. destruct (H w) as (seg & Htr & Hall).
  exists seg. split; [exact Htr | apply ascending_constant, Hall].
Qed.

Lemma ranked_weaken {A} rank lo lo' hi hi' (m : M A) :
  (lo' <= lo)%nat -> (hi <= hi')%nat ->
  ranked rank lo hi m -> ranked rank lo' hi' m.
Proof.
  intros Hlo Hhi H w. destruct (H w) as (seg & Htr & Hasc).
  exists seg. split; [exact Htr | eapply ascending_weaken; eauto].
Qed.

Lemma ranked_bind {A B} rank lo mid hi (m : M A) (k : A -> M B) :
  (lo <= mid)%nat -> (mid <= hi)%nat ->
  ranked rank mid mid m -> (forall a, ranked rank mid hi (k a)) ->
  ranked rank lo hi (bind m k).
Proof.
  intros Hlo Hhi Hm Hk w. rewrite bind_run.
  destruct (Hm w) as (s1 & Htr1 & Ha1).
  destruct (m w) as [[a|e] w1]; simpl in Htr1.
  - destruct (Hk a w1) as (s2 & Htr2 & Ha2).
    exists (s1 ++ s2)%list. rewrite Htr2, Htr1, <- app_assoc.
    split; [reflexivity|]. rewrite omap_app.
    eapply ascending_weaken; [exact Hlo | reflexivity |].
    eapply ascending_app; eauto.
  - exists s1. split; [exact Htr1|].
    eapply ascending_weaken; eauto.
Qed.

Lemma ranked_assoc {A B C} rank lo hi (m : M A) (k : A -> M B)
    (k' : B -> M C) :
  ranked rank lo hi (bind m (fun a => bind (k a) k')) ->
  ranked rank lo hi (bind (bind m k) k').
Proof. intros H w. rewrite bind_assoc. apply H. Qed.

(** *** The stage of a checkpoint *)

Lemma eqb_append a x y : String.eqb (a ++ x) (a ++ y) = String.eqb x y.
Proof.
  induction a as [|c a IH]; [reflexivity|].
  change (String.eqb (String c (a ++ x)) (String c (a ++ y)) = String.eqb x y).
  simpl. rewrite Ascii.eqb_refl. exact IH.
Qed.

Lemma eqb_join save_path x y :
  starts_with_slash x = false -> starts_with_slash y = false ->
  String.eqb (os_path_join save_path x) (os_path_join save_path y)
  = String.eqb x y.
Proof.
  intros Hx Hy. rewrite !join_relative by assumption. apply eqb_append.
Qed.

Lemma stage_checkpoint save_path prompt :
  stage save_path (E_torch_save (checkpoint_file prompt save_path "last"))
  = Some 1%nat
  /\ stage save_path
       (E_torch_save (checkpoint_file prompt save_path "best_loss"))
     = Some 1%nat
  /\ stage save_path (E_torch_save (checkpoint_file prompt save_path "best"))
     = Some 3%nat.
Proof.
  unfold stage, is_file, checkpoint_file, prompt_file, model_file.
  destruct prompt; rewrite !eqb_join by reflexivity;
    repeat split; vm_compute; reflexivity.
Qed.

(** *** Going through a script rank by rank *)

Ltac phase_side :=
  first [ apply emitting_tolerates
        | apply emitting_allows; first [left; reflexivity | right; reflexivity] ].

Ltac stage_side :=
  first [ apply emitting_tolerates
        | apply emitting_allows;
          first [ left; reflexivity | right; reflexivity
                | right; exact (proj1 (stage_checkpoint _ true))
                | right; exact (proj1 (stage_checkpoint _ false))
                | right; exact (proj1 (proj2 (stage_checkpoint _ true)))
                | right; exact (proj1 (proj2 (stage_checkpoint _ false)))
                | right; exact (proj2 (proj2 (stage_checkpoint _ true)))
                | right; exact (proj2 (proj2 (stage_checkpoint _ false))) ] ].

Ltac try_rank side lo r hi :=
  apply (ranked_bind _ lo r hi);
  [ lia | lia | apply ranked_emits; solve [steps_through side] | intros ? ].

Ltac try_leaf side lo r hi :=
  apply (ranked_weaken _ r lo r hi);
  [ lia | lia | apply ranked_emits; solve [steps_through side] ].

(** Each statement gets the lowest rank, from the current one on, that
    all of its ranked calls have. *)
Ltac ranked_through side :=
  repeat match goal with
         | |- ranked _ _ _ (bind (bind _ _) _) => apply ranked_assoc
         | |- ranked _ _ _ (bind (setup _ _) _) => unfold setup; cbv zeta
         | |- ranked _ _ _ (main _ _) => unfold main
         | |- ranked _ _ _ (validate _ _ _ _ _) => unfold validate
         | |- ranked _ ?lo ?hi (bind _ _) =>
             first [ try_rank side lo lo hi
                   | try_rank side lo (S lo) hi
                   | try_rank side lo (S (S lo)) hi
                   | try_rank side lo (S (S (S lo))) hi ]
         | |- ranked _ _ _ (match ?x with _ => _ end) => destruct x
         | |- ranked _ ?lo ?hi _ =>
             first [ try_leaf side lo lo hi
                   | try_leaf side lo (S lo) hi
                   | try_leaf side lo (S (S lo)) hi
                   | try_leaf side lo (S (S (S lo))) hi ]
         | _ => progress cbv beta zeta
         end.

Lemma script_phases a : ranked phase 0 3 (script a).
Proof. unfold script. ranked_through phase_side. Qed.

Lemma epoch_stages E V epoch :
  ranked (stage (save_path E)) 0 3 (epoch_body E V epoch).
Proof. unfold epoch_body. ranked_through stage_side. Qed.

Ltac no_metric :=
  first [ apply emitting_tolerates | apply emitting_allows; reflexivity ].

Lemma not_due_no_metric E V epoch :
  ~ due (epoch_val E) epoch ->
  steps (emitting (fun e => is_metric e = false)) (epoch_body E V epoch).
Proof.
  intros Hdue. unfold epoch_body.
  apply steps_bind; [tc_solve | steps_through no_metric |]. intros [t loss].
  apply steps_bind; [tc_solve | steps_through no_metric |]. intros _.
  cbv zeta.
  apply steps_bind; [tc_solve | steps_through no_metric |]. intros V'.
  destruct (is_none (epoch_val E)) eqn:Hnone; simpl;
    [apply steps_ret; tc_solve|].
  destruct (mod_is_zero epoch (epoch_val E)) as [[|]|e] eqn:Hmod.
  - exfalso. apply Hdue. split; assumption.
  - intros w. reflexivity.
  - intros w. reflexivity.
Qed.

(** C7, as the code has it: in every run of train.py, returning or
    raising, the calls come in the order: loading the configuration,
    building the data sets and loaders, building the model and its
    optimizer, the epoch loop.  In every epoch the calls come in the
    order: training, writing the checkpoints [last] and [best_loss],
    computing the validation metrics, writing the checkpoint [best]; the
    checkpoint [best] is thus written after the validation, not before.
    An epoch in which no validation is due ([epoch_val] is [None] or does
    not divide the epoch) calls no metric function. *)
Theorem calls_follow_the_script :
  (forall a, ranked phase 0 3 (script a))
  /\ (forall E V epoch,
        ranked (stage (save_path E)) 0 3 (epoch_body E V epoch))
  /\ (forall save_path prompt,
        stage save_path (E_torch_save (checkpoint_file prompt save_path "last"))
        = Some 1%nat
        /\ stage save_path
             (E_torch_save (checkpoint_file prompt save_path "best_loss"))
           = Some 1%nat
        /\ stage save_path
             (E_torch_save (checkpoint_file prompt save_path "best"))
           = Some 3%nat)
  /\ (forall E V epoch,
        ~ due (epoch_val E) epoch ->
        steps (emitting (fun e => is_metric e = false)) (epoch_body E V epoch)).
Proof.
  split; [apply script_phases|]. split; [apply epoch_stages|].
  split; [apply stage_checkpoint | apply not_due_no_metric].
Qed.

End Facts.

(** A run of train.py on the small framework with [resume: 1] and
    [epoch_max: 2], hence of the one epoch 2: the metric function is
    called (call 101), and the checkpoint [best] is written after that
    (call 104). *)
Lemma best_checkpoint_follows_validation :
  ~ metrics_after_all_saves
      (trace (script (F := Toy.framework) (mkArgs "c.yaml" (Some "run") None)
                     (Toy.world (Toy.config "unet" "cod" (VInt 1)))).2).
Proof.
  intros H.
  assert (Hlt : (104 < 101)%nat).
  { apply (H 101%nat 104%nat calc_cod None "./save/run/model_epoch_best.pth");
      vm_compute; reflexivity. }
  lia.
Qed.

Example stages_toy :
  omap (stage "./save/run")
       (trace (script (F := Toy.framework) (mkArgs "c.yaml" (Some "run") None)
                      (Toy.world (Toy.config "unet" "cod" (VInt 1)))).2)
  = [0; 0; 0; 0; 0; 1; 1; 2; 2; 3]%nat.
Proof. vm_compute. reflexivity. Qed.

Lemma calls_follow_the_script_witness :
  let E := @mkEnv Toy.framework VNone VNone [] [] [] [] [] "./save/run"
                  (VInt 1) (VInt 2) (VInt 2) in
  let V := @mkVars Toy.framework (Toy.config "unet" "cod" VNone)
                   1e8%float (-1e18)%float in
  ~ due (epoch_val E) 1
  /\ exists seg,
       trace (epoch_body E V 1 (Toy.world VNone)).2 = seg
       /\ Forall (fun e => is_metric e = false) seg.
Proof.
  intros E V.
  assert (Hdue : ~ due (epoch_val E) 1).
  { intros [_ Hmod]. vm_compute in Hmod. discriminate Hmod. }
  split; [exact Hdue|].
  destruct (proj2 (proj2 (proj2 (@calls_follow_the_script Toy.framework)))
              E V 1 Hdue (Toy.world VNone)) as (seg & Htr & Hseg).
  exists seg. split; [exact Htr | exact Hseg].
Defined.

End Order.

(** * Further properties *)

(** ** Calls observed along a run *)

Lemma returned_run {F : Framework} {A} (r : result A * World) (d : A) :
  is_ok r.1 = true -> r = (Ok (returned r d), r.2).
Proof. destruct r as [[a|e] w]; [reflexivity | discriminate]. Qed.

Section ObservedFacts.
Context {F : Framework}.
Context {B : Type} (f : event -> option B).

Lemma yields_refl w : yields f [] w w.
Proof. exists []. rewrite app_nil_r. auto. Qed.

Lemma yields_trans l1 l2 w1 w2 w3 :
  yields f l1 w1 w2 -> yields f l2 w2 w3 -> yields f (l1 ++ l2)%list w1 w3.
Proof.
  intros (s1 & H1 & F1) (s2 & H2 & F2). exists (s1 ++ s2)%list.
  rewrite H2, H1, <- app_assoc. split; [reflexivity|].
  rewrite omap_app. congruence.
Qed.

Lemma observed_ret {A} (a : A) : observed f [] (ret a).
Proof. intros w a' w' [= _ <-]. apply yields_refl. Qed.

Lemma observed_raise {A} l e : observed f l (raise e : M A).
Proof. intros w a' w' [=]. Qed.

Lemma observed_lift {A} (r : result A) : observed f [] (lift r).
Proof. intros w a' w' [= _ <-]. apply yields_refl. Qed.

Lemma observed_local {A} name (b : option A) : observed f [] (local name b).
Proof. destruct b; [apply observed_ret | apply observed_raise]. Qed.

Lemma observed_call {A} l e (op : Ext -> result A * Ext) :
  option_list (f e) = l -> observed f l (call e op).
Proof.
  intros <- w a w'. unfold call. destruct (op (ext w)) as [r x]. intros [= _ <-].
  exists [e]. split; [reflexivity|]. simpl. destruct (f e); reflexivity.
Qed.

Lemma observed_print l text :
  option_list (f (E_print text)) = l -> observed f l (print text).
Proof.
  intros <- w a w' [= _ <-]. exists [E_print text]. split; [reflexivity|].
  simpl. destruct (f _); reflexivity.
Qed.

Lemma observed_bind {A C} l1 l2 l (m : M A) (k : A -> M C) :
  observed f l1 m -> (forall a, observed f l2 (k a)) -> (l1 ++ l2)%list = l ->
  observed f l (bind m k).
Proof.
  intros Hm Hk <- w c w' H. apply bind_ok_inv in H as (a & w1 & H1 & H2).
  eapply yields_trans; [eapply Hm, H1 | eapply Hk, H2].
Qed.

Lemma observed_for_each {A S} l (body : S -> A -> M S) xs :
  (forall s x, observed f l (body s x)) ->
  forall s, observed f (concat (replicate (length xs) l)) (for_each body xs s).
Proof.
  intros Hb. induction xs as [|x xs IH]; intros s; simpl.
  - apply observed_ret.
  - eapply observed_bind; [apply Hb | exact IH | reflexivity].
Qed.

Lemma observed_for_each_nil {A S} (body : S -> A -> M S) xs :
  (forall s x, observed f [] (body s x)) ->
  forall s, observed f [] (for_each body xs s).
Proof.
  intros Hb. induction xs as [|x xs IH]; intros s; simpl.
  - apply observed_ret.
  - eapply observed_bind; [apply Hb | exact IH | reflexivity].
Qed.

Lemma concat_replicate_nil {C} n : concat (replicate n (@nil C)) = [].
Proof. induction n; [reflexivity | exact IHn]. Qed.

Lemma observed_run {A} l (m : M A) w a w' :
  m w = (Ok a, w') -> observed f l m -> yields f l w w'.
Proof. intros H Hm. eapply Hm, H. Qed.

End ObservedFacts.

Section MoreObserved.
Context {F : Framework}.
Context {B : Type} (f : event -> option B).

Lemma observed_with_no_grad {A} l l' (body : M A) :
  observed f l body ->
  (option_list (f (E_call "no_grad.__enter__")) ++ l
     ++ option_list (f (E_call "no_grad.__exit__")))%list = l' ->
  observed f l' (with_no_grad body).
Proof.
  intros Hb <-. unfold with_no_grad.
  eapply observed_bind; [apply observed_call; reflexivity | | reflexivity].
  intros _ w a w' H. destruct (body w) as [r w1] eqn:Hrun.
  unfold no_grad_leave in H.
  destruct (call (E_call "no_grad.__exit__") no_grad_exit w1) as [[[]|e] w2]
    eqn:Hexit; [|discriminate].
  injection H as -> <-.
  eapply yields_trans; [eapply Hb, Hrun|].
  eapply (observed_call f _ _ _ eq_refl), Hexit.
Qed.

Lemma observed_save_obj l obj path :
  option_list (f (E_torch_save path)) = l -> observed f l (save_obj obj path).
Proof.
  intros <- w a w' H. unfold save_obj in H. invert_bind H.
  injection H as _ <-.
  destruct (observed_call f _ _ _ eq_refl _ _ _ Hstep) as (seg & Htr & Hseg).
  exists seg. auto.
Qed.

Lemma observed_open_w l path :
  option_list (f (E_open path "w")) = l -> observed f l (open_w path).
Proof.
  intros <- w a w' H. unfold open_w in H. invert_bind H.
  injection H as _ <-.
  destruct (observed_call f _ _ _ eq_refl _ _ _ Hstep) as (seg & Htr & Hseg).
  exists seg. auto.
Qed.

Lemma observed_open_a l path :
  option_list (f (E_open path "a")) = l -> observed f l (open_a path).
Proof.
  intros <- w a w' H. unfold open_a in H. invert_bind H.
  injection H as _ <-.
  destruct (observed_call f _ _ _ eq_refl _ _ _ Hstep) as (seg & Htr & Hseg).
  exists seg. auto.
Qed.

Lemma observed_emit path record : observed f [] (emit path record).
Proof. intros w a w' [= _ <-]. exists []. rewrite app_nil_r. auto. Qed.

End MoreObserved.

Ltac listed := first [reflexivity | cbn; reflexivity].

Ltac observe :=
  repeat first
    [ apply observed_ret
    | apply (observed_raise _ [])
    | apply observed_raise
    | apply observed_lift
    | apply observed_local
    | apply observed_call; listed
    | apply observed_print; listed
    | apply observed_save_obj; listed
    | apply observed_open_w; listed
    | apply observed_open_a; listed
    | apply observed_emit
    | eapply observed_with_no_grad; [ | listed]
    | apply observed_for_each_nil; intros ? ?; solve [observe; listed]
    | eapply observed_for_each; intros ? ?
    | eapply observed_bind; [ | intros ? | ]
    | match goal with
      | |- observed _ _ (match ?x with _ => _ end) => destruct x
      end
    | progress cbv beta
    | progress autounfold with scripts ];
  try listed.

(** The observed calls of a step that has returned, and of consecutive
    steps. *)
Ltac yields_of f H :=
  let Hy := fresh "Hy" in
  match type of H with
  | ?m ?w1 = (Ok _, ?w2) =>
      eassert (Hy : yields f _ w1 w2)
        by (eapply (observed_run f _ m _ _ _ H); observe);
      cbn in Hy
  end.

Ltac chain_yields :=
  repeat match goal with
         | H1 : yields ?f _ ?w1 ?w2, H2 : yields ?f _ ?w2 ?w3 |- _ =>
             let Hy := fresh "Hy" in
             pose proof (yields_trans f _ _ _ _ _ H1 H2) as Hy;
             clear H1 H2; cbn in Hy;
             rewrite ?concat_replicate_nil, ?app_nil_r in Hy
         end.

Ltac all_yields f :=
  repeat match goal with
         | H : _ _ = (Ok _, _) |- _ => yields_of f H; clear H
         end.

Ltac units :=
  repeat match goal with u : unit |- _ => destruct u end.

Ltac invert_run H :=
  repeat first
    [ invert_bind H
    | match type of H with
      | (let (_, _) := ?x in _) _ = _ => destruct x
      end ].

Lemma emitting_weaken {F : Framework} (P Q : event -> Prop) w w' :
  (forall e, P e -> Q e) -> emitting P w w' -> emitting Q w w'.
Proof.
  intros HPQ (seg & Htr & Hall). exists seg. split; [exact Htr|].
  eapply Forall_impl; eauto.
Qed.

Section FailsFacts.
Context {F : Framework}.

Lemma fails_lift {A} (r : result A) e : r = Raise e -> fails (lift r).
Proof. intros -> w. reflexivity. Qed.

End FailsFacts.

(** A script that reads a key which the configuration lacks: [Hraise]
    says that the lookup raises. *)
Ltac fails_at Hraise :=
  first
    [ apply (fails_lift _ _ Hraise)
    | apply fails_raise
    | match goal with
      | |- fails (bind _ _) =>
          first [ apply fails_bind_l; solve [fails_at Hraise]
                | apply fails_bind_r; intros ?; fails_at Hraise ]
      | |- fails (match ?x with _ => _ end) => destruct x; fails_at Hraise
      | |- fails (let (_, _) := ?x in _) => destruct x; fails_at Hraise
      end
    | progress cbv beta zeta; fails_at Hraise
    | progress autounfold with scripts; fails_at Hraise ].

(** ** The training loop *)

Module TrainLoop.
Import Train.
Section Facts.
Context {F : Framework}.
Local Notation value := (pyval Obj).







End Facts.

Example train_toy :
  let run := train (F := Toy.framework) (VObj []) [] (VStr "iou")
                   (Toy.world VNone) in
  run.1 = Ok 0.25%float
  /\ omap training_step (trace run.2) = [Forward; Backward; Step].
Proof. vm_compute. auto. Qed.


End TrainLoop.

(** ** Checkpoints and validation *)

Module Checkpoints.
Import Train.
Section Facts.
Context {F : Framework}.
Local Notation value := (pyval Obj).

Lemma getitem_setitem_same (c : value) k v c' :
  setitem c k v = Ok c' -> getitem c' k = Ok v.
Proof.
  destruct c; try discriminate. simpl. intros [= <-]. simpl.
  rewrite EvalPsnr.dict_lookup_store, String.eqb_refl. reflexivity.
Qed.

Lemma getitem_get (c : value) k v : getitem c k = Ok v -> get c k = Ok v.
Proof.
  destruct c; try discriminate. simpl.
  destruct (dict_lookup d k); [|discriminate]. intros [= <-]. reflexivity.
Qed.

(** The state dictionaries that [main] stores in the configuration do not
    change the checkpoint that [save] chooses. *)
Lemma saves_prompt_sd (c : value) ms v ms' c1 os v' os' c2 :
  getitem c "model" = Ok ms -> setitem ms "sd" v = Ok ms' ->
  setitem c "model" ms' = Ok c1 ->
  getitem c1 "optimizer" = Ok os -> setitem os "sd" v' = Ok os' ->
  setitem c1 "optimizer" os' = Ok c2 ->
  saves_prompt c2 = saves_prompt c.
Proof.
  intros Hm Hms Hc1 Ho Hos Hc2.
  unfold saves_prompt, model_name, encoder_mode_name.
  rewrite (EvalPsnr.getitem_setitem _ _ _ _ "model" Hc2) by discriminate.
  rewrite (getitem_setitem_same _ _ _ _ Hc1), Hm.
  rewrite (EvalPsnr.getitem_setitem _ _ _ _ "name" Hms) by discriminate.
  rewrite (EvalPsnr.getitem_setitem _ _ _ _ "args" Hms) by discriminate.
  reflexivity.
Qed.

Lemma save_observed config model save_path name w w' :
  save config model save_path name w = (Ok tt, w') ->
  exists prompt,
    saves_prompt config = Ok prompt
    /\ yields saved_path [checkpoint_file prompt save_path name] w w'.
Proof.
  rewrite Save.save_cases. destruct (saves_prompt config) as [[]|e];
    [| |discriminate]; intros H; eexists; (split; [reflexivity|]).
  - yields_of saved_path H. exact Hy.
  - yields_of saved_path H. exact Hy.
Qed.

(** X2 (the checkpoints of an epoch, train.py:265-274).  When the
    statements return, they have called [torch.save] on the checkpoint
    [last], then on the checkpoint [best_loss] if and only if the loss of
    the epoch is below the best loss so far, and on nothing else; the kind
    of file (prompt or model) is the one that the configuration chose
    before the state dictionaries were stored in it; [best_loss] becomes
    the smaller of the two losses and [max_val_v] is left alone. *)
Theorem checkpoint_last_and_best_loss E V train_loss_G w V' w' :
  checkpoint E V train_loss_G w = (Ok V', w') ->
  exists prompt,
    saves_prompt (config V) = Ok prompt
    /\ yields saved_path
         (checkpoint_file prompt (save_path E) "last"
          :: if (train_loss_G <? best_loss V)%float
             then [checkpoint_file prompt (save_path E) "best_loss"] else [])
         w w'
    /\ best_loss V' = (if (train_loss_G <? best_loss V)%float
                       then train_loss_G else best_loss V)
    /\ max_val_v V' = max_val_v V.
Proof.
  unfold checkpoint. intros H. invert_run H. units.
  unfold ret in H. injection H as <- <-. simpl.
  match goal with
  | H1 : lift (getitem (config V) "model") _ = _,
    H2 : lift (setitem _ "sd" _) _ = (Ok ?ms', _),
    H3 : lift (setitem (config V) "model" ?ms') _ = (Ok ?c1, _),
    H4 : lift (getitem ?c1 "optimizer") _ = _,
    H5 : lift (setitem _ "sd" _) _ = (Ok ?os', _),
    H6 : lift (setitem ?c1 "optimizer" ?os') _ = (Ok ?c2, _) |- _ =>
      assert (Hsp : saves_prompt c2 = saves_prompt (config V))
        by (unfold lift in H1, H2, H3, H4, H5, H6;
            injection H1 as H1 _; injection H2 as H2 _; injection H3 as H3 _;
            injection H4 as H4 _; injection H5 as H5 _; injection H6 as H6 _;
            eapply saves_prompt_sd; eassumption)
  end.
  match goal with
  | Hs : save _ _ _ "last" _ = _ |- _ =>
      apply save_observed in Hs as (prompt & Hp & Hlast)
  end.
  exists prompt. rewrite <- Hsp. split; [exact Hp|].
  match goal with
  | Hb : (if ?c then _ else _) _ = _ |- _ =>
      destruct c; [invert_run Hb|]; unfold ret in Hb; injection Hb as <- <-
  end; units.
  - match goal with
    | Hs : save _ _ _ "best_loss" _ = _ |- _ =>
        apply save_observed in Hs as (prompt' & Hp' & Hbest)
    end.
    assert (prompt' = prompt) as -> by congruence.
    all_yields (saved_path (F := F)). chain_yields. auto.
  - all_yields (saved_path (F := F)). chain_yields. auto.
Qed.

(** X3 (the validation of an epoch, train.py:280-305).  When the
    statements return, [eval_psnr] has returned four results for the
    [eval_type] of the configuration, [torch.save] has been called on the
    checkpoint [best] if and only if the deciding result improves on
    [max_val_v] (a greater [result1], or for eval_type ber a smaller
    [result3]) and on nothing else; [max_val_v] becomes the deciding
    result in that case and stays otherwise; the best loss and the
    configuration stay. *)
Theorem validate_best_on_improvement E V epoch t_epoch_start log_info w V' w' :
  validate E V epoch t_epoch_start log_info w = (Ok V', w') ->
  exists eval_type results names w1 saved,
    getitem (config V) "eval_type" = Ok eval_type
    /\ eval_psnr (val_loader E) (model E) eval_type w
       = (Ok (results, names), w1)
    /\ yields saved_path saved w w'
    /\ (if improves eval_type (max_val_v V) results
        then exists prompt,
               saves_prompt (config V) = Ok prompt
               /\ saved = [checkpoint_file prompt (save_path E) "best"]
        else saved = [])
    /\ max_val_v V' = (if improves eval_type (max_val_v V) results
                       then deciding eval_type results else max_val_v V)
    /\ best_loss V' = best_loss V
    /\ config V' = config V.
Proof.
  unfold validate. intros H.
  invert_bind H. invert_bind H.
  match type of H with
  | context [let (_, _) := ?x in _] => destruct x as [[[[r1 r2] r3] r4] names]
  end.
  destruct names as [[[m1 m2] m3] m4].
  invert_bind H. invert_bind H.
  match goal with
  | H1 : lift (get _ "eval_type") _ = (Ok ?e0, _),
    H2 : lift (getitem _ "eval_type") _ = (Ok ?e1, _) |- _ =>
      assert (e0 = e1) as ->
        by (unfold lift in H1, H2; injection H1 as H1 _; injection H2 as H2 _;
            apply getitem_get in H2; congruence);
      assert (Het : getitem (config V) "eval_type" = Ok e1)
        by (unfold lift in H2; injection H2 as H2 _; exact H2)
  end.
  match goal with
  | He : eval_psnr _ _ ?et ?w0 = _, Hg : lift _ w = (_, ?w0) |- _ =>
      assert (w0 = w) as -> by (unfold lift in Hg; congruence)
  end.
  invert_run H. units. unfold ret in H. injection H as <- <-. simpl.
  unfold improves, deciding.
  match goal with
  | Hb : (if ?c then _ else _) _ = _ |- _ => destruct c eqn:Hber
  end;
  match goal with
  | Hb : (if ?c then _ else _) _ = _ |- _ =>
      destruct c eqn:Hlt; [invert_run Hb|]; unfold ret in Hb;
      injection Hb as <- <-
  end; units;
  try match goal with
    | Hs : save _ _ _ "best" _ = _ |- _ =>
        apply save_observed in Hs as (prompt & Hp & Hbest)
    end;
  eexists _, _, _, _, _; (split; [exact Het|]); (split; [eassumption|]);
  all_yields (saved_path (F := F)); chain_yields;
  (split; [eassumption|]); cbn; rewrite Hber, Hlt; eauto 10.
Qed.

End Facts.

Lemma checkpoint_last_and_best_loss_witness :
  exists prompt,
    saves_prompt (config (Toy.vars "cod")) = Ok prompt
    /\ yields saved_path
         (checkpoint_file prompt (save_path (Toy.env (VInt 1))) "last"
          :: if (0.25 <? best_loss (Toy.vars "cod"))%float
             then [checkpoint_file prompt (save_path (Toy.env (VInt 1))) "best_loss"]
             else [])
         (Toy.world VNone)
         (checkpoint (Toy.env (VInt 1)) (Toy.vars "cod") 0.25%float (Toy.world VNone)).2
    /\ best_loss (returned (checkpoint (Toy.env (VInt 1)) (Toy.vars "cod")
                                            0.25%float (Toy.world VNone))
                                (Toy.vars "cod"))
       = (if (0.25 <? best_loss (Toy.vars "cod"))%float
          then 0.25%float else best_loss (Toy.vars "cod"))
    /\ max_val_v (returned (checkpoint (Toy.env (VInt 1)) (Toy.vars "cod")
                                            0.25%float (Toy.world VNone))
                                (Toy.vars "cod"))
       = max_val_v (Toy.vars "cod").
Proof.
  apply (@checkpoint_last_and_best_loss Toy.framework (Toy.env (VInt 1))
           (Toy.vars "cod") 0.25%float (Toy.world VNone)).
  apply returned_run. vm_compute. reflexivity.
Defined.

Example checkpoint_toy :
  omap saved_path
       (trace (checkpoint (Toy.env (VInt 1)) (Toy.vars "cod") 0.25%float
                          (Toy.world VNone)).2)
  = ["./save/run/prompt_epoch_last.pth";
     "./save/run/prompt_epoch_best_loss.pth"]
  /\ omap saved_path
          (trace (checkpoint (Toy.env (VInt 1)) (Toy.vars "cod") 1e9%float
                             (Toy.world VNone)).2)
     = ["./save/run/prompt_epoch_last.pth"].
Proof. split; vm_compute; reflexivity. Qed.

Lemma validate_best_on_improvement_witness :
  let E := (Toy.env (VInt 1)) in
  let V := Toy.vars "ber" in
  let w := Toy.world VNone in
  let run := validate E V 1 1%float (log_info_of E 1 0.25%float) w in
  exists eval_type results names w1 saved,
    getitem (config V) "eval_type" = Ok eval_type
    /\ eval_psnr (val_loader E) (model E) eval_type w
       = (Ok (results, names), w1)
    /\ yields saved_path saved w run.2
    /\ (if improves eval_type (max_val_v V) results
        then exists prompt,
               saves_prompt (config V) = Ok prompt
               /\ saved = [checkpoint_file prompt (save_path E) "best"]
        else saved = [])
    /\ max_val_v (returned run V)
       = (if improves eval_type (max_val_v V) results
          then deciding eval_type results else max_val_v V)
    /\ best_loss (returned run V) = best_loss V
    /\ config (returned run V) = config V.
Proof.
  apply (@validate_best_on_improvement Toy.framework (Toy.env (VInt 1))
           (Toy.vars "ber") 1 1%float
           (log_info_of (Toy.env (VInt 1)) 1 0.25%float) (Toy.world VNone)).
  apply returned_run. vm_compute. reflexivity.
Defined.

(** With eval_type ber the third result counts, and a result that only
    equals the best one so far writes nothing. *)
Example validate_toy :
  let V := Toy.vars "ber" in
  let V' := mkVars (config V) (best_loss V) 0.125%float in
  let run V := validate (Toy.env (VInt 1)) V 1 1%float
                        (log_info_of (Toy.env (VInt 1)) 1 0.25%float)
                        (Toy.world VNone) in
  omap saved_path (trace (run V).2) = ["./save/run/prompt_epoch_best.pth"]
  /\ max_val_v (returned (run V) V) = 0.125%float
  /\ omap saved_path (trace (run V').2) = []
  /\ is_ok (run V').1 = true.
Proof. vm_compute. auto. Qed.

End Checkpoints.

Module Validation.
Import Train.
Section Facts.
Context {F : Framework}.
Local Notation value := (pyval Obj).






End Facts.


(** The calls of a validation on the small framework, whose loader has
    one batch. *)
Example eval_psnr_toy :
  omap evaluation_call
       (trace (eval_psnr (F := Toy.framework) (VObj []) [] (VStr "ber")
                         (Toy.world VNone)).2)
  = [inl 1; inr (calc_ber, None)].
Proof. vm_compute. reflexivity. Qed.

End Validation.

(** ** Paths *)

Module RunDirectory.
Import Train.

Lemma to_list_app a b :
  list_ascii_of_string (a ++ b)
  = (list_ascii_of_string a ++ list_ascii_of_string b)%list.
Proof.
  induction a as [|c a IH]; [reflexivity|].
  change (String c a ++ b) with (String c (a ++ b)). simpl. rewrite IH.
  reflexivity.
Qed.

Lemma app_inv_r a b s : a ++ s = b ++ s -> a = b.
Proof.
  intros H. apply (f_equal list_ascii_of_string) in H.
  rewrite !to_list_app in H. apply app_inv_tail in H.
  rewrite <- (string_of_list_ascii_of_string a), H.
  apply string_of_list_ascii_of_string.
Qed.









(** The last five characters go, whatever they are, and [--name] can
    leave [./save]. *)
Example run_directory_toy :
  save_name (mkArgs "configs/cod.yml" None None) = "_co"
  /\ save_name (mkArgs "a.b" None None) = "_"
  /\ os_path_join "./save" (save_name (mkArgs "c.yaml" (Some "/tmp/run") None))
     = "/tmp/run".
Proof. vm_compute. auto. Qed.

End RunDirectory.

Module CheckpointFiles.
Import Train.

Lemma checkpoint_file_eq prompt save_path name :
  checkpoint_file prompt save_path name
  = dir_prefix save_path
    ++ (if prompt then "prompt_epoch_" else "model_epoch_") ++ name ++ ".pth".
Proof. destruct prompt; reflexivity. Qed.

(** X6 (the files of a run, train.py:208, 255, 308-319).  In one run
    directory, two checkpoints have the same path only if they are of the
    same kind and have the same name; no checkpoint is the copy of the
    configuration or one of the CSV logs, the copy of the configuration
    is not the training log, and the eight files that train.py can write
    are pairwise different. *)
Theorem checkpoints_do_not_collide save_path :
  (forall p1 p2 n1 n2,
     checkpoint_file p1 save_path n1 = checkpoint_file p2 save_path n2 ->
     p1 = p2 /\ n1 = n2)
  /\ (forall p n,
        checkpoint_file p save_path n <> os_path_join save_path "config.yaml"
        /\ checkpoint_file p save_path n <> training_log
        /\ checkpoint_file p save_path n <> Test.log_path)
  /\ os_path_join save_path "config.yaml" <> training_log
  /\ NoDup (written_by_train save_path).
Proof.
  assert (Hinj : forall p1 p2 n1 n2,
     checkpoint_file p1 save_path n1 = checkpoint_file p2 save_path n2 ->
     p1 = p2 /\ n1 = n2).
  { intros p1 p2 n1 n2. rewrite !checkpoint_file_eq. intros H.
    apply String.app_inj in H.
    destruct p1, p2; try discriminate; (split; [reflexivity|]);
      apply String.app_inj in H; eapply RunDirectory.app_inv_r, H. }
  assert (Hlast : forall p n,
            last_char (checkpoint_file p save_path n) = Some "h"%char).
  { intros [] n; [apply prompt_file_last | apply model_file_last]. }
  assert (Hother : forall p n,
     checkpoint_file p save_path n <> os_path_join save_path "config.yaml"
     /\ checkpoint_file p save_path n <> training_log
     /\ checkpoint_file p save_path n <> Test.log_path).
  { intros p n. split.
    - intros H. pose proof (Hlast p n) as Hl. rewrite H, config_file_last in Hl.
      discriminate.
    - eapply not_a_log; [apply Hlast | discriminate]. }
  assert (Hcfg : os_path_join save_path "config.yaml" <> training_log).
  { eapply not_a_log; [apply config_file_last | discriminate]. }
  split; [exact Hinj|]. split; [exact Hother|]. split; [exact Hcfg|].
  unfold written_by_train, epoch_files.
  change (prompt_file save_path) with (checkpoint_file true save_path).
  change (model_file save_path) with (checkpoint_file false save_path).
  repeat (apply NoDup_cons_2;
          [rewrite ?not_elem_of_cons; repeat split;
           try apply not_elem_of_nil;
           try (intros H; apply Hinj in H as [? ?]; discriminate);
           try (intros H; symmetry in H; revert H; apply Hother);
           try apply Hother; try exact Hcfg|]).
  apply NoDup_nil_2.
Qed.

Lemma checkpoints_do_not_collide_witness :
  checkpoint_file true "./save/run" "last"
  <> checkpoint_file false "./save/run" "last".
Proof.
  intros H.
  apply (proj1 (checkpoints_do_not_collide "./save/run")) in H as [H _].
  discriminate.
Defined.

End CheckpointFiles.

Module Freeze.
Import Train.

Lemma prefix_spec a : forall s,
  String.prefix a s = true <-> exists post, s = a ++ post.
Proof.
  induction a as [|c a IH]; intros s.
  - split; [intros _; exists s; reflexivity | intros _; destruct s; reflexivity].
  - destruct s as [|c' s]; simpl.
    + split; [discriminate | intros (post & H); discriminate].
    + destruct (ascii_dec c c') as [->|Hne].
      * rewrite IH. split; intros (post & H); exists post.
        -- rewrite H. reflexivity.
        -- change (String c' a ++ post) with (String c' (a ++ post)) in H.
           congruence.
      * split; [discriminate|]. intros (post & H).
        change (String c a ++ post) with (String c (a ++ post)) in H.
        congruence.
Qed.

Lemma contains_unfold sub s :
  contains sub s
  = String.prefix sub s
    || match s with EmptyString => false | String _ s' => contains sub s' end.
Proof. destruct s; reflexivity. Qed.

Lemma contains_spec sub : forall s,
  contains sub s = true <-> exists pre post, s = pre ++ sub ++ post.
Proof.
  intros s. split.
  - induction s as [|c s IH]; rewrite contains_unfold, orb_true_iff.
    + intros [H|H]; [|discriminate]. apply prefix_spec in H as (post & ->).
      exists "", post. reflexivity.
    + intros [H|H].
      * apply prefix_spec in H as (post & ->). exists "", post. reflexivity.
      * apply IH in H as (pre & post & ->). exists (String c pre), post.
        reflexivity.
  - intros (pre & post & ->). induction pre as [|c pre IH].
    + rewrite contains_unfold, orb_true_iff. left. apply prefix_spec.
      exists post. reflexivity.
    + change (String c pre ++ sub ++ post) with (String c (pre ++ sub ++ post)).
      rewrite contains_unfold, IH. apply orb_true_r.
Qed.

Section Facts.
Context {F : Framework}.

(** X7 (the freezing of parameters, train.py:228-230).  The loop calls
    [requires_grad_(False)] on the parameters whose name satisfies the
    condition, in their order, and does nothing else; a name satisfies
    the condition if and only if "image_encoder" occurs in it and
    "prompt_generator" does not. *)
Theorem freeze_selects_by_name :
  (forall named w,
     for_each freeze named tt w
     = freeze_all (List.filter (fun np => frozen np.1) named) w)
  /\ (forall name,
        frozen name = true <->
        (exists pre post, name = pre ++ "image_encoder" ++ post)
        /\ ~ exists pre post, name = pre ++ "prompt_generator" ++ post).
Proof.
  split.
  - induction named as [|[name para] named IH]; intros w; [reflexivity|].
    simpl. unfold frozen at 1. simpl.
    destruct (contains "image_encoder" name
              && negb (contains "prompt_generator" name)).
    + unfold freeze_all. simpl. rewrite !bind_run.
      destruct (call _ _ w) as [[[]|e] w1]; [apply IH | reflexivity].
    + rewrite bind_run. unfold ret. apply IH.
  - intros name. unfold frozen.
    rewrite andb_true_iff, negb_true_iff, <- not_true_iff_false,
            !contains_spec.
    reflexivity.
Qed.

End Facts.

Lemma freeze_selects_by_name_witness :
  (exists pre post, "image_encoder.w" = pre ++ "image_encoder" ++ post)
  /\ ~ exists pre post, "image_encoder.w" = pre ++ "prompt_generator" ++ post.
Proof.
  apply (proj2 (@freeze_selects_by_name Toy.framework) "image_encoder.w").
  reflexivity.
Defined.

Example freeze_toy :
  List.filter (fun np : string * list Z => frozen np.1)
    [("image_encoder.blocks.0.w", [1]);
     ("image_encoder.prompt_generator.w", [2]);
     ("mask_decoder.w", [3])]
  = [("image_encoder.blocks.0.w", [1])].
Proof. reflexivity. Qed.

End Freeze.

Module BatchSize.
Import Test.
Section Facts.
Context {F : Framework}.

(** With a batch size of zero or less the [while] loop makes no progress:
    no amount of fuel lets it return. *)
Lemma loop_stuck model coord bsize n (fuel : nat) : forall ql preds w,
  bsize <= 0 -> ql < n ->
  match batched_predict_loop fuel model coord bsize n ql preds w with
  | Some (Ok _, _) => False
  | _ => True
  end.
Proof.
  induction fuel as [|fuel IH]; intros ql preds w Hb Hq; simpl;
    destruct (Z.ltb_spec ql n); try lia; try exact I.
  destruct (query_chunk model coord preds ql (Z.min (ql + bsize) n) w)
    as [[preds'|e] w1]; [|exact I].
  apply IH; lia.
Qed.

(** X8 ([batched_predict], test.py:17-29).  With a batch size of zero
    or less, [batched_predict] returns, with whatever fuel, only if the
    second dimension of [coord] is zero or less: on a tensor with a
    column the [while] loop never ends, unless a call raises. *)
Theorem batched_predict_needs_positive_bsize
    fuel model inp coord bsize w r w' :
  bsize <= 0 ->
  batched_predict fuel model inp coord bsize w = Some (Ok r, w') ->
  exists n x x', tensor_shape1 coord x = (Ok n, x') /\ n <= 0.
Proof.
  intros Hb. unfold batched_predict.
  destruct (call (E_call "no_grad.__enter__") no_grad_enter w)
    as [[[]|e] w0]; [|discriminate].
  rewrite bind_run.
  destruct (call (E_call "gen_feat") (model_gen_feat model inp) w0)
    as [[[]|e] w0'];
    [|unfold no_grad_leave;
      destruct (call (E_call "no_grad.__exit__") no_grad_exit w0')
        as [[[]|e'] w3]; discriminate].
  unfold call at 1.
  destruct (tensor_shape1 coord (ext w0')) as [[n|e] x'] eqn:Hshape;
    [|unfold no_grad_leave;
      destruct (call (E_call "no_grad.__exit__") no_grad_exit _)
        as [[[]|e'] w3]; discriminate].
  intros H. exists n, (ext w0'), x'. split; [exact Hshape|].
  destruct (Z_le_gt_dec n 0) as [Hn|Hn]; [exact Hn|].
  pose proof (loop_stuck model coord bsize n fuel 0 []
                {| files := files w0'; trace := (trace w0' ++ [E_call "shape"])%list;
                   ext := x' |} Hb ltac:(lia)) as Hstuck.
  destruct (batched_predict_loop fuel model coord bsize n 0 [] _)
    as [[[preds|e] w2]|]; [contradiction | |discriminate].
  unfold no_grad_leave in H.
  destruct (call (E_call "no_grad.__exit__") no_grad_exit w2)
    as [[[]|e'] w3]; discriminate.
Qed.

End Facts.

Lemma batched_predict_needs_positive_bsize_witness :
  exists n x x', @tensor_shape1 Toy.framework [] x = (Ok n, x') /\ n <= 0.
Proof.
  apply (@batched_predict_needs_positive_bsize Toy.framework 0%nat [] [] [] 0
           (Toy.world VNone) ([], [])
           (@mkWorld Toy.framework ∅
              [E_call "no_grad.__enter__"; E_call "gen_feat"; E_call "shape";
               E_call "torch.cat"; E_call "no_grad.__exit__"] VNone)).
  - lia.
  - vm_compute. reflexivity.
Defined.

(** A batch size of zero on a tensor that is not empty: out of fuel,
    however much there is. *)
Example batched_predict_toy_zero :
  batched_predict (F := Toy.framework) 1000 [] [] [1; 2; 3] 0
                  (Toy.world VNone) = None.
Proof. vm_compute. reflexivity. Qed.

End BatchSize.

(** ** Data sets and loaders *)

Module MissingDataset.
Import Train.
Section Facts.
Context {F : Framework}.
Local Notation value := (pyval Obj).

Lemma train_none model loss_mode w :
  train VNone model loss_mode w
  = (call (E_call "train") (model_train model) ;; raise (TypeError "len")) w.
Proof.
  unfold train. rewrite !bind_run.
  destruct (call _ _ w) as [[[]|e] w1]; reflexivity.
Qed.

Lemma eval_psnr_none model eval_type w :
  eval_psnr VNone model eval_type w
  = (call (E_call "eval") (model_eval model) ;; raise (TypeError "len")) w.
Proof.
  unfold eval_psnr. rewrite !bind_run.
  destruct (call _ _ w) as [[[]|e] w1]; reflexivity.
Qed.

Lemma fails_call_raise {A} e (op : Ext -> result unit * Ext) e' :
  fails (call e op ;; (raise e' : M A)).
Proof.
  intros w. rewrite bind_run. destruct (call e op w) as [[[]|e0] w1];
    reflexivity.
Qed.

Lemma make_data_loaders_none (config : value) log w tl vl w' :
  make_data_loaders config log w = (Ok (tl, vl), w') ->
  (get config "train_dataset" = Ok VNone -> tl = VNone)
  /\ (get config "val_dataset" = Ok VNone -> vl = VNone).
Proof.
  unfold make_data_loaders. intros H. do 4 invert_bind H.
  unfold ret in H. injection H as <- <- _.
  unfold lift in Hstep, Hstep1. injection Hstep as Hts _.
  injection Hstep1 as Hvs _.
  split; intros Hn; rewrite Hn in *.
  - injection Hts as <-. unfold make_data_loader in Hstep0. simpl in Hstep0.
    injection Hstep0 as <- _. reflexivity.
  - injection Hvs as <-. unfold make_data_loader in Hstep2. simpl in Hstep2.
    injection Hstep2 as <- _. reflexivity.
Qed.

(** X9 (a missing data set, train.py:50-52, 88-91, 161-163, 94-114,
    251, 280).  A configuration without [train_dataset] or [val_dataset]
    gets [None] for that loader; [train] and [eval_psnr] on [None] put the
    model in training or evaluation mode and then raise [TypeError] at
    [len(None)]; so an epoch raises when the training loader is [None],
    and when the validation loader is [None] and the validation is due. *)
Theorem missing_dataset_raises_type_error :
  (forall (config : value) log w tl vl w',
     make_data_loaders config log w = (Ok (tl, vl), w') ->
     (get config "train_dataset" = Ok VNone -> tl = VNone)
     /\ (get config "val_dataset" = Ok VNone -> vl = VNone))
  /\ (forall model loss_mode w,
        train VNone model loss_mode w
        = (call (E_call "train") (model_train model) ;;
           raise (TypeError "len")) w)
  /\ (forall model eval_type w,
        eval_psnr VNone model eval_type w
        = (call (E_call "eval") (model_eval model) ;;
           raise (TypeError "len")) w)
  /\ (forall E V epoch, train_loader E = VNone -> fails (epoch_body E V epoch))
  /\ (forall E V epoch,
        val_loader E = VNone -> due (epoch_val E) epoch ->
        fails (epoch_body E V epoch)).
Proof.
  split; [exact make_data_loaders_none|].
  split; [exact train_none|]. split; [exact eval_psnr_none|]. split.
  - intros E V epoch HE. unfold epoch_body. apply fails_bind_l.
    unfold train_epoch. rewrite HE.
    do 5 (apply fails_bind_r; intros ?). apply fails_bind_l.
    intros w. rewrite train_none. apply fails_call_raise.
  - intros E V epoch HE [Hnone Hmod]. unfold epoch_body.
    apply fails_bind_r; intros [t0 loss]. apply fails_bind_r; intros _.
    cbv zeta. apply fails_bind_r; intros V'. rewrite Hnone. simpl.
    rewrite Hmod. apply fails_bind_lift. unfold validate.
    apply fails_bind_r; intros et. apply fails_bind_l. rewrite HE.
    intros w. rewrite eval_psnr_none. apply fails_call_raise.
Qed.

End Facts.

Lemma missing_dataset_raises_type_error_witness :
  let config := Toy.without "val_dataset" (Toy.config "setr" "cod" VNone) in
  let run := make_data_loaders (F := Toy.framework) config []
                               (Toy.world VNone) in
  (returned run (VNone, VInt 0)).2 = VNone.
Proof.
  intros config run.
  refine (proj2 (proj1 (@missing_dataset_raises_type_error Toy.framework)
                   config [] (Toy.world VNone)
                   (returned run (VNone, VInt 0)).1
                   (returned run (VNone, VInt 0)).2 run.2 _) eq_refl).
  transitivity (Ok (returned run (VNone, VInt 0)), run.2);
    [apply returned_run; vm_compute; reflexivity|].
  destruct (returned run (VNone, VInt 0)); reflexivity.
Defined.

(** train.py on a configuration without [val_dataset] and with
    [epoch_val: 1]: the first epoch is trained, and its validation raises. *)
Example missing_val_dataset_toy :
  let run := script (F := Toy.framework) (mkArgs "c.yaml" None None)
               (Toy.world (Toy.without "val_dataset"
                             (Toy.config "setr" "cod" VNone))) in
  run.1 = Raise (TypeError "len")
  /\ omap epoch_marker (trace run.2) = [1]
  /\ omap saved_path (trace run.2)
     = ["./save/_c/prompt_epoch_last.pth";
        "./save/_c/prompt_epoch_best_loss.pth"].
Proof. vm_compute. auto. Qed.

End MissingDataset.

Module Shuffle.
Import Train.
Section Facts.
Context {F : Framework}.

Ltac flag_side :=
  first [ apply emitting_tolerates | apply emitting_allows; discriminate ].

Lemma train_script_shuffles a :
  steps (emitting (fun e => shuffle_flag e <> Some false)) (script a).
Proof. steps_through flag_side. Qed.

(** What test.py never calls: a shuffling loader, a loss, a gradient, an
    optimizer step, and nothing that overwrites a file. *)
Lemma test_script_quiet a :
  steps (emitting (fun e => shuffle_flag e <> Some true
                            /\ trains e = false /\ overwrites e = false))
        (Test.main a).
Proof.
  steps_through
    ltac:(first [ apply emitting_tolerates
                | apply emitting_allows; repeat split; discriminate
                | apply emitting_allows; repeat split;
                  first [discriminate | reflexivity] ]).
Qed.

(** X10 (the [shuffle] flag, train.py:50-85 and test.py:109).  train.py
    never builds a loader with [shuffle=False], test.py never builds one
    with [shuffle=True]; on a specification that is not [None],
    [make_data_loader] builds exactly one loader, with [shuffle=True], and
    [make_data_loader_no_shuffle] exactly one with [shuffle=False]. *)
Theorem loaders_shuffle_in_training_only :
  (forall a, steps (emitting (fun e => shuffle_flag e <> Some false)) (script a))
  /\ (forall a,
        steps (emitting (fun e => shuffle_flag e <> Some true)) (Test.main a))
  /\ (forall log spec tag,
        is_none spec = false ->
        observed shuffle_flag [true] (make_data_loader log spec tag)
        /\ observed shuffle_flag [false]
                    (make_data_loader_no_shuffle log spec tag)).
Proof.
  split; [exact train_script_shuffles|]. split.
  - intros a w. eapply emitting_weaken; [|apply test_script_quiet].
    intros e (H & _). exact H.
  - intros log spec tag Hs. unfold make_data_loader, make_data_loader_no_shuffle.
    rewrite Hs. split; observe.
Qed.


End Facts.

Lemma loaders_shuffle_in_training_only_witness :
  let spec : pyval (@Obj Toy.framework) :=
    VDict [("dataset", VStr "d"); ("wrapper", VStr "w");
           ("batch_size", VInt 1)] in
  observed shuffle_flag [true]
           (make_data_loader (F := Toy.framework) [] spec "val")
  /\ observed shuffle_flag [false]
              (make_data_loader_no_shuffle (F := Toy.framework) [] spec "val").
Proof.
  intros spec.
  exact (proj2 (proj2 (@loaders_shuffle_in_training_only Toy.framework))
               [] spec "val" eq_refl).
Defined.

(** Both loaders of train.py shuffle, the one for validation too. *)
Example shuffle_toy :
  omap shuffle_flag
       (trace (script (F := Toy.framework) (mkArgs "c.yaml" None None)
                      (Toy.world (Toy.config "setr" "cod" VNone))).2)
  = [true; true]
  /\ omap shuffle_flag
          (trace (Test.main (@Test.mkArgs Toy.framework (VStr "c") (VStr "m")
                                          (VStr "none"))
                            (Toy.world (Toy.config "setr" "cod" (VInt 3)))).2)
     = [false].
Proof. vm_compute. auto. Qed.

End Shuffle.

Module Files.
Import Train.
Section Facts.
Context {F : Framework}.
Local Notation value := (pyval Obj).


Lemma setup_save_path config_ save_path w E V w1 :
  setup config_ save_path w = (Ok (E, V), w1) -> Train.save_path E = save_path.
Proof.
  intros H. unfold setup in H. cbv zeta in H.
  repeat first
    [ invert_bind H
    | match type of H with
      | (match ?x with _ => _ end) _ = _ => destruct x
      end ].
  unfold ret in H. injection H as <- _ _. reflexivity.
Qed.

Lemma not_in_ne {A} (q : A) l path : In q l -> ~ In path l -> q <> path.
Proof. intros Hq Hp ->. contradiction. Qed.

Ltac written Hp :=
  first [ apply keeping_allows
        | apply keeping_tolerates_id
        | apply keeping_tolerates_ne;
          refine (not_in_ne _ _ _ _ Hp);
          unfold written_by_train, epoch_files; cbn [In]; auto 12 ].


Lemma epoch_body_keeps E V epoch path :
  ~ In path (epoch_files (Train.save_path E)) ->
  steps (keeping path) (epoch_body E V epoch).
Proof. intros Hp. steps_through ltac:(written Hp). Qed.

Lemma epochs_keep E path : forall epochs V,
  ~ In path (epoch_files (Train.save_path E)) ->
  steps (keeping path) (for_each (epoch_body E) epochs V).
Proof.
  intros epochs V Hp. apply steps_for_each; [tc_solve|].
  intros V' epoch. apply epoch_body_keeps, Hp.
Qed.





Lemma config_not_epoch_file save_path :
  ~ In (os_path_join save_path "config.yaml") (epoch_files save_path).
Proof.
  unfold epoch_files. cbn [In].
  intros H. repeat destruct H as [H|H]; try exact H;
    apply (f_equal last_char) in H;
    rewrite config_file_last, ?prompt_file_last, ?model_file_last in H;
    discriminate.
Qed.

Lemma write_config path (config : value) :
  leaves path [config] (open_w path ;; dump path config).
Proof.
  intros w a w' H. invert_bind H. unfold open_w in Hstep. invert_bind Hstep.
  injection Hstep as _ <-. unfold dump in H. invert_bind H.
  unfold call in Hstep. destruct (yaml_dump config _) as [r x].
  injection Hstep as -> <-. unfold emit in H. injection H as _ <-.
  rewrite !records_insert.
  repeat (destruct (decide (path = path)) as [_|Hne]; [|contradiction]).
  reflexivity.
Qed.

(** X13 (the copy of the configuration, train.py:208-209).  When [main]
    returns, [config.yaml] in the run directory holds one document, the
    configuration as it was loaded: neither the default of [data_norm]
    nor the state dictionaries that [main] stores in the configuration
    later are in it. *)
Theorem config_copy_is_the_loaded_configuration config_ save_path w w' :
  main config_ save_path w = (Ok tt, w') ->
  records w' (os_path_join save_path "config.yaml") = [config_].
Proof.
  unfold main. intros H. invert_bind H. destruct a as [E V].
  pose proof (setup_save_path _ _ _ _ _ _ Hstep) as Hsp.
  assert (Hcopy : records w0 (os_path_join save_path "config.yaml") = [config_]).
  { unfold setup in Hstep. cbv zeta in Hstep. invert_bind Hstep.
    rewrite <- bind_assoc in Hstep. invert_bind Hstep.
    apply write_config in Hstep1.
    match type of Hstep with
    | ?m ?w = _ =>
        assert (Hk : steps (keeping (os_path_join save_path "config.yaml")) m)
          by steps_through ltac:(apply keeping_allows);
        specialize (Hk w); rewrite Hstep in Hk
    end.
    unfold keeping in Hk. simpl in Hk. congruence. }
  do 3 invert_bind H. unfold ret in H. injection H as <-.
  match goal with
  | Ha : lift (add_one _) w0 = (Ok _, ?w1),
    Hr : lift (range _ _) ?w1 = (Ok _, ?w2),
    Hl : for_each (epoch_body E) ?epochs V ?w2 = (Ok _, _) |- _ =>
      pose proof (epochs_keep E (os_path_join save_path "config.yaml")
                              epochs V) as Hk;
      rewrite Hsp in Hk; specialize (Hk (config_not_epoch_file _) w2);
      rewrite Hl in Hk; unfold keeping in Hk; simpl in Hk;
      unfold lift in Ha, Hr; injection Ha as _ <-; injection Hr as _ <-
  end.
  congruence.
Qed.

End Facts.


(** The files of a run of train.py on the small framework. *)
Example files_toy :
  (map_to_list
     (files (script (F := Toy.framework) (mkArgs "c.yaml" (Some "run") None)
                    (Toy.world (Toy.config "setr" "cod" VNone))).2)).*1
  = ["./save/run/config.yaml"; "./save/run/prompt_epoch_best_loss.pth";
     "./save/run/prompt_epoch_best.pth"; "./save/run/prompt_epoch_last.pth";
     "./save/training_log.csv"].
Proof. vm_compute. reflexivity. Qed.

Lemma config_copy_is_the_loaded_configuration_witness :
  let config := Toy.without "data_norm" (Toy.config "setr" "cod" VNone) in
  records (main (F := Toy.framework) config "./save/run" (Toy.world VNone)).2
          "./save/run/config.yaml"
  = [config].
Proof.
  intros config.
  apply (@config_copy_is_the_loaded_configuration Toy.framework config
           "./save/run" (Toy.world VNone)).
  transitivity
    (Ok (returned (main (F := Toy.framework) config "./save/run"
                        (Toy.world VNone)) tt),
     (main (F := Toy.framework) config "./save/run" (Toy.world VNone)).2);
    [apply returned_run; vm_compute; reflexivity|].
  destruct (returned _ _). reflexivity.
Defined.

End Files.

(** ** The epoch loop *)

Module EpochLoop.
Import Train.
Section Facts.
Context {F : Framework}.
Local Notation value := (pyval Obj).

Lemma setup_before_the_loop config_ save_path :
  steps (emitting (fun e => phase e <> Some 3%nat)) (setup config_ save_path).
Proof.
  steps_through
    ltac:(first [ apply emitting_tolerates
                | apply emitting_allows; discriminate ]).
Qed.

(** X14 (resuming at the end, train.py:149, 247).  When [resume] is an
    integer that is not below [epoch_max], [main] is its set-up and
    nothing more: it returns or raises as the set-up does, in the same
    world, and makes no call of the epoch loop (no forward pass, no
    loss, no checkpoint, no row of the log). *)
Theorem resumed_past_the_end_trains_nothing
    (config_ : value) save_path (m r : Z) :
  getitem config_ "epoch_max" = Ok (VInt m) ->
  get config_ "resume" = Ok (VInt r) ->
  m <= r ->
  (forall w,
     main config_ save_path w
     = (let* _ := setup config_ save_path in ret tt) w)
  /\ steps (emitting (fun e => phase e <> Some 3%nat)) (main config_ save_path).
Proof.
  intros Hm Hr Hle.
  assert (Heq : forall w,
     main config_ save_path w
     = (let* _ := setup config_ save_path in ret tt) w).
  { intros w. unfold main. rewrite !bind_run.
    destruct (setup config_ save_path w) as [[[E V]|e] w1] eqn:Hsetup;
      [|reflexivity].
    apply Epochs.setup_result in Hsetup as (Hmax & Hres & _).
    rewrite Hm in Hmax. injection Hmax as Hmax.
    rewrite <- Hmax, (Hres r Hr). unfold lift, add_one, range, as_int.
    unfold bind. cbv beta iota. rewrite Epochs.range_step_seqZ.
    replace (m + 1 - (r + 1)) with (m - r) by lia.
    unfold seqZ. replace (Z.to_nat (m - r)) with 0%nat by lia.
    reflexivity. }
  split; [exact Heq|].
  intros w. rewrite Heq.
  apply (steps_bind (emitting (fun e => phase e <> Some 3%nat)));
    [apply setup_before_the_loop | intros ?; apply steps_ret; tc_solve].
Qed.


End Facts.

Lemma resumed_past_the_end_trains_nothing_witness :
  let config := Toy.config "setr" "cod" (VInt 2) in
  steps (emitting (fun e => phase e <> Some 3%nat))
        (main (F := Toy.framework) config "./save/run").
Proof.
  intros config.
  apply (@resumed_past_the_end_trains_nothing Toy.framework config
           "./save/run" 2 2 eq_refl eq_refl).
  lia.
Defined.

Example resumed_past_the_end_toy :
  let run := main (F := Toy.framework) (Toy.config "setr" "cod" (VInt 5))
                  "./save/run" (Toy.world VNone) in
  run.1 = Ok tt
  /\ omap phase (trace run.2) = [1; 1; 1; 1; 1; 1; 2; 2]%nat
  /\ (map_to_list (files run.2)).*1 = ["./save/run/config.yaml"].
Proof. vm_compute. auto. Qed.


(** [epoch_val: 0] divides by zero, [epoch_val: false] too, and a string
    is no divisor; in each case the epoch has been trained and saved. *)
Example unusable_epoch_val_toy :
  let run ev := epoch_body (Toy.env ev) (Toy.vars "cod") 1 (Toy.world VNone) in
  (run (VInt 0)).1 = Raise ZeroDivisionError
  /\ (run (VBool false)).1 = Raise ZeroDivisionError
  /\ (run (VStr "1")).1 = Raise (TypeError "%")
  /\ omap saved_path (trace (run (VInt 0)).2)
     = ["./save/run/prompt_epoch_last.pth";
        "./save/run/prompt_epoch_best_loss.pth"]
  /\ records (run (VInt 0)).2 training_log
     = [VList [VInt 1; VFloat 0.25%float]].
Proof. vm_compute. auto 10. Qed.

End EpochLoop.

(** ** The configuration *)

Module RequiredKeys.
Import Train.
Section Facts.
Context {F : Framework}.
Local Notation value := (pyval Obj).

Lemma test_main_needs a w (config : value) x k e :
  yaml_load (Test.args_config a) (ext w) = (Ok config, x) ->
  In k ["test_dataset"; "model"; "resume"] ->
  getitem config k = Raise e ->
  is_ok (Test.main a w).1 = false.
Proof.
  intros Hload Hk Hraise. unfold Test.main. rewrite bind_run.
  unfold call at 1. rewrite Hload.
  match goal with
  | |- is_ok (?m ?w1).1 = false => generalize w1; change (fails m)
  end.
  cbn [In] in Hk. destruct Hk as [<-|[<-|[<-|[]]]]; fails_at Hraise.
Qed.

Lemma setup_needs (config_ : value) save_path k e :
  In k ["model"; "optimizer"; "epoch_max"; "sam_checkpoint"; "eval_type"] ->
  getitem config_ k = Raise e ->
  fails (setup config_ save_path).
Proof.
  intros Hk Hraise. unfold setup. cbv zeta.
  do 3 (apply fails_bind_r; intros ?).
  apply fails_bind_r; intros [train_loader val_loader].
  apply fails_bind_r; intros data_norm.
  apply fails_bind_post with (Q := fun c => getitem c k = Raise e).
  - intros w c w' H. destruct (is_none data_norm).
    + unfold lift in H. injection H as H _.
      rewrite (EvalPsnr.getitem_setitem _ _ _ _ k H); [exact Hraise|].
      cbn [In] in Hk. intros <-.
      destruct Hk as [Hk|[Hk|[Hk|[Hk|[Hk|[]]]]]]; discriminate.
    + unfold ret in H. injection H as <- _. exact Hraise.
  - intros c Hc. clear Hraise.
    cbn [In] in Hk. destruct Hk as [<-|[<-|[<-|[<-|[<-|[]]]]]];
      fails_at Hc.
Qed.

(** X16 (required keys).  When the configuration lacks one of the keys
    model, optimizer, epoch_max, sam_checkpoint and eval_type (or is no
    dictionary), [main] of train.py raises without a call of the epoch
    loop; when it lacks one of test_dataset, model and resume, test.py
    raises and appends nothing to its log. *)
Theorem missing_key_raises_before_training :
  (forall (config_ : value) save_path k e,
     In k ["model"; "optimizer"; "epoch_max"; "sam_checkpoint"; "eval_type"] ->
     getitem config_ k = Raise e ->
     fails (main config_ save_path)
     /\ steps (emitting (fun ev => phase ev <> Some 3%nat))
              (main config_ save_path))
  /\ (forall a w (config : value) x k e,
        yaml_load (Test.args_config a) (ext w) = (Ok config, x) ->
        In k ["test_dataset"; "model"; "resume"] ->
        getitem config k = Raise e ->
        is_ok (Test.main a w).1 = false
        /\ records (Test.main a w).2 Test.log_path = records w Test.log_path).
Proof.
  split.
  - intros config_ save_path k e Hk Hraise.
    pose proof (setup_needs config_ save_path k e Hk Hraise) as Hf.
    split; [apply fails_bind_l, Hf|].
    intros w. unfold main. rewrite bind_run.
    pose proof (EpochLoop.setup_before_the_loop config_ save_path w) as Hs.
    specialize (Hf w).
    destruct (setup config_ save_path w) as [[EV|e0] w1];
      [discriminate | exact Hs].
  - intros a w config x k e Hload Hk Hraise.
    pose proof (test_main_needs a w config x k e Hload Hk Hraise) as Hf.
    split; [exact Hf|].
    pose proof (CsvLogs.test_run_row a w) as Hrow.
    destruct (Test.main a w) as [[[]|e0] w1]; [discriminate | exact Hrow].
Qed.

End Facts.

Lemma missing_key_raises_before_training_witness :
  let config := Toy.without "resume" (Toy.config "setr" "cod" VNone) in
  let a := @Test.mkArgs Toy.framework (VStr "c") (VStr "m") (VStr "none") in
  is_ok (Test.main a (Toy.world config)).1 = false
  /\ records (Test.main a (Toy.world config)).2 Test.log_path
     = records (Toy.world config) Test.log_path.
Proof.
  intros config a.
  apply (proj2 (@missing_key_raises_before_training Toy.framework)
               a (Toy.world config) config config "resume"
               (KeyError "resume") eq_refl).
  - cbn [In]. auto.
  - reflexivity.
Defined.

(** test.py on a configuration without [resume]: every metric has been
    computed and printed when the key is missed. *)
Example missing_resume_toy :
  let run := Test.main (@Test.mkArgs Toy.framework (VStr "c") (VStr "m")
                                    (VStr "none"))
               (Toy.world (Toy.without "resume"
                             (Toy.config "setr" "cod" VNone))) in
  run.1 = Raise (KeyError "resume")
  /\ length (omap metric_threshold (trace run.2)) = 25%nat
  /\ files run.2 = ∅.
Proof. vm_compute. auto. Qed.

Example missing_eval_type_toy :
  let run := script (F := Toy.framework) (mkArgs "c.yaml" None None)
               (Toy.world (Toy.without "eval_type"
                             (Toy.config "setr" "cod" VNone))) in
  run.1 = Raise (KeyError "eval_type")
  /\ omap epoch_marker (trace run.2) = [].
Proof. vm_compute. auto. Qed.

End RequiredKeys.

Module InitialState.
Import Train.
Section Facts.
Context {F : Framework}.
Local Notation value := (pyval Obj).

(** X17 (the state before the first epoch, train.py:212-216, 239-242).
    When the set-up of [main] returns, the configuration has the default
    of [data_norm] if it had none or [None], its own [data_norm]
    otherwise, and every other key is as it was loaded; the best
    validation result starts at 1e8 for eval_type ber and at -1e18
    otherwise, the best loss at 1e8; [epoch_val] and the run directory
    are those of the configuration and of the call. *)
Theorem setup_initial_state config_ save_path w E V w1 :
  setup config_ save_path w = (Ok (E, V), w1) ->
  exists data_norm eval_type,
    get config_ "data_norm" = Ok data_norm
    /\ get (config V) "data_norm"
       = Ok (if is_none data_norm then data_norm_default else data_norm)
    /\ (forall k, k <> "data_norm" ->
          get (config V) k = get config_ k
          /\ getitem (config V) k = getitem config_ k)
    /\ getitem config_ "eval_type" = Ok eval_type
    /\ max_val_v V = (if eq_str eval_type "ber" then 1e8 else -1e18)%float
    /\ best_loss V = 1e8%float
    /\ get config_ "epoch_val" = Ok (epoch_val E)
    /\ Train.save_path E = save_path.
Proof.
  intros H. unfold setup in H. cbv zeta in H.
  repeat first
    [ invert_bind H
    | match type of H with
      | (match ?x with _ => _ end) _ = _ => destruct x
      end ].
  unfold ret in H. injection H as <- <- _. simpl.
  match goal with
  | Hd : lift (get config_ "data_norm") _ = (Ok ?dn, _),
    Hc : (if is_none ?dn then _ else _) _ = (Ok ?c, _),
    He : lift (getitem ?c "eval_type") _ = (Ok ?et, _),
    Hv : lift (get ?c "epoch_val") _ = (Ok ?ev, _) |- _ =>
      exists dn, et;
      unfold lift in Hd, He, Hv; injection Hd as Hd _; injection He as He _;
      injection Hv as Hv _;
      assert (Hcfg : get c "data_norm"
                     = Ok (if is_none dn then data_norm_default else dn)
                     /\ forall k, k <> "data_norm" ->
                          get c k = get config_ k
                          /\ getitem c k = getitem config_ k);
      [ destruct (is_none dn) eqn:Hn;
        [ unfold lift in Hc; injection Hc as Hs _; split;
          [ destruct config_; try discriminate; injection Hs as <-;
            apply PrepareTraining.get_store_same
          | intros k Hk; split;
            [eapply EvalPsnr.get_setitem | eapply EvalPsnr.getitem_setitem];
            eauto ]
        | unfold ret in Hc; injection Hc as <- _; auto ]
      | ]
  end.
  destruct Hcfg as (Hdn & Hother).
  split; [assumption|]. split; [exact Hdn|]. split; [exact Hother|].
  rewrite <- (proj2 (Hother "eval_type" ltac:(discriminate))).
  rewrite <- (proj1 (Hother "epoch_val" ltac:(discriminate))).
  split; [assumption|]. split; [destruct (eq_str _ "ber"); reflexivity|].
  auto.
Qed.

End Facts.

Lemma setup_initial_state_witness :
  let config := Toy.config "setr" "ber" VNone in
  let run := setup (F := Toy.framework) config "./save/run"
                   (Toy.world VNone) in
  let V := (returned run (Toy.env VNone, Toy.vars "ber")).2 in
  get (Train.config V) "data_norm" = Ok data_norm_default
  /\ max_val_v V = 1e8%float.
Proof.
  intros config run V.
  assert (Hrun : run = (Ok ((returned run (Toy.env VNone, Toy.vars "ber")).1, V),
                        run.2)).
  { transitivity (Ok (returned run (Toy.env VNone, Toy.vars "ber")), run.2);
      [apply returned_run; vm_compute; reflexivity|].
    unfold V. destruct (returned run _). reflexivity. }
  destruct (@setup_initial_state Toy.framework _ _ _ _ _ _ Hrun)
    as (data_norm & eval_type & Hdn & Hc & _ & Het & Hmax & _).
  injection Hdn as <-. injection Het as <-. split; [exact Hc | exact Hmax].
Defined.

End InitialState.

(** ** The scheduler and the summary of an epoch *)

Module Scheduler.
Import Train.
Section Facts.
Context {F : Framework}.
Local Notation value := (pyval Obj).


End Facts.


End Scheduler.

Module EpochSummary.
Import Train.
Section Facts.
Context {F : Framework}.
Local Notation value := (pyval Obj).





End Facts.


(** With [epoch_val: 2], the first epoch logs nothing and the second one
    logs its summary. *)
Example epoch_summary_toy :
  let run epoch := epoch_body (Toy.env (VInt 2)) (Toy.vars "cod") epoch
                              (Toy.world VNone) in
  omap logged (trace (run 1).2) = []
  /\ omap logged (trace (run 2).2)
     = [[Lit "epoch "; Fmt (VInt 2); Lit "/"; Fmt (VInt 2); Lit ", ";
         Lit "train G: loss="; Fmt4f 0.25%float; Lit ", ";
         Lit "val: "; Lit "sm"; Lit "="; Fmt4f 0.5%float; Lit ", ";
         Lit "val: "; Lit "em"; Lit "="; Fmt4f 0.25%float; Lit ", ";
         Lit "val: "; Lit "wfm"; Lit "="; Fmt4f 0.125%float; Lit ", ";
         Lit "val: "; Lit "mae"; Lit "="; Fmt4f 0%float; Lit ", ";
         Lit "1s"; Lit " "; Lit "1s"; Lit "/"; Lit "1s"]].
Proof. vm_compute. auto. Qed.

End EpochSummary.
